(** * TAURO timesheet extraction: a shallow embedding and its properties

    The development follows the Python sources of the extraction pipeline:
    - [extract_timesheet_events.py]: coordinate splitting, time and date
      normalisation, header search, the section row walk and the loop over
      the sheets of a workbook;
    - [basic_analyzer.py]: the bilingual keyword classifier, the date range
      and the timeline;
    - [extract_report_header.py] and [extract_operational_notes.py]: the
      labelled field extractors, the notes structure, the weather marks,
      the pumping data scan, the remarks and the choice of the notes sheet;
    - [app.py]: the filter on the names of uploaded files.

    Conventions of the embedding.
    - Python [str] is [string]; characters are the ASCII range, so
      [isalpha], [isdigit], [isspace] and [lower] are the ASCII restrictions
      of the Python methods. Accented keywords are kept as their UTF-8
      bytes, on which substring search agrees with search on code points.
      A statement that says what is returned for every input, or exactly
      when a function raises, depends on these classes: it is made for
      ASCII input, by a hypothesis [is_ascii], [plain_refs], [ascii_values],
      [plain_sheet] or [plain_workbook]. Outside ASCII the code can behave
      otherwise: [str.isdigit] accepts digits that [int] rejects, and
      [str.strip] removes more kinds of white space.
    - Python [int] is [Z]; [int(text)] on digit text and [str(n)] are the
      decimal conversions, with no bound on the number of digits.
    - A [dict] that is iterated (a sheet of the cell map) is an association
      list in insertion order; a [dict] that is only written and read by key
      (the extracted field tables) is a [gmap].
    - An exception is a [Raise] result; a [while] loop takes fuel, and the
      theorems show that the fuel given by the callers is enough.
    - [list.sort] is a stable insertion sort; texts are ordered as their
      bytes are, which on UTF-8 is the order of the code points. *)

From Stdlib Require Import ZArith NArith List String Ascii Bool Lia.
From Stdlib Require Import DecimalString DecimalN DecimalZ DecimalPos.
From Stdlib Require Import Sorted Permutation.
From stdpp Require Import gmap strings.
Import ListNotations.

Local Open Scope string_scope.
Local Open Scope Z_scope.

(** [simpl] may unfold the concatenation of texts on a constructor. *)
#[local] Arguments String.append !s1 s2 : simpl nomatch.

(** ** Exceptions *)

Inductive exn : Type :=
| ValueError
| TypeError.

Inductive result (A : Type) : Type :=
| Ok (a : A)
| Raise (e : exn).

Arguments Ok {A} a.
Arguments Raise {A} e.

Global Instance result_ret : MRet result := fun A a => Ok a.

Global Instance result_bind : MBind result := fun A B k r =>
  match r with
  | Ok a => k a
  | Raise e => Raise e
  end.

(** ** Characters and strings, as the Python methods used by the code *)

Definition code (c : ascii) : N := N_of_ascii c.

Definition in_range (lo hi : N) (c : ascii) : bool :=
  ((lo <=? code c) && (code c <=? hi))%N.

(** [c.isdigit()] *)
Definition isdigit (c : ascii) : bool := in_range 48 57 c.

(** [c.isalpha()] *)
Definition isalpha (c : ascii) : bool := in_range 65 90 c || in_range 97 122 c.

(** Whitespace removed by [str.strip()]: tab to carriage return, the four
    separators 0x1c to 0x1f, and the space. *)
Definition isspace (c : ascii) : bool :=
  in_range 9 13 c || in_range 28 31 c || in_range 32 32 c.

Definition lower_char (c : ascii) : ascii :=
  if in_range 65 90 c then ascii_of_N (code c + 32) else c.

Fixpoint str_map (f : ascii -> ascii) (s : string) : string :=
  match s with
  | EmptyString => EmptyString
  | String c r => String (f c) (str_map f r)
  end.

(** [s.lower()] *)
Definition lower (s : string) : string := str_map lower_char s.

(** [''.join([c for c in s if p(c)])] *)
Fixpoint str_filter (p : ascii -> bool) (s : string) : string :=
  match s with
  | EmptyString => EmptyString
  | String c r => if p c then String c (str_filter p r) else str_filter p r
  end.

Fixpoint str_forall (p : ascii -> bool) (s : string) : bool :=
  match s with
  | EmptyString => true
  | String c r => p c && str_forall p r
  end.

Definition is_empty (s : string) : bool :=
  match s with
  | EmptyString => true
  | String _ _ => false
  end.

(** [s.isdigit()]: at least one character, all of them digits. *)
Definition str_isdigit (s : string) : bool :=
  negb (is_empty s) && str_forall isdigit s.

Fixpoint lstrip (s : string) : string :=
  match s with
  | EmptyString => EmptyString
  | String c r => if isspace c then lstrip r else s
  end.

Fixpoint rstrip (s : string) : string :=
  match s with
  | EmptyString => EmptyString
  | String c r =>
      let r' := rstrip r in
      if is_empty r' && isspace c then EmptyString else String c r'
  end.

(** [s.strip()] *)
Definition strip (s : string) : string := rstrip (lstrip s).

(** [sub in s] *)
Fixpoint contains (sub s : string) : bool :=
  String.prefix sub s ||
  match s with
  | EmptyString => false
  | String _ r => contains sub r
  end.

(** [s.startswith(p)] *)
Definition startswith (s p : string) : bool := String.prefix p s.

(** [c in s] for a single character. *)
Fixpoint has_char (c : ascii) (s : string) : bool :=
  match s with
  | EmptyString => false
  | String d r => Ascii.eqb c d || has_char c r
  end.

(** [s.split(sep, 1)]: the text before the first separator, and the text
    after it when there is one. *)
Fixpoint split_once (sep : ascii) (s : string) : string * option string :=
  match s with
  | EmptyString => (EmptyString, None)
  | String c r =>
      if Ascii.eqb c sep then (EmptyString, Some r)
      else let '(a, b) := split_once sep r in (String c a, b)
  end.

(** [s[:n]] and [s[n:]] *)
Fixpoint take (n : nat) (s : string) : string :=
  match n, s with
  | S k, String c r => String c (take k r)
  | _, _ => EmptyString
  end.

Fixpoint drop (n : nat) (s : string) : string :=
  match n, s with
  | S k, String _ r => drop k r
  | _, _ => s
  end.

(** ** Integers and text *)

Definition digit_val (c : ascii) : Z := Z.of_N (code c) - 48.

Fixpoint digits_value (s : string) (acc : Z) : Z :=
  match s with
  | EmptyString => acc
  | String c r => digits_value r (10 * acc + digit_val c)
  end.

(** [int(s)] for the texts the code passes to it: only digits, here the
    ASCII ones. The empty text raises [ValueError]. *)
Definition py_int (s : string) : result Z :=
  if str_isdigit s then Ok (digits_value s 0) else Raise ValueError.

(** [str(n)] and [f"{n}"] for an integer. *)
Definition str_int (n : Z) : string := NilZero.string_of_int (Z.to_int n).

(** [f"{n:02d}"] *)
Definition fmt_02d (n : Z) : string :=
  let s := str_int n in
  if (String.length s <? 2)%nat then "0" ++ s else s.

(** ** extract_timesheet_events.py: coordinates *)

(** [split_cell_reference]; the copy in extract_operational_notes.py has
    the same body. *)
Definition split_cell_reference (cell_ref : string) : result (string * Z) :=
  let letters := str_filter isalpha cell_ref in
  numbers ← py_int (str_filter isdigit cell_ref);
  Ok (letters, numbers).

(** The references built by the code: [f"{col}{row}"]. *)
Definition cell_name (col : string) (row : Z) : string := col ++ str_int row.

(** ** Cell values *)

(** A scalar of the loaded JSON cell map. A float is kept as what the code
    can observe of it: whether it is non-zero and its [str()] text. *)
Inductive value : Type :=
| VNull
| VBool (b : bool)
| VInt (n : Z)
| VFloat (nonzero : bool) (text : string)
| VStr (s : string).

(** Truth value of a scalar, as tested by [if not value]. *)
Definition truthy (v : value) : bool :=
  match v with
  | VNull => false
  | VBool b => b
  | VInt n => negb (n =? 0)
  | VFloat nz _ => nz
  | VStr s => negb (is_empty s)
  end.

(** [str(value)] *)
Definition py_str (v : value) : string :=
  match v with
  | VNull => "None"
  | VBool true => "True"
  | VBool false => "False"
  | VInt n => str_int n
  | VFloat _ t => t
  | VStr s => s
  end.

(** A sheet: cell reference to value, in insertion order. *)
Definition sheet : Type := list (string * value).

(** [data.get(key)] and [key in data] *)
Fixpoint sheet_get (data : sheet) (key : string) : option value :=
  match data with
  | [] => None
  | (k, v) :: rest => if String.eqb k key then Some v else sheet_get rest key
  end.

Definition sheet_mem (data : sheet) (key : string) : bool :=
  match sheet_get data key with
  | Some _ => true
  | None => false
  end.

(** ** extract_timesheet_events.py: time and date normalisation *)

(** The body of [format_time] on the trimmed text of its argument. On
    ASCII text the conversions [int(...)] that follow [isdigit()] cannot
    fail, and they are the value of the digits; a digit outside ASCII can
    pass [isdigit()] and make [int] raise, which is not modelled. *)
Definition format_time_str (time_str : string) : string :=
  if has_char ":" time_str then time_str
  else if str_isdigit time_str then
    if (String.length time_str <=? 2)%nat then
      fmt_02d (digits_value time_str 0) ++ ":00"
    else if (String.length time_str =? 3)%nat then
      let hours := digits_value (take 1 time_str) 0 in
      let minutes := digits_value (drop 1 time_str) 0 in
      fmt_02d hours ++ ":" ++ fmt_02d minutes
    else if (String.length time_str =? 4)%nat then
      let hours := digits_value (take 2 time_str) 0 in
      let minutes := digits_value (drop 2 time_str) 0 in
      fmt_02d hours ++ ":" ++ fmt_02d minutes
    else time_str
  else time_str.

(** [format_time]; the argument [None] stands for the Python [None], be it
    an absent cell ([data.get] returned [None]) or a JSON null. *)
Definition format_time (time_value : option value) : option string :=
  match time_value with
  | None | Some VNull => None
  | Some v => Some (format_time_str (strip (py_str v)))
  end.

(** [format_date] *)
Definition format_date (date_value : option value) : option string :=
  match date_value with
  | None | Some VNull => None
  | Some v =>
      let date_str := strip (py_str v) in
      Some (if has_char " " date_str then fst (split_once " " date_str)
            else date_str)
  end.

(** ** extract_timesheet_events.py: header search *)

Inductive section_format : Type :=
| english
| spanish.

(** One entry of [header_sections]. *)
Record section : Type := mk_section {
  format : section_format;
  event_col : string;
  date_col : string;
  time_col : string;
  start_row : Z
}.

(** [value.strip().lower()] *)
Definition clean (s : string) : string := lower (strip s).

Definition is_event (s : string) : bool := String.eqb (clean s) "event".
Definition is_date (s : string) : bool := String.eqb (clean s) "date".
Definition is_time (s : string) : bool := String.eqb (clean s) "time".

(** [other_value.strip().lower() in ["hrs", "time"]] *)
Definition is_hrs_or_time (s : string) : bool :=
  String.eqb (clean s) "hrs" || String.eqb (clean s) "time".

(** The inner loop of both patterns: over all cells of the sheet, the
    string cells of row [row] whose text passes [first] set the first
    column, those that pass [second] (and not [first]) set the second one.
    A column is [Some] exactly when its found flag is set: the code assigns
    the two together. *)
Fixpoint scan_row (first second : string -> bool) (data : sheet) (row : Z)
    (cols : option string * option string)
    : result (option string * option string) :=
  match data with
  | [] => Ok cols
  | (other_cell, other_value) :: rest =>
      match other_value with
      | VStr s =>
          '(other_col, other_row) ← split_cell_reference other_cell;
          scan_row first second rest row
            (if other_row =? row then
               if first s then (Some other_col, snd cols)
               else if second s then (fst cols, Some other_col)
               else cols
             else cols)
      | _ => scan_row first second rest row cols
      end
  end.

(** The outer loop of [find_timesheet_headers]: [cells] is what is left of
    the iteration over [data.items()], [acc] is [header_sections]. *)
Fixpoint find_headers_from (data cells : sheet) (acc : list section)
    : result (list section) :=
  match cells with
  | [] => Ok acc
  | (cell_ref, v) :: rest =>
      match v with
      | VStr s =>
          if is_event s then
            '(col_event, row) ← split_cell_reference cell_ref;
            '(col_date, col_time) ← scan_row is_date is_time data row (None, None);
            match col_date, col_time with
            | Some d, Some t =>
                find_headers_from data rest
                  (acc ++ [mk_section english col_event d t (row + 1)])
            | _, _ => find_headers_from data rest acc
            end
          else if is_date s && startswith cell_ref "A" then
            '(col_date, row) ← split_cell_reference cell_ref;
            '(col_time, col_event) ←
              scan_row is_hrs_or_time is_event data row (None, None);
            match col_time, col_event with
            | Some t, Some e =>
                find_headers_from data rest
                  (acc ++ [mk_section spanish e col_date t (row + 1)])
            | _, _ => find_headers_from data rest acc
            end
          else find_headers_from data rest acc
      | _ => find_headers_from data rest acc
      end
  end.

Definition find_timesheet_headers (data : sheet) : result (list section) :=
  find_headers_from data data [].

(** ** extract_timesheet_events.py: the section row walk *)

(** One extracted event, with the keys the walk gives it. *)
Record event : Type := mk_event {
  Event : string;
  Date : option string;
  Time : option string;
  Section : section_format;
  Row : Z
}.

(** The test that ends the walk at a present cell:
    [not event_value or (isinstance(event_value, str) and not event_value.strip())] *)
Definition no_event (event_value : value) : bool :=
  negb (truthy event_value) ||
  match event_value with
  | VStr s => is_empty (strip s)
  | _ => false
  end.

(** The [while True] loop, from row [row]; [None] when the fuel runs out
    before the loop breaks. *)
Fixpoint walk_rows (fuel : nat) (data : sheet) (sec : section) (row : Z)
    : option (list event) :=
  match fuel with
  | O => None
  | S fuel' =>
      let event_cell := cell_name (event_col sec) row in
      let date_cell := cell_name (date_col sec) row in
      let time_cell := cell_name (time_col sec) row in
      match sheet_get data event_cell with
      | None => Some []
      | Some event_value =>
          if no_event event_value then Some []
          else
            let ev := mk_event (strip (py_str event_value))
                        (format_date (sheet_get data date_cell))
                        (format_time (sheet_get data time_cell))
                        (format sec) row in
            match walk_rows fuel' data sec (row + 1) with
            | Some evs => Some (ev :: evs)
            | None => None
            end
      end
  end.

(** [extract_events_from_section]: the walk can pass at most one row per
    cell of the sheet, so one more step than there are cells is enough. *)
Definition extract_events_from_section (data : sheet) (sec : section)
    : option (list event) :=
  walk_rows (S (List.length data)) data sec (start_row sec).

(** ** basic_analyzer.py: the category classifier *)

(** The keys of [categories], in the order of the source. *)
Definition categories : list string :=
  ["Alije/Transferencia"; "Carga"; "Descarga"; "Llegada/Salida"; "Muestreo";
   "Inspección"; "Operaciones de Tanque"; "Limpieza"; "Certificación";
   "Otros"].

(** The [patterns] table, in the order of the source. *)
Definition patterns : list (string * list string) :=
  [
    ("Alije/Transferencia",
     ["barges"; "barge"; "cast off"; "approach"; "line on board";
      "all fast"; "hoses connected"; "alongside"; "mooring"; "unmoor";
      "berth"; "departure"; "first line"; "last line"; "ship to ship";
      "transfer"; "barcazas"; "barcaza"; "atraque"; "desatraque"; "amarre";
      "desamarre"; "aproximación"; "acercamiento"; "transferencia";
      "alije"; "mangueras conectadas"; "primera línea"; "última línea";
      "buque a buque"]);
    ("Carga",
     ["loading"; "load"; "cargo loading"; "start loading";
      "finish loading"; "loading completed"; "loading operation"; "carga";
      "cargar"; "cargando"; "inicio carga"; "fin carga";
      "carga completada"; "operación de carga"; "embarque"]);
    ("Descarga",
     ["discharge"; "unload"; "unloading"; "cargo discharge";
      "discharge completed"; "descarga"; "descargar"; "descargando";
      "descarga completada"; "desembarque"]);
    ("Llegada/Salida",
     ["arrival"; "arrive"; "departure"; "depart"; "eta"; "etd";
      "pilot on board"; "pilot off"; "tug"; "tugboat"; "escort"; "anchor";
      "llegada"; "llegar"; "salida"; "salir"; "práctico a bordo";
      "práctico fuera"; "remolcador"; "escolta"; "ancla"; "fondeo"]);
    ("Muestreo",
     ["sample"; "sampling"; "samples taken"; "sample collection";
      "laboratory sample"; "muestra"; "muestras"; "muestreo";
      "toma de muestras"; "recolección muestras"; "muestra laboratorio"]);
    ("Inspección",
     ["inspection"; "inspections"; "survey"; "check"; "verification";
      "examine"; "tank inspection"; "cargo inspection";
      "safety inspection"; "inspección"; "inspecciones"; "verificación";
      "revisión"; "chequeo"; "inspección tanques"; "inspección carga";
      "inspección seguridad"; "verificar"]);
    ("Operaciones de Tanque",
     ["tank"; "tanks"; "cargo tank"; "pump"; "pumping"; "valve";
      "pipeline"; "manifold"; "cargo system"; "tank cleaning";
      "tank preparation"; "tanque"; "tanques"; "tanque carga"; "bomba";
      "bombeo"; "válvula"; "tubería"; "colector"; "sistema carga";
      "limpieza tanque"; "preparación tanque"]);
    ("Limpieza",
     ["cleaning"; "wash"; "clean"; "tank cleaning"; "cargo cleaning";
      "limpieza"; "lavado"; "limpiar"; "limpieza tanque"; "limpieza carga"]);
    ("Certificación",
     ["certificate"; "certification"; "cert"; "document"; "documentation";
      "certificado"; "certificación"; "documento"; "documentación"])
  ].

(** [any(keyword in event_text for keyword in keywords)] *)
Definition any_keyword (keywords : list string) (event_text : string) : bool :=
  existsb (fun keyword => contains keyword event_text) keywords.

(** The [for category, keywords in patterns.items()] loop with its [break]:
    the category of the first entry that matches, if any. *)
Fixpoint first_match (pats : list (string * list string)) (event_text : string)
    : option string :=
  match pats with
  | [] => None
  | (category, keywords) :: rest =>
      if any_keyword keywords event_text then Some category
      else first_match rest event_text
  end.

(** The bucket one event goes to; [event_text] is already lowercased. *)
Definition category_of_text (event_text : string) : string :=
  match first_match patterns event_text with
  | Some category => category
  | None => "Otros"
  end.

(** The body of the loop over events, for the text of one event. *)
Definition categorize (text : string) : string := category_of_text (lower text).

(** [categories[category].append(event)] on the table of buckets. *)
Fixpoint bucket_append (buckets : list (string * list event)) (category : string)
    (ev : event) : list (string * list event) :=
  match buckets with
  | [] => []
  | (c, evs) :: rest =>
      if String.eqb c category then (c, (evs ++ [ev])%list) :: rest
      else (c, evs) :: bucket_append rest category ev
  end.

(** [_categorize_events]: every event is appended to one bucket, and the
    empty buckets are dropped from the result. *)
Definition _categorize_events (events : list event) : list (string * list event) :=
  let buckets :=
    fold_left (fun acc ev => bucket_append acc (categorize (Event ev)) ev)
      events (map (fun c => (c, [])) categories) in
  List.filter (fun '(_, evs) => negb (Nat.eqb (List.length evs) 0)) buckets.

(** ** extract_report_header.py: labelled fields of the cover sheet *)

(** [parts[1]] of [text.split(':', 1)]; every use is on a text that has
    been checked to hold a colon. *)
Definition after_colon (s : string) : string :=
  match snd (split_once ":" s) with
  | Some rest => rest
  | None => EmptyString
  end.

Definition field_mapping : list (string * list string) :=
  [("file_number", ["File N°"; "File No"]);
   ("terminal", ["Terminal"]);
   ("inspector", ["Inspector"; "Surveyor"]);
   ("revised_by", ["Revised by"]);
   ("approved_by", ["Approved by"]);
   ("operation_date", ["Date of Operation completed"]);
   ("report_date", ["Date of Report Issuing"]);
   ("note", ["NOTE"])].

(** The loop over [field_names] of one field: the first name that the cell
    text starts with (followed by a colon) stores the text after the first
    colon, trimmed, and breaks. *)
Definition set_operational_field (value_clean : string)
    (operational_data : gmap string string) (field : string * list string)
    : gmap string string :=
  let '(field_key, field_names) := field in
  if existsb (fun field_name => startswith value_clean (field_name ++ ":"))
       field_names
  then <[field_key := strip (after_colon value_clean)]> operational_data
  else operational_data.

(** [extract_operational_data] *)
Definition extract_operational_data (sheet_data : sheet) : gmap string string :=
  fold_left
    (fun operational_data '(cell, v) =>
       match v with
       | VStr s =>
           if is_empty s then operational_data
           else fold_left (set_operational_field (strip s)) field_mapping
                  operational_data
       | _ => operational_data
       end)
    sheet_data ∅.

(** ** extract_operational_notes.py: header of the notes sheet *)

Definition header_fields : list (string * string) :=
  [("vessel", "Vessel"); ("terminal", "Terminal"); ("location", "Location");
   ("product", "Product"); ("date", "Date"); ("file_no", "File N")].

(** [field_key not in header_data] *)
Definition unset (header_data : gmap string string) (field_key : string) : bool :=
  match header_data !! field_key with
  | Some _ => false
  | None => true
  end.

(** [v and v != field_name and len(v) > 1] *)
Definition usable (v field_name : string) : bool :=
  negb (is_empty v) && negb (String.eqb v field_name) &&
  (1 <? String.length v)%nat.

(** The first loop over [header_fields] for one cell: "Field: value". *)
Definition set_inline_field (value_clean : string)
    (header_data : gmap string string) (field : string * string)
    : gmap string string :=
  let '(field_key, field_name) := field in
  if unset header_data field_key && contains field_name value_clean &&
     has_char ":" value_clean
  then
    match snd (split_once ":" value_clean) with
    | Some rest =>
        let field_value := strip rest in
        if usable field_value field_name
        then <[field_key := field_value]> header_data
        else header_data
    | None => header_data
    end
  else header_data.

(** The value a neighbour cell offers to a field: the cell is present and
    truthy, its trimmed text is usable and is not itself a field name. *)
Definition neighbour_value (sheet_data : sheet) (cell field_name : string)
    : option string :=
  match sheet_get sheet_data cell with
  | Some v =>
      if truthy v then
        let text := strip (py_str v) in
        if usable text field_name &&
           negb (existsb (String.eqb text) (map snd header_fields))
        then Some text else None
      else None
  | None => None
  end.

(** [chr(ord(col) + k)]: a [TypeError] unless [col] is one character. *)
Definition shift_col (col : string) (k : N) : result string :=
  match col with
  | String c EmptyString => Ok (String (ascii_of_N (code c + k)) EmptyString)
  | _ => Raise TypeError
  end.

(** The second loop over [header_fields] for one cell: the field name
    alone in the cell, its value in a neighbour. *)
Definition set_adjacent_field (sheet_data : sheet) (value_clean col : string)
    (row : Z) (header_data : gmap string string) (field : string * string)
    : result (gmap string string) :=
  let '(field_key, field_name) := field in
  if unset header_data field_key && String.eqb value_clean field_name then
    match
      (if String.eqb col "B"
       then neighbour_value sheet_data (cell_name "D" row) field_name
       else None)
    with
    | Some target_value => Ok (<[field_key := target_value]> header_data)
    | None =>
        c1 ← shift_col col 1;
        c2 ← shift_col col 2;
        c3 ← shift_col col 3;
        let adjacent_cells :=
          [cell_name c1 row; cell_name c2 row; cell_name c3 row;
           cell_name col (row + 1)] in
        match
          list_find (fun o : option string => is_Some o)
            (map (fun adj_cell =>
                    neighbour_value sheet_data adj_cell field_name)
               adjacent_cells)
        with
        | Some (_, Some adj_value) =>
            Ok (<[field_key := adj_value]> header_data)
        | _ => Ok header_data
        end
    end
  else Ok header_data.

Fixpoint set_adjacent_fields (sheet_data : sheet) (value_clean col : string)
    (row : Z) (header_data : gmap string string)
    (fields : list (string * string)) : result (gmap string string) :=
  match fields with
  | [] => Ok header_data
  | field :: rest =>
      header_data' ←
        set_adjacent_field sheet_data value_clean col row header_data field;
      set_adjacent_fields sheet_data value_clean col row header_data' rest
  end.

(** The body of the loop over the cells of [extract_timesheet_header]. *)
Definition header_cell (sheet_data : sheet) (header_data : gmap string string)
    (cell_ref : string) (v : value) : result (gmap string string) :=
  match v with
  | VStr s =>
      if is_empty s then Ok header_data
      else
        '(col, row) ← split_cell_reference cell_ref;
        if 15 <? row then Ok header_data
        else
          let value_clean := strip s in
          set_adjacent_fields sheet_data value_clean col row
            (fold_left (set_inline_field value_clean) header_fields
               header_data)
            header_fields
  | _ => Ok header_data
  end.

Fixpoint header_cells (sheet_data cells : sheet)
    (header_data : gmap string string) : result (gmap string string) :=
  match cells with
  | [] => Ok header_data
  | (cell_ref, v) :: rest =>
      header_data' ← header_cell sheet_data header_data cell_ref v;
      header_cells sheet_data rest header_data'
  end.

(** [extract_timesheet_header] *)
Definition extract_timesheet_header (sheet_data : sheet)
    : result (gmap string string) :=
  header_cells sheet_data sheet_data ∅.

(** ** extract_operational_notes.py: the notes table and the pumping data *)

(** The [structure] dictionary. *)
Record notes_structure : Type := mk_structure {
  special_notes_found : bool;
  general_notes_found : bool;
  special_notes_col : option string;
  general_notes_col : option string;
  notes_start_row : option Z
}.

(** [not structure['start_row']] *)
Definition no_start_row (st : notes_structure) : bool :=
  match notes_start_row st with
  | Some r => r =? 0
  | None => true
  end.

Fixpoint notes_structure_from (cells : sheet) (st : notes_structure)
    : result notes_structure :=
  match cells with
  | [] => Ok st
  | (cell_ref, v) :: rest =>
      match v with
      | VStr s =>
          if is_empty s then notes_structure_from rest st
          else
            let value_clean := strip s in
            '(col, row) ← split_cell_reference cell_ref;
            if contains "Special Notes" value_clean then
              notes_structure_from rest
                (mk_structure true (general_notes_found st) (Some col)
                   (general_notes_col st) (Some row))
            else if contains "General Notes" value_clean then
              notes_structure_from rest
                (mk_structure (special_notes_found st) true
                   (special_notes_col st) (Some col)
                   (if no_start_row st then Some row else notes_start_row st))
            else notes_structure_from rest st
      | _ => notes_structure_from rest st
      end
  end.

(** [find_notes_structure] *)
Definition find_notes_structure (sheet_data : sheet)
    : result (option notes_structure) :=
  st ← notes_structure_from sheet_data (mk_structure false false None None None);
  Ok (if special_notes_found st || general_notes_found st then Some st
      else None).

(** A number as [float()] reads it from a decimal numeral: the value is
    [dec_mant / 10 ^ dec_scale]. The rounding to a binary double is not
    part of the embedding. *)
Record dec : Type := mk_dec {
  dec_mant : Z;
  dec_scale : nat
}.

(** A value of [pumping_data]. *)
Inductive pval : Type :=
| PNum (d : dec)
| PText (s : string).

(** The longest prefix of digits, and the rest. *)
Fixpoint span_digits (s : string) : string * string :=
  match s with
  | EmptyString => (EmptyString, EmptyString)
  | String c r =>
      if isdigit c then let '(ds, rest) := span_digits r in (String c ds, rest)
      else (EmptyString, s)
  end.

Definition is_sep (c : ascii) : bool := Ascii.eqb c "." || Ascii.eqb c ",".

(** An optional leading minus sign: whether it is there, and the rest. *)
Definition leading_minus (s : string) : bool * string :=
  match s with
  | String c r => if Ascii.eqb c "-" then (true, r) else (false, s)
  | EmptyString => (false, s)
  end.

(** The pattern [-?\d+[.,]?\d*] matched at the start of [s]: the matched
    text and what follows it. *)
Definition match_number (s : string) : option (string * string) :=
  let '(neg, r) := leading_minus s in
  let sign := if neg then "-" else EmptyString in
  let '(ds, r2) := span_digits r in
  if is_empty ds then None
  else
    match r2 with
    | String c r3 =>
        if is_sep c then
          let '(fs, r4) := span_digits r3 in
          Some (sign ++ ds ++ String c fs, r4)
        else Some (sign ++ ds, r2)
    | EmptyString => Some (sign ++ ds, r2)
    end.

(** [re.search] for the pattern above in [s]: group 1 of the leftmost
    match. *)
Fixpoint search_number (s : string) : option string :=
  match match_number s with
  | Some (m, _) => Some m
  | None =>
      match s with
      | EmptyString => None
      | String _ r => search_number r
      end
  end.

(** [re.match(r'^-?\d+[.,]?\d*$', s)] on a trimmed text. *)
Definition is_bare_number (s : string) : bool :=
  match match_number s with
  | Some (_, rest) => is_empty rest
  | None => false
  end.

(** [s.replace(',', '.')] *)
Definition comma_to_point (s : string) : string :=
  str_map (fun c => if Ascii.eqb c "," then "."%char else c) s.

(** [float(s)] for the numerals the code passes to it: an optional minus
    sign, digits, and an optional point followed by digits. Any other
    text raises [ValueError]. *)
Definition py_float (s : string) : result dec :=
  let '(neg, r) := leading_minus s in
  let '(ds, r2) := span_digits r in
  let sign := if neg then -1 else 1 in
  if is_empty ds then Raise ValueError
  else
    match r2 with
    | EmptyString => Ok (mk_dec (sign * digits_value ds 0) 0)
    | String c r3 =>
        let '(fs, r4) := span_digits r3 in
        if Ascii.eqb c "." && is_empty r4
        then Ok (mk_dec (sign * digits_value (ds ++ fs) 0) (String.length fs))
        else Raise ValueError
    end.

(** [lo < d] and [d < hi] for integer bounds. *)
Definition dec_gt (d : dec) (lo : Z) : bool :=
  lo * 10 ^ Z.of_nat (dec_scale d) <? dec_mant d.

Definition dec_lt (d : dec) (hi : Z) : bool :=
  dec_mant d <? hi * 10 ^ Z.of_nat (dec_scale d).

Definition field_patterns : list (string * string) :=
  [("pumping_time", "Pumping Time"); ("pumping_rate", "Pumping Rate");
   ("last_cargo", "Last Cargo"); ("second_last", "Second Last");
   ("third_last", "Third Last");
   ("vessel_experience_factor", "Vessel Experience Factor")].

Definition is_numeric_field (field_key : string) : bool :=
  String.eqb field_key "pumping_time" || String.eqb field_key "pumping_rate".

(** What is stored for a field whose value cell holds the truthy text
    [field_value_clean]: the [try] block for the two numeric fields, the
    plain assignment for the others. *)
Definition store_field (field_key field_value_clean : string)
    (pumping_data : gmap string pval) : gmap string pval :=
  if is_numeric_field field_key then
    match search_number field_value_clean with
    | Some num =>
        match py_float (comma_to_point num) with
        | Ok d => <[field_key := PNum d]> pumping_data
        | Raise _ => <[field_key := PText field_value_clean]> pumping_data
        end
    | None => pumping_data
    end
  else <[field_key := PText field_value_clean]> pumping_data.

(** The loop over [field_patterns] for the label cell at column
    [col_offset], row [current_row], whose trimmed text is [value_clean]. *)
Definition pumping_fields (sheet_data : sheet) (col_offset : string)
    (current_row : Z) (value_clean : string) (pumping_data : gmap string pval)
    : gmap string pval :=
  fold_left
    (fun pumping_data '(field_key, field_name) =>
       if contains field_name value_clean then
         match sheet_get sheet_data (cell_name col_offset (current_row + 1)) with
         | Some field_value =>
             if truthy field_value
             then store_field field_key (strip (py_str field_value)) pumping_data
             else pumping_data
         | None => pumping_data
         end
       else pumping_data)
    field_patterns pumping_data.

Definition pumping_columns : list string :=
  ["G"; "H"; "I"; "J"; "K"; "L"; "M"; "N"; "O"; "P"].

(** [range(1, 15)] *)
Definition pumping_offsets : list Z := map Z.of_nat (seq 1 14).

(** The two nested loops over the rows below the notes heading. *)
Definition pumping_scan (sheet_data : sheet) (start : Z)
    (pumping_data : gmap string pval) : gmap string pval :=
  fold_left
    (fun pumping_data row_offset =>
       let current_row := start + row_offset in
       fold_left
         (fun pumping_data col_offset =>
            match sheet_get sheet_data (cell_name col_offset current_row) with
            | Some v =>
                if truthy v
                then pumping_fields sheet_data col_offset current_row
                       (strip (py_str v)) pumping_data
                else pumping_data
            | None => pumping_data
            end)
         pumping_columns pumping_data)
    pumping_offsets pumping_data.

Definition has_key (pumping_data : gmap string pval) (k : string) : bool :=
  match pumping_data !! k with
  | Some _ => true
  | None => false
  end.

(** The last resort: bare negative numbers anywhere on the sheet. *)
Definition pumping_fallback (sheet_data : sheet)
    (pumping_data : gmap string pval) : gmap string pval :=
  if negb (has_key pumping_data "pumping_time") ||
     negb (has_key pumping_data "pumping_rate")
  then
    fold_left
      (fun pumping_data '(cell_ref, v) =>
         if truthy v then
           let value_clean := strip (py_str v) in
           if is_bare_number value_clean then
             match py_float (comma_to_point value_clean) with
             | Ok num_value =>
                 if negb (has_key pumping_data "pumping_time") &&
                    dec_gt num_value (-50) && dec_lt num_value 0
                 then <["pumping_time" := PNum num_value]> pumping_data
                 else if negb (has_key pumping_data "pumping_rate") &&
                         dec_lt num_value (-100)
                 then <["pumping_rate" := PNum num_value]> pumping_data
                 else pumping_data
             | Raise _ => pumping_data
             end
           else pumping_data
         else pumping_data)
      sheet_data pumping_data
  else pumping_data.

(** [extract_pumping_data] *)
Definition extract_pumping_data (sheet_data : sheet)
    (structure : option notes_structure) : gmap string pval :=
  match structure with
  | None => ∅
  | Some st =>
      match notes_start_row st with
      | None => ∅
      | Some start =>
          if start =? 0 then ∅
          else pumping_fallback sheet_data (pumping_scan sheet_data start ∅)
      end
  end.

(** ** extract_timesheet_events.py: the events of all sheets *)

(** The loaded cell map: sheet name to sheet, in insertion order. *)
Definition workbook : Type := list (string * sheet).

(** An event after the keys [Sheet] and [Section_Number] are added. *)
Record sheet_event : Type := mk_sheet_event {
  base : event;
  Sheet : string;
  Section_Number : Z
}.

(** The events of one section. The walk always ends with the fuel of
    [extract_events_from_section] (lemma [walk_rows_enough_fuel]), so the
    second branch is never taken. *)
Definition section_events (sheet_data : sheet) (sec : section) : list event :=
  match extract_events_from_section sheet_data sec with
  | Some evs => evs
  | None => []
  end.

(** The loop [for i, section in enumerate(header_sections)], from index
    [i]: the events of each section, tagged with the sheet and [i + 1]. *)
Fixpoint sections_events (sheet_name : string) (sheet_data : sheet)
    (sections : list section) (i : Z) : list sheet_event :=
  match sections with
  | [] => []
  | sec :: rest =>
      (map (fun ev => mk_sheet_event ev sheet_name (i + 1))
         (section_events sheet_data sec) ++
       sections_events sheet_name sheet_data rest (i + 1))%list
  end.

(** The loop over the sheets; [all_events] is what was collected so far. *)
Fixpoint events_from_sheets (data : workbook) (all_events : list sheet_event)
    : result (list sheet_event) :=
  match data with
  | [] => Ok all_events
  | (sheet_name, sheet_data) :: rest =>
      header_sections ← find_timesheet_headers sheet_data;
      events_from_sheets rest
        (all_events ++
         sections_events sheet_name sheet_data header_sections 0)%list
  end.

(** [extract_timesheet_events_from_data] *)
Definition extract_timesheet_events_from_data (data : workbook)
    : result (list sheet_event) :=
  events_from_sheets data [].

(** ** extract_operational_notes.py: weather, remarks, choice of the sheet *)

(** The [weather_info] dictionary. *)
Record weather_info : Type := mk_weather {
  weather_conditions : list string;
  sea_conditions : list string
}.

Definition weather_keywords : list string := ["Rain"; "Cloudy"; "Clear"].
Definition sea_keywords : list string := ["Rough"; "Choppy"; "Calm"].

Definition weather_columns : list string :=
  ["A"; "B"; "C"; "D"; "E"; "F"; "G"; "H"; "I"; "J"].

(** [range(1, 10)] *)
Definition weather_offsets : list Z := map Z.of_nat (seq 1 9).

(** The conditions of [keywords] that the cell text names together with
    an X, lowercased, in the order of [keywords]. *)
Definition marked (keywords : list string) (value_clean : string) : list string :=
  map lower
    (List.filter
       (fun condition => contains condition value_clean && has_char "X" value_clean)
       keywords).

(** [extract_weather_conditions] *)
Definition extract_weather_conditions (sheet_data : sheet)
    (structure : option notes_structure) : weather_info :=
  match structure with
  | None => mk_weather [] []
  | Some st =>
      match notes_start_row st with
      | None => mk_weather [] []
      | Some start =>
          if start =? 0 then mk_weather [] []
          else
            fold_left
              (fun info row_offset =>
                 let current_row := start + row_offset in
                 fold_left
                   (fun info col_offset =>
                      match sheet_get sheet_data (cell_name col_offset current_row) with
                      | Some v =>
                          if truthy v then
                            let value_clean := strip (py_str v) in
                            mk_weather
                              (weather_conditions info ++
                               marked weather_keywords value_clean)%list
                              (sea_conditions info ++
                               marked sea_keywords value_clean)%list
                          else info
                      | None => info
                      end)
                   weather_columns info)
              weather_offsets (mk_weather [] [])
      end
  end.

(** The [notes_data] dictionary of [extract_remarks_and_notes]. *)
Record notes_lists : Type := mk_notes {
  remarks : list string;
  special_notes : list string;
  general_notes : list string
}.

(** The body of the loop of [extract_remarks_and_notes] for the trimmed
    text of one non-empty string cell. *)
Definition remarks_cell (value_clean : string) (notes_data : notes_lists)
    : notes_lists :=
  let new_remarks :=
    if contains "Remarks:" value_clean || contains "C.- Remarks:" value_clean then
      if has_char ":" value_clean then
        let remark_content := strip (after_colon value_clean) in
        if negb (is_empty remark_content) &&
           negb (existsb (String.eqb remark_content) ["-"; EmptyString])
        then [remark_content] else []
      else []
    else [] in
  mk_notes
    (remarks notes_data ++ new_remarks)%list
    (special_notes notes_data ++
     (if contains "Special Notes" value_clean then [value_clean] else []))%list
    (general_notes notes_data ++
     (if contains "General Notes" value_clean then [value_clean] else []))%list.

(** [extract_remarks_and_notes] *)
Definition extract_remarks_and_notes (sheet_data : sheet) : notes_lists :=
  fold_left
    (fun notes_data '(cell, v) =>
       match v with
       | VStr s => if is_empty s then notes_data
                   else remarks_cell (strip s) notes_data
       | _ => notes_data
       end)
    sheet_data (mk_notes [] [] []).

(** [sep.join(parts)] *)
Fixpoint join (sep : string) (parts : list string) : string :=
  match parts with
  | [] => EmptyString
  | [p] => p
  | p :: rest => p ++ sep ++ join sep rest
  end.

(** [' '.join([str(v) for v in sheet_data.values() if v])] *)
Definition sheet_text (sheet_data : sheet) : string :=
  join " " (map py_str (List.filter truthy (map snd sheet_data))).

Definition notes_keywords : list string :=
  ["Special Notes"; "General Notes"; "Pumping Time"; "Weather conditions"].

(** [find_timesheet_with_notes]; every sheet of a [workbook] is a
    dictionary, so the [isinstance] test always passes. *)
Fixpoint find_timesheet_with_notes (data : workbook) : option string :=
  match data with
  | [] => None
  | (sheet_name, sheet_data) :: rest =>
      if existsb (fun keyword => contains keyword (sheet_text sheet_data))
           notes_keywords
      then Some sheet_name
      else find_timesheet_with_notes rest
  end.

(** ** app.py: the upload filter *)

(** [s.rsplit(sep, 1)[1]]: the text after the last separator, if any. *)
Fixpoint after_last (sep : ascii) (s : string) : option string :=
  match s with
  | EmptyString => None
  | String c r =>
      match after_last sep r with
      | Some t => Some t
      | None => if Ascii.eqb c sep then Some r else None
      end
  end.

Definition ALLOWED_EXTENSIONS : list string := ["xlsx"; "xlsm"].

(** [allowed_file] *)
Definition allowed_file (filename : string) : bool :=
  has_char "." filename &&
  match after_last "." filename with
  | Some ext => existsb (String.eqb (lower ext)) ALLOWED_EXTENSIONS
  | None => false
  end.

(** ** basic_analyzer.py: dates and timeline *)

(** [list.sort] with the order [leb] (on the sort key): insertion keeps
    the elements that compare equal in the order they had, as the sort of
    Python does, and the result of a stable sort does not depend on the
    method. *)
Fixpoint insert_sorted {A : Type} (leb : A -> A -> bool) (x : A) (l : list A)
    : list A :=
  match l with
  | [] => [x]
  | y :: r => if leb x y then x :: l else y :: insert_sorted leb x r
  end.

Fixpoint py_sort {A : Type} (leb : A -> A -> bool) (l : list A) : list A :=
  match l with
  | [] => []
  | x :: r => insert_sorted leb x (py_sort leb r)
  end.

(** The dictionary returned by [_analyze_dates]; the key [total_dates] is
    absent from the result for no dates. *)
Record date_range : Type := mk_date_range {
  start_date : option string;
  end_date : option string;
  duration_days : nat;
  total_dates : option nat
}.

(** [_analyze_dates] *)
Definition _analyze_dates (dates : list string) : date_range :=
  let valid_dates :=
    List.filter (fun d => negb (is_empty d) && negb (is_empty (strip d))) dates in
  match py_sort String.leb valid_dates with
  | [] => mk_date_range None None 0 None
  | first :: rest =>
      mk_date_range (Some first) (Some (List.last rest first))
        (List.length (List.nodup String.string_dec valid_dates))
        (Some (List.length valid_dates))
  end.

(** One entry of the timeline. *)
Record timeline_entry : Type := mk_entry {
  entry_datetime : string;
  entry_event : string;
  entry_date : string;
  entry_time : option string
}.

(** [f"{time}"] for a time that may be [None]. *)
Definition time_text (time : option string) : string :=
  match time with
  | Some t => t
  | None => "None"
  end.

(** The first loop of [_analyze_timeline]: the events with a date and a
    name. *)
Definition timeline_entries (events : list event) : list timeline_entry :=
  flat_map
    (fun ev =>
       match Date ev with
       | Some date =>
           if negb (is_empty date) && negb (is_empty (Event ev))
           then [mk_entry (strip (date ++ " " ++ time_text (Time ev)))
                   (Event ev) date (Time ev)]
           else []
       | None => []
       end)
    events.

(** The dictionary returned by [_analyze_timeline]. *)
Record timeline : Type := mk_timeline {
  chronological_events : list timeline_entry;
  first_event : option timeline_entry;
  last_event : option timeline_entry;
  total_timeline_events : nat
}.

Definition date_leb (a b : timeline_entry) : bool :=
  String.leb (entry_date a) (entry_date b).

(** [_analyze_timeline] *)
Definition _analyze_timeline (events : list event) : timeline :=
  let sorted := py_sort date_leb (timeline_entries events) in
  mk_timeline sorted (List.head sorted)
    (match sorted with
     | [] => None
     | first :: rest => Some (List.last rest first)
     end)
    (List.length sorted).

(** ** Vocabulary of the statements *)

(** [s.isascii()]: every character is below 128. On such a text the
    character classes, [strip], [lower] and [int] of this file are those
    of Python. *)
Definition is_ascii (s : string) : bool :=
  str_forall (fun c => (code c <? 128)%N) s.

(** A plain reference: ASCII, and of at most 4300 characters, the
    longest text of digits that [int()] converts by default. *)
Definition plain_ref (cell_ref : string) : bool :=
  is_ascii cell_ref && (String.length cell_ref <=? 4300)%nat.

(** The references of the cells of a sheet are plain. *)
Definition plain_refs (data : sheet) : bool :=
  forallb (fun cell => plain_ref (fst cell)) data.

(** The texts of the values of a sheet are ASCII. *)
Definition ascii_values (data : sheet) : bool :=
  forallb (fun cell => is_ascii (py_str (snd cell))) data.

(** A sheet of plain references and ASCII values. *)
Definition plain_sheet (data : sheet) : bool :=
  plain_refs data && ascii_values data.

(** A workbook of such sheets. *)
Definition plain_workbook (data : workbook) : bool :=
  forallb (fun named => plain_sheet (snd named)) data.



Definition digit_chars : list ascii :=
  ["0"; "1"; "2"; "3"; "4"; "5"; "6"; "7"; "8"; "9"]%char.

(** Column [col] holds, on row [row] of the sheet, a string cell whose
    text passes [p]. *)
Definition on_row (data : sheet) (row : Z) (p : string -> bool) (col : string)
    : Prop :=
  exists ref s,
    In (ref, VStr s) data /\ p s = true /\
    split_cell_reference ref = Ok (col, row).

(** The row above [start_row d] holds the three labels of the English
    layout, in the columns of [d]. *)
Definition english_header (data : sheet) (d : section) : Prop :=
  on_row data (start_row d - 1) is_event (event_col d) /\
  on_row data (start_row d - 1) is_date (date_col d) /\
  on_row data (start_row d - 1) is_time (time_col d).

(** The row above [start_row d] holds the three labels of the Spanish
    layout, in the columns of [d], the date label in a cell whose reference
    starts with the letter A. *)
Definition spanish_header (data : sheet) (d : section) : Prop :=
  (exists ref s,
     In (ref, VStr s) data /\ is_date s = true /\
     startswith ref "A" = true /\
     split_cell_reference ref = Ok (date_col d, start_row d - 1)) /\
  on_row data (start_row d - 1) is_hrs_or_time (time_col d) /\
  on_row data (start_row d - 1) is_event (event_col d).

(** Where a section found by the search comes from. *)
Definition header_origin (data : sheet) (d : section) : Prop :=
  match format d with
  | english => english_header data d
  | spanish => spanish_header data d
  end.

(** The event cell of the section at a row. *)
Definition event_cell_at (data : sheet) (sec : section) (row : Z) : option value :=
  sheet_get data (cell_name (event_col sec) row).

(** The walk goes on at [row]: the event cell is present and not
    [no_event]. *)
Definition walk_continues (data : sheet) (sec : section) (row : Z) : Prop :=
  exists v, event_cell_at data sec row = Some v /\ no_event v = false.

(** The walk stops at [row]: the event cell is absent, or [no_event]. *)
Definition walk_stops (data : sheet) (sec : section) (row : Z) : Prop :=
  event_cell_at data sec row = None \/
  exists v, event_cell_at data sec row = Some v /\ no_event v = true.


(** The rows [row], [row + 1], ..., [n] of them. *)
Definition rows_from (row : Z) (n : nat) : list Z :=
  map (fun k => row + Z.of_nat k) (seq 0 n).

(** The condition [c] is named, with an X, by a cell of the window below
    the heading row [start]: rows [start + 1] to [start + 9], columns A to J. *)
Definition marked_in_window (keywords : list string) (sheet_data : sheet)
    (start : Z) (c : string) : Prop :=
  exists row_offset col v keyword,
    1 <= row_offset <= 9 /\ In col weather_columns /\
    sheet_get sheet_data (cell_name col (start + row_offset)) = Some v /\
    truthy v = true /\ In keyword keywords /\
    contains keyword (strip (py_str v)) = true /\
    has_char "X" (strip (py_str v)) = true /\
    c = lower keyword.

(** The cell is a non-empty string cell whose trimmed text starts with a
    name of the field [field_key] of [field_mapping], followed by a colon. *)
Definition sets_operational_field (field_key : string) (cell : string * value)
    : bool :=
  match cell with
  | (_, VStr s) =>
      negb (is_empty s) &&
      existsb
        (fun '(key, field_names) =>
           String.eqb key field_key &&
           existsb (fun field_name => startswith (strip s) (field_name ++ ":"))
             field_names)
        field_mapping
  | _ => false
  end.

(** The text is empty or starts with a character that is not white
    space. *)
Definition starts_clean (s : string) : Prop :=
  match s with
  | EmptyString => True
  | String c _ => isspace c = false
  end.

(** A string cell that starts a pattern of the header search. *)
Definition header_trigger (cell : string * value) : bool :=
  match cell with
  | (cell_ref, VStr s) => is_event s || (is_date s && startswith cell_ref "A")
  | _ => false
  end.

(** A string cell whose reference holds no digit. *)
Definition digitless_string_cell (cell : string * value) : bool :=
  match cell with
  | (cell_ref, VStr _) => is_empty (str_filter isdigit cell_ref)
  | _ => false
  end.

(** A non-empty string cell whose reference holds no digit. *)
Definition nonempty_digitless_cell (cell : string * value) : bool :=
  match cell with
  | (cell_ref, VStr s) =>
      negb (is_empty s) && is_empty (str_filter isdigit cell_ref)
  | _ => false
  end.

(** A non-empty string cell whose trimmed text names one of the two
    headings of the notes table. *)
Definition notes_marker (cell : string * value) : bool :=
  match cell with
  | (_, VStr s) =>
      negb (is_empty s) &&
      (contains "Special Notes" (strip s) || contains "General Notes" (strip s))
  | _ => false
  end.

Definition structure_found (st : notes_structure) : bool :=
  special_notes_found st || general_notes_found st.

(** One step of either loop over [header_fields] leaves the table as it
    was or adds, for a field of the table that was not set, a usable
    value. *)
Definition header_step (field : string * string)
    (header_data header_data' : gmap string string) : Prop :=
  header_data' = header_data \/
  exists v, header_data !! fst field = None /\ usable v (snd field) = true /\
            header_data' = <[fst field := v]> header_data.

(** The values of a header table are all usable for their field. *)
Definition header_values_usable (header_data : gmap string string) : Prop :=
  forall field_key v,
    header_data !! field_key = Some v ->
    exists field_name,
      In (field_key, field_name) header_fields /\ usable v field_name = true.

(** The keys of a pumping table are field keys, the two numeric fields
    hold numbers and the other fields hold text. *)
Definition pumping_typed (pumping_data : gmap string pval) : Prop :=
  forall field_key x,
    pumping_data !! field_key = Some x ->
    In field_key (map fst field_patterns) /\
    if is_numeric_field field_key then exists d, x = PNum d
    else exists t, x = PText t.

(** What the last resort may add to a pumping table [pumping_data]: a
    number read from a bare-number cell of the sheet, between -50 and 0 for
    the pumping time and below -100 for the pumping rate. *)
Definition last_resort_value (sheet_data : sheet) (field_key : string)
    (x : pval) : Prop :=
  exists cell_ref v d,
    In (cell_ref, v) sheet_data /\ truthy v = true /\
    is_bare_number (strip (py_str v)) = true /\
    py_float (comma_to_point (strip (py_str v))) = Ok d /\ x = PNum d /\
    ((field_key = "pumping_time" /\ dec_gt d (-50) = true /\ dec_lt d 0 = true) \/
     (field_key = "pumping_rate" /\ dec_lt d (-100) = true)).

(** A cell that cannot make [extract_timesheet_header] fail: not a string,
    empty, or with a reference that has a digit and exactly one letter. *)
Definition single_letter_ref (cell : string * value) : bool :=
  match cell with
  | (cell_ref, VStr s) =>
      is_empty s ||
      (negb (is_empty (str_filter isdigit cell_ref)) &&
       Nat.eqb (String.length (str_filter isalpha cell_ref)) 1)
  | _ => true
  end.


(** The sheet of the end-to-end scenario of the specification. *)
Definition scenario_sheet : sheet :=
  [("A5", VStr "Event"); ("B5", VStr "Date"); ("C5", VStr "Time");
   ("A6", VStr "Loading commenced"); ("B6", VStr "2024-01-01");
   ("C6", VStr "0800");
   ("A7", VStr "Sampling completed"); ("B7", VStr "2024-01-01");
   ("C7", VStr "0900");
   ("A8", VStr ""); ("B8", VStr "2024-01-01"); ("C8", VStr "1000")].

(** * Properties *)

(** ** Decimal text *)

Lemma uint_text_digits (d : Decimal.uint) :
  str_forall isdigit (NilEmpty.string_of_uint d) = true.
Proof. induction d; simpl; auto. Qed.

Lemma digits_value_acc (d : Decimal.uint) (p : positive) :
  digits_value (NilEmpty.string_of_uint d) (Z.pos p) = Z.pos (Pos.of_uint_acc d p).
Proof.
  revert p; induction d; intros p; simpl; auto;
    match goal with
    | |- digits_value _ ?a = Z.pos (Pos.of_uint_acc _ ?q) =>
        replace a with (Z.pos q) by (unfold digit_val; simpl; lia)
    end; apply IHd.
Qed.

Lemma digits_value_uint (d : Decimal.uint) :
  digits_value (NilEmpty.string_of_uint d) 0 = Z.of_N (Pos.of_uint d).
Proof.
  induction d; simpl; auto;
    match goal with
    | |- digits_value _ ?a = _ =>
        let v := eval vm_compute in a in change a with v
    end; apply digits_value_acc.
Qed.

Lemma str_int_pos (p : positive) :
  str_int (Z.pos p) = NilEmpty.string_of_uint (Pos.to_uint p).
Proof.
  unfold str_int; simpl. pose proof (Unsigned.to_uint_nonnil p) as Hn.
  destruct (Pos.to_uint p); simpl; congruence.
Qed.

Lemma str_int_zero : str_int 0 = "0".
Proof. reflexivity. Qed.

(** The text of a non-negative integer is made of digits, has at least
    one, and reads back as the integer. *)
Lemma str_int_isdigit (n : Z) : 0 <= n -> str_isdigit (str_int n) = true.
Proof.
  intros Hn. destruct n as [|p|p]; [reflexivity| |lia].
  rewrite str_int_pos. unfold str_isdigit. rewrite uint_text_digits.
  pose proof (Unsigned.to_uint_nonnil p) as Hnil.
  destruct (Pos.to_uint p); simpl; congruence.
Qed.

Lemma digits_value_str_int (n : Z) : 0 <= n -> digits_value (str_int n) 0 = n.
Proof.
  intros Hn. destruct n as [|p|p]; [reflexivity| |lia].
  rewrite str_int_pos, digits_value_uint, Unsigned.of_to. reflexivity.
Qed.

Lemma py_int_str_int (n : Z) : 0 <= n -> py_int (str_int n) = Ok n.
Proof.
  intros Hn. unfold py_int.
  rewrite str_int_isdigit, digits_value_str_int by assumption. reflexivity.
Qed.

Lemma str_int_inj (a b : Z) : str_int a = str_int b -> a = b.
Proof.
  unfold str_int. intros H. apply to_int_inj.
  assert (Hnn : forall z, Z.to_int z <> Decimal.Pos Decimal.Nil /\
                          Z.to_int z <> Decimal.Neg Decimal.Nil).
  { intros [|p|p]; simpl; split; try discriminate;
      intros E; injection E; apply Unsigned.to_uint_nonnil. }
  assert (E : Some (Z.to_int a) = Some (Z.to_int b)).
  { rewrite <- (NilZero.isi (Z.to_int a)) by apply Hnn.
    rewrite <- (NilZero.isi (Z.to_int b)) by apply Hnn.
    now rewrite H. }
  now injection E.
Qed.

(** ** Filters on text *)

Lemma str_filter_all (p : ascii -> bool) (s : string) :
  str_forall p s = true -> str_filter p s = s.
Proof.
  induction s as [|c r IH]; simpl; [reflexivity|].
  intros H. apply andb_prop in H as [Hc Hr]. rewrite Hc, IH; auto.
Qed.

Lemma str_filter_none (p q : ascii -> bool) (s : string) :
  (forall c, q c = true -> p c = false) ->
  str_forall q s = true -> str_filter p s = EmptyString.
Proof.
  intros Hpq. induction s as [|c r IH]; simpl; [reflexivity|].
  intros H. apply andb_prop in H as [Hc Hr]. rewrite (Hpq c Hc). auto.
Qed.

Lemma digit_not_alpha (c : ascii) : isdigit c = true -> isalpha c = false.
Proof.
  unfold isdigit, isalpha, in_range. intros H.
  apply andb_prop in H as [H1 H2].
  apply N.leb_le in H1, H2.
  apply orb_false_iff; split; apply andb_false_iff; left;
    apply N.leb_gt; lia.
Qed.

Lemma alpha_not_digit (c : ascii) : isalpha c = true -> isdigit c = false.
Proof.
  intros H. destruct (isdigit c) eqn:E; [|reflexivity].
  apply digit_not_alpha in E. congruence.
Qed.

Lemma str_isdigit_forall (s : string) :
  str_isdigit s = true -> str_forall isdigit s = true.
Proof. unfold str_isdigit. intros H. now apply andb_prop in H. Qed.

(** ** Coordinates *)

(** The result of [split_cell_reference] in closed form: it looks only at
    whether the reference holds a digit. *)
Lemma split_cell_reference_eq (cell_ref : string) :
  split_cell_reference cell_ref =
  if is_empty (str_filter isdigit cell_ref) then Raise ValueError
  else Ok (str_filter isalpha cell_ref,
           digits_value (str_filter isdigit cell_ref) 0).
Proof.
  unfold split_cell_reference, py_int, str_isdigit.
  assert (H : str_forall isdigit (str_filter isdigit cell_ref) = true).
  { induction cell_ref as [|c r IH]; simpl; [reflexivity|].
    destruct (isdigit c) eqn:E; simpl; [rewrite E|]; auto. }
  rewrite H, andb_true_r.
  destruct (is_empty (str_filter isdigit cell_ref)); reflexivity.
Qed.

(** A column of letters followed by a non-negative row splits back. *)
Lemma split_cell_name (col : string) (row : Z) :
  str_forall isalpha col = true -> 0 <= row ->
  split_cell_reference (cell_name col row) = Ok (col, row).
Proof.
  intros Hcol Hrow. unfold split_cell_reference, cell_name.
  assert (Hd : str_forall isdigit (str_int row) = true)
    by (apply str_isdigit_forall, str_int_isdigit, Hrow).
  assert (Ha : str_filter isalpha (col ++ str_int row) = col).
  { induction col as [|c r IH]; simpl.
    - apply str_filter_none with (q := isdigit); auto using digit_not_alpha.
    - simpl in Hcol. apply andb_prop in Hcol as [Hc Hr].
      rewrite Hc, IH; auto. }
  assert (Hn : str_filter isdigit (col ++ str_int row) = str_int row).
  { clear Ha. induction col as [|c r IH]; simpl.
    - now apply str_filter_all.
    - simpl in Hcol. apply andb_prop in Hcol as [Hc Hr].
      rewrite (alpha_not_digit c Hc). auto. }
  rewrite Ha, Hn, py_int_str_int by assumption. reflexivity.
Qed.

(** C6 (as stated, refuted): the reference "7" has no letter and the
    reference "A0" has row zero, and [split_cell_reference] returns a pair
    for both. *)
Lemma split_cell_reference_accepts_malformed :
  str_filter isalpha "7" = EmptyString /\
  split_cell_reference "7" = Ok (EmptyString, 7) /\
  digits_value (str_filter isdigit "A0") 0 = 0 /\
  split_cell_reference "A0" = Ok ("A", 0).
Proof. repeat split; reflexivity. Qed.

(** C6 (amended): for every ASCII reference whose numeric part is empty,
    that is, which holds no digit, [split_cell_reference] fails with
    [ValueError] and returns no pair. An empty alphabetic part and a row
    of zero are not failures: "7" and "A0" are split. *)
Theorem split_cell_reference_fails_without_digit (cell_ref : string) :
  is_ascii cell_ref = true ->
  str_filter isdigit cell_ref = EmptyString ->
  split_cell_reference cell_ref = Raise ValueError /\
  (forall col row, split_cell_reference cell_ref <> Ok (col, row)) /\
  split_cell_reference "7" = Ok (EmptyString, 7) /\
  split_cell_reference "A0" = Ok ("A", 0).
Proof.
  intros _ H. rewrite split_cell_reference_eq, H. simpl.
  split; [reflexivity|]. split; [discriminate|]. split; reflexivity.
Qed.

Lemma split_cell_reference_fails_without_digit_witness :
  split_cell_reference "$AB" = Raise ValueError /\
  (forall col row, split_cell_reference "$AB" <> Ok (col, row)) /\
  split_cell_reference "7" = Ok (EmptyString, 7) /\
  split_cell_reference "A0" = Ok ("A", 0).
Proof.
  apply (split_cell_reference_fails_without_digit "$AB"); reflexivity.
Defined.

(** C8: a single letter followed by the decimal text of a positive row
    splits back into that letter and that row. *)
Theorem split_cell_reference_round_trip (c : ascii) (row : Z) :
  isalpha c = true -> 0 < row ->
  split_cell_reference (cell_name (String c EmptyString) row) =
  Ok (String c EmptyString, row).
Proof.
  intros Hc Hrow. apply split_cell_name; [simpl; now rewrite Hc | lia].
Qed.

Lemma split_cell_reference_round_trip_witness :
  split_cell_reference (cell_name "C" 12) = Ok ("C", 12).
Proof.
  apply (split_cell_reference_round_trip "C" 12); [reflexivity | lia].
Defined.

(** ** Time normalisation *)

Lemma isdigit_cases (c : ascii) : isdigit c = true -> In c digit_chars.
Proof.
  destruct c as [[] [] [] [] [] [] [] []]; vm_compute; intros H;
    try discriminate H; tauto.
Qed.

Ltac each_digit c H :=
  let Hin := fresh "Hin" in
  pose proof (isdigit_cases c H) as Hin; clear H;
  unfold digit_chars in Hin; simpl in Hin;
  repeat (destruct Hin as [<- | Hin]); [.. | contradiction].

Lemma fmt_02d_one_digit (c : ascii) :
  isdigit c = true ->
  fmt_02d (digits_value (String c EmptyString) 0) = String "0" (String c EmptyString).
Proof. intros H. each_digit c H; reflexivity. Qed.

Lemma fmt_02d_two_digits (c d : ascii) :
  isdigit c = true -> isdigit d = true ->
  fmt_02d (digits_value (String c (String d EmptyString)) 0) =
  String c (String d EmptyString).
Proof. intros Hc Hd. each_digit c Hc; each_digit d Hd; reflexivity. Qed.

Lemma digit_text_no_colon (s : string) :
  str_forall isdigit s = true -> has_char ":" s = false.
Proof.
  induction s as [|c r IH]; simpl; [reflexivity|].
  intros H. apply andb_prop in H as [Hc Hr]. rewrite (IH Hr), orb_false_r.
  each_digit c Hc; reflexivity.
Qed.

(** [format_time_str] on a text of digits, by length. *)
Lemma format_time_str_digits (t : string) :
  str_isdigit t = true ->
  format_time_str t =
  match t with
  | String c EmptyString => "0" ++ t ++ ":00"
  | String c (String d EmptyString) => t ++ ":00"
  | String c (String d (String e EmptyString)) => "0" ++ take 1 t ++ ":" ++ drop 1 t
  | String c (String d (String e (String f EmptyString))) =>
      take 2 t ++ ":" ++ drop 2 t
  | _ => t
  end.
Proof.
  intros Hd. unfold format_time_str. rewrite Hd.
  pose proof (str_isdigit_forall t Hd) as Hall.
  rewrite (digit_text_no_colon t Hall).
  destruct t as [|c [|d [|e [|f [|g r]]]]]; try discriminate Hd;
    try reflexivity; simpl in Hall;
    repeat (apply andb_prop in Hall as [? Hall]).
  - simpl String.length. cbv iota beta.
    change (1 <=? 2)%nat with true. cbv iota.
    now rewrite fmt_02d_one_digit.
  - change (String.length (String c (String d "")) <=? 2)%nat with true.
    cbv iota. now rewrite fmt_02d_two_digits.
  - change (String.length (String c (String d (String e ""))) <=? 2)%nat
      with false.
    change (String.length (String c (String d (String e ""))) =? 3)%nat
      with true.
    cbv iota. simpl take. simpl drop.
    now rewrite fmt_02d_one_digit, fmt_02d_two_digits.
  - change (String.length (String c (String d (String e (String f "")))) <=? 2)%nat
      with false.
    change (String.length (String c (String d (String e (String f "")))) =? 3)%nat
      with false.
    change (String.length (String c (String d (String e (String f "")))) =? 4)%nat
      with true.
    cbv iota. simpl take. simpl drop.
    now rewrite !fmt_02d_two_digits.
Qed.

(** C2 (as stated, refuted): a text that holds a colon, or a numeral,
    between spaces is not returned as it was given: [format_time] works on
    the trimmed text. *)
Lemma format_time_trims_before_matching :
  has_char ":" " 09:15 " = true /\
  format_time (Some (VStr " 09:15 ")) = Some "09:15" /\
  format_time (Some (VStr " 09:15 ")) <> Some " 09:15 " /\
  str_isdigit " 7 " = false /\
  format_time (Some (VStr " 7 ")) = Some "07:00".
Proof. repeat split; try reflexivity. discriminate. Qed.

(** C2 (amended): for every input other than [None] whose text is ASCII,
    [format_time] looks
    at the trimmed text [t] of the input. A [t] with a colon is returned
    (trimmed); a [t] of one or two digits becomes the two-digit hour followed
    by ":00"; of three digits, "0", the first digit, ":", the last two; of
    four digits, the first two, ":", the last two; every other [t] is
    returned as it is. Nothing checks the hour or the minute: "9999" gives
    "99:99". *)
Theorem format_time_cases (v : value) (t : string) :
  v <> VNull -> is_ascii (py_str v) = true -> t = strip (py_str v) ->
  exists r, format_time (Some v) = Some r /\
    (has_char ":" t = true -> r = t) /\
    (str_isdigit t = true -> String.length t = 1%nat -> r = "0" ++ t ++ ":00") /\
    (str_isdigit t = true -> String.length t = 2%nat -> r = t ++ ":00") /\
    (str_isdigit t = true -> String.length t = 3%nat ->
     r = "0" ++ take 1 t ++ ":" ++ drop 1 t) /\
    (str_isdigit t = true -> String.length t = 4%nat ->
     r = take 2 t ++ ":" ++ drop 2 t) /\
    (has_char ":" t = false ->
     str_isdigit t = false \/ (4 < String.length t)%nat -> r = t) /\
    format_time (Some (VStr "9999")) = Some "99:99".
Proof.
  intros Hv _ Ht. exists (format_time_str t). split.
  { subst t. destruct v; try reflexivity. congruence. }
  repeat split.
  - intros Hc. unfold format_time_str. now rewrite Hc.
  - intros Hd Hl. rewrite (format_time_str_digits t Hd).
    destruct t as [|c [|d r]]; simpl in Hl; try discriminate; reflexivity.
  - intros Hd Hl. rewrite (format_time_str_digits t Hd).
    destruct t as [|c [|d [|e r]]]; simpl in Hl; try discriminate; reflexivity.
  - intros Hd Hl. rewrite (format_time_str_digits t Hd).
    destruct t as [|c [|d [|e [|f r]]]]; simpl in Hl; try discriminate;
      reflexivity.
  - intros Hd Hl. rewrite (format_time_str_digits t Hd).
    destruct t as [|c [|d [|e [|f [|g r]]]]]; simpl in Hl; try discriminate;
      reflexivity.
  - intros Hc [Hd | Hl].
    + unfold format_time_str. now rewrite Hc, Hd.
    + destruct (str_isdigit t) eqn:Hd.
      * rewrite (format_time_str_digits t Hd).
        destruct t as [|c [|d [|e [|f [|g r]]]]]; simpl in Hl; try lia;
          reflexivity.
      * unfold format_time_str. now rewrite Hc, Hd.
Qed.

Lemma format_time_cases_witness :
  exists r, format_time (Some (VStr " 730 ")) = Some r /\
    (has_char ":" "730" = true -> r = "730") /\
    (str_isdigit "730" = true -> String.length "730" = 1%nat ->
     r = "0" ++ "730" ++ ":00") /\
    (str_isdigit "730" = true -> String.length "730" = 2%nat ->
     r = "730" ++ ":00") /\
    (str_isdigit "730" = true -> String.length "730" = 3%nat ->
     r = "0" ++ take 1 "730" ++ ":" ++ drop 1 "730") /\
    (str_isdigit "730" = true -> String.length "730" = 4%nat ->
     r = take 2 "730" ++ ":" ++ drop 2 "730") /\
    (has_char ":" "730" = false ->
     str_isdigit "730" = false \/ (4 < String.length "730")%nat -> r = "730") /\
    format_time (Some (VStr "9999")) = Some "99:99".
Proof.
  apply (format_time_cases (VStr " 730 ") "730");
    [discriminate | reflexivity | reflexivity].
Defined.

(** The examples of the specification. *)
Example format_time_examples :
  format_time (Some (VStr "2130")) = Some "21:30" /\
  format_time (Some (VStr "730")) = Some "07:30" /\
  format_time (Some (VStr "7")) = Some "07:00" /\
  format_time (Some (VStr "09:15")) = Some "09:15" /\
  format_time None = None.
Proof. repeat split; reflexivity. Qed.

(** ** Header search *)

Lemma on_row_cons (x : string * value) (data : sheet) (row : Z)
    (p : string -> bool) (col : string) :
  on_row data row p col -> on_row (x :: data) row p col.
Proof.
  intros (ref & s & Hin & Hp & Hs). exists ref, s. simpl. auto.
Qed.

Lemma on_row_incl (data data' : sheet) (row : Z) (p : string -> bool)
    (col : string) :
  incl data data' -> on_row data row p col -> on_row data' row p col.
Proof.
  intros Hincl (ref & s & Hin & Hp & Hs). exists ref, s. auto.
Qed.

Section ScanRow.

Context (first second : string -> bool) (row : Z).

(** What the inner loop returns was either there before or comes from a
    matching cell of the row. *)
Lemma scan_row_sound (data : sheet) :
  forall cols c1 c2,
    scan_row first second data row cols = Ok (c1, c2) ->
    (c1 = fst cols \/ exists col, c1 = Some col /\ on_row data row first col) /\
    (c2 = snd cols \/ exists col, c2 = Some col /\ on_row data row second col).
Proof.
  induction data as [|[other_cell other_value] rest IH]; intros cols c1 c2 H.
  - simpl in H. injection H as ->. simpl; auto.
  - assert (Hmono : forall cols',
              scan_row first second rest row cols' = Ok (c1, c2) ->
              cols' = cols ->
              (c1 = fst cols \/
               exists col, c1 = Some col /\
                 on_row ((other_cell, other_value) :: rest) row first col) /\
              (c2 = snd cols \/
               exists col, c2 = Some col /\
                 on_row ((other_cell, other_value) :: rest) row second col)).
    { intros cols' Hs ->. destruct (IH _ _ _ Hs) as [[?|(col & ? & ?)] [?|(col' & ? & ?)]];
        split; eauto using on_row_cons. }
    simpl in H. destruct other_value as [| | | |s]; try (eapply Hmono; eauto; fail).
    destruct (split_cell_reference other_cell) as [[other_col other_row]|e] eqn:Es;
      simpl in H; [|discriminate].
    destruct (other_row =? row) eqn:Er; [|eapply Hmono; eauto].
    apply Z.eqb_eq in Er. subst other_row.
    assert (Hhere : forall p, p s = true ->
              on_row ((other_cell, VStr s) :: rest) row p other_col).
    { intros p Hp. exists other_cell, s. simpl. auto. }
    destruct (first s) eqn:Ef; [|destruct (second s) eqn:Esnd];
      [| |eapply Hmono; eauto];
      destruct (IH _ _ _ H) as [[?|(col & ? & ?)] [?|(col' & ? & ?)]];
      simpl in *; subst; split; eauto 6 using on_row_cons.
Qed.

Lemma scan_row_found (data : sheet) (c1 c2 : option string) :
  scan_row first second data row (None, None) = Ok (c1, c2) ->
  (forall col, c1 = Some col -> on_row data row first col) /\
  (forall col, c2 = Some col -> on_row data row second col).
Proof.
  intros H. apply scan_row_sound in H as [[->|(c & -> & H1)] [->|(c' & -> & H2)]];
    simpl; split; intros col E; try discriminate; injection E as <-; assumption.
Qed.

(** The inner loop misses no label of the row. *)
Lemma scan_row_complete (data : sheet) :
  forall cols c1 c2,
    scan_row first second data row cols = Ok (c1, c2) ->
    (is_Some (fst cols) \/ (exists col, on_row data row first col) ->
     is_Some c1) /\
    (is_Some (snd cols) \/
     (exists ref s col,
        In (ref, VStr s) data /\ second s = true /\ first s = false /\
        split_cell_reference ref = Ok (col, row)) ->
     is_Some c2).
Proof.
  induction data as [|[other_cell other_value] rest IH]; intros cols c1 c2 H.
  - simpl in H. injection H as ->. simpl.
    split; intros [?|Hex]; auto.
    + destruct Hex as (? & ? & ? & [] & _).
    + destruct Hex as (? & ? & ? & [] & _).
  - simpl in H.
    destruct other_value as [| | | |s].
    1-4: destruct (IH _ _ _ H) as [I1 I2]; split;
      [intros [?|(col & ref & s & [E|Hin] & Hp & Hs)]; [auto|discriminate E|];
        apply I1; right; exists col, ref, s; auto
      |intros [?|(ref & s & col & [E|Hin] & Hp & Hf & Hs)]; [auto|discriminate E|];
        apply I2; right; exists ref, s, col; auto].
    destruct (split_cell_reference other_cell) as [[other_col other_row]|e] eqn:Es;
      simpl in H; [|discriminate].
    destruct (IH _ _ _ H) as [I1 I2]. split.
    + intros [Hsome|(col & ref & s' & [E|Hin] & Hp & Hs)].
      * apply I1. left.
        destruct (other_row =? row); [destruct (first s); [|destruct (second s)]|];
          simpl; auto.
      * injection E as -> ->. rewrite Es in Hs. injection Hs as -> ->.
        apply I1. left. rewrite Z.eqb_refl, Hp. simpl. eauto.
      * apply I1. right. exists col, ref, s'. auto.
    + intros [Hsome|(ref & s' & col & [E|Hin] & Hp & Hf & Hs)].
      * apply I2. left.
        destruct (other_row =? row); [destruct (first s); [|destruct (second s)]|];
          simpl; auto.
      * injection E as -> ->. rewrite Es in Hs. injection Hs as -> ->.
        apply I2. left. rewrite Z.eqb_refl, Hf, Hp. simpl. eauto.
      * apply I2. right. exists ref, s', col. auto.
Qed.

End ScanRow.

Lemma is_time_not_date (s : string) : is_time s = true -> is_date s = false.
Proof.
  unfold is_time, is_date. intros H. apply String.eqb_eq in H. now rewrite H.
Qed.

Section HeaderSearch.

Context (data : sheet).

Lemma find_headers_from_origin :
  forall cells acc descs,
    incl cells data ->
    Forall (header_origin data) acc ->
    find_headers_from data cells acc = Ok descs ->
    Forall (header_origin data) descs.
Proof.
  induction cells as [|[cell_ref v] rest IH]; intros acc descs Hincl Hacc H.
  - simpl in H. now injection H as <-.
  - assert (Hrest : incl rest data) by (intros x Hx; apply Hincl; now right).
    assert (Hcell : In (cell_ref, v) data) by (apply Hincl; now left).
    simpl in H. destruct v as [| | | |s]; try (eapply IH; eauto; fail).
    destruct (is_event s) eqn:Ee.
    + destruct (split_cell_reference cell_ref) as [[col_event row]|e] eqn:Es;
        simpl in H; [|discriminate].
      destruct (scan_row is_date is_time data row (None, None))
        as [[col_date col_time]|e] eqn:Escan; simpl in H; [|discriminate].
      apply scan_row_found in Escan as [Hd Ht].
      destruct col_date as [dc|]; [destruct col_time as [tc|]|];
        try (eapply IH; eauto; fail).
      eapply IH; [exact Hrest| |exact H].
      apply Forall_app; split; [assumption|]. constructor; [|constructor].
      unfold header_origin, english_header; simpl.
      replace (row + 1 - 1) with row by lia.
      repeat split; auto. exists cell_ref, s. auto.
    + destruct (is_date s && startswith cell_ref "A") eqn:Ed;
        [|eapply IH; eauto].
      apply andb_prop in Ed as [Ed Ea].
      destruct (split_cell_reference cell_ref) as [[col_date row]|e] eqn:Es;
        simpl in H; [|discriminate].
      destruct (scan_row is_hrs_or_time is_event data row (None, None))
        as [[col_time col_event]|e] eqn:Escan; simpl in H; [|discriminate].
      apply scan_row_found in Escan as [Ht Hev].
      destruct col_time as [tc|]; [destruct col_event as [ec|]|];
        try (eapply IH; eauto; fail).
      eapply IH; [exact Hrest| |exact H].
      apply Forall_app; split; [assumption|]. constructor; [|constructor].
      unfold header_origin, spanish_header; simpl.
      replace (row + 1 - 1) with row by lia.
      repeat split; auto. exists cell_ref, s. auto.
Qed.

Lemma find_timesheet_headers_origin (descs : list section) :
  find_timesheet_headers data = Ok descs -> Forall (header_origin data) descs.
Proof.
  apply find_headers_from_origin; [apply incl_refl | constructor].
Qed.

Lemma find_headers_from_keeps :
  forall cells acc descs,
    find_headers_from data cells acc = Ok descs -> incl acc descs.
Proof.
  induction cells as [|[cell_ref v] rest IH]; intros acc descs H.
  - simpl in H. injection H as <-. apply incl_refl.
  - simpl in H. destruct v as [| | | |s]; try (eapply IH; eauto; fail).
    destruct (is_event s).
    + destruct (split_cell_reference cell_ref) as [[col_event row]|e];
        simpl in H; [|discriminate].
      destruct (scan_row is_date is_time data row (None, None))
        as [[[dc|] [tc|]]|e]; simpl in H; try discriminate;
        try (eapply IH; eauto; fail).
      apply IH in H. intros x Hx. apply H, in_or_app. auto.
    + destruct (is_date s && startswith cell_ref "A"); [|eapply IH; eauto].
      destruct (split_cell_reference cell_ref) as [[col_date row]|e];
        simpl in H; [|discriminate].
      destruct (scan_row is_hrs_or_time is_event data row (None, None))
        as [[[tc|] [ec|]]|e]; simpl in H; try discriminate;
        try (eapply IH; eauto; fail).
      apply IH in H. intros x Hx. apply H, in_or_app. auto.
Qed.

(** Every "event" cell that shares its row with a "date" and a "time"
    cell gives an English section, in whatever column the three are. *)
Lemma find_headers_from_english :
  forall cells acc descs,
    find_headers_from data cells acc = Ok descs ->
    forall ref s col row,
      In (ref, VStr s) cells -> is_event s = true ->
      split_cell_reference ref = Ok (col, row) ->
      (exists c, on_row data row is_date c) ->
      (exists c, on_row data row is_time c) ->
      exists d, In d descs /\ format d = english /\ event_col d = col /\
                start_row d = row + 1.
Proof.
  induction cells as [|[cell_ref v] rest IH];
    intros acc descs H ref s col row Hin He Hs Hd Ht; [destruct Hin|].
  simpl in H. destruct Hin as [E|Hin].
  - injection E as -> ->. rewrite He, Hs in H. simpl in H.
    destruct (scan_row is_date is_time data row (None, None))
      as [[col_date col_time]|e] eqn:Escan; simpl in H; [|discriminate].
    apply scan_row_complete in Escan as [I1 I2].
    destruct I1 as [dc ->]; [right; exact Hd|].
    destruct I2 as [tc ->].
    { right. destruct Ht as (c & r & s' & Hin' & Hp & Hs').
      exists r, s', c. auto using is_time_not_date. }
    apply find_headers_from_keeps in H.
    exists (mk_section english col dc tc (row + 1)). repeat split.
    apply H, in_or_app. right. now left.
  - destruct v as [| | | |s0]; try (eapply IH; eauto; fail).
    destruct (is_event s0).
    + destruct (split_cell_reference cell_ref) as [[col_event row0]|e];
        simpl in H; [|discriminate].
      destruct (scan_row is_date is_time data row0 (None, None))
        as [[[dc|] [tc|]]|e]; simpl in H; try discriminate; eapply IH; eauto.
    + destruct (is_date s0 && startswith cell_ref "A"); [|eapply IH; eauto].
      destruct (split_cell_reference cell_ref) as [[col_date row0]|e];
        simpl in H; [|discriminate].
      destruct (scan_row is_hrs_or_time is_event data row0 (None, None))
        as [[[tc|] [ec|]]|e]; simpl in H; try discriminate; eapply IH; eauto.
Qed.

(** Each cell adds at most one section. *)
Lemma find_headers_from_length :
  forall cells acc descs,
    find_headers_from data cells acc = Ok descs ->
    (List.length descs <= List.length acc + List.length cells)%nat.
Proof.
  induction cells as [|[cell_ref v] rest IH]; intros acc descs H.
  - simpl in H. injection H as <-. lia.
  - simpl in H. simpl List.length.
    destruct v as [| | | |s]; try (apply IH in H; lia).
    destruct (is_event s).
    + destruct (split_cell_reference cell_ref) as [[col_event row]|e];
        simpl in H; [|discriminate].
      destruct (scan_row is_date is_time data row (None, None))
        as [[[dc|] [tc|]]|e]; simpl in H; try discriminate;
        apply IH in H; rewrite ?length_app in H; simpl in H; lia.
    + destruct (is_date s && startswith cell_ref "A"); [|apply IH in H; lia].
      destruct (split_cell_reference cell_ref) as [[col_date row]|e];
        simpl in H; [|discriminate].
      destruct (scan_row is_hrs_or_time is_event data row (None, None))
        as [[[tc|] [ec|]]|e]; simpl in H; try discriminate;
        apply IH in H; rewrite ?length_app in H; simpl in H; lia.
Qed.

End HeaderSearch.

(** C1 (as stated, refuted): the three labels Date, Time, Event on row 5,
    the date in column A, give two sections for that one row, one of each
    variant; the row holds no HRS label. *)
Lemma one_header_row_yields_both_variants :
  find_timesheet_headers
    [("A5", VStr "Date"); ("B5", VStr "Time"); ("C5", VStr "Event")] =
  Ok [mk_section spanish "C" "A" "B" 6; mk_section english "C" "A" "B" 6].
Proof. reflexivity. Qed.

(** C1 (amended): every section found by the header search comes from a
    row that holds the whole role set of the section's own variant: for an
    English section the labels event, date and time, for a Spanish section
    the label date in a cell whose reference starts with A, the label hrs or
    time, and the label event, each in the column the section records. The
    two variants do not exclude each other. *)
Theorem header_sections_satisfy_own_variant (data : sheet)
    (descs : list section) (d : section) :
  find_timesheet_headers data = Ok descs -> In d descs ->
  (format d = english /\ english_header data d) \/
  (format d = spanish /\ spanish_header data d).
Proof.
  intros H Hin. apply find_timesheet_headers_origin in H.
  rewrite List.Forall_forall in H. specialize (H d Hin).
  unfold header_origin in H. destruct (format d); auto.
Qed.

Lemma header_sections_satisfy_own_variant_witness :
  (format (mk_section spanish "C" "A" "B" 6) = english /\
   english_header
     [("A5", VStr "Date"); ("B5", VStr "HRS"); ("C5", VStr "Event")]
     (mk_section spanish "C" "A" "B" 6)) \/
  (format (mk_section spanish "C" "A" "B" 6) = spanish /\
   spanish_header
     [("A5", VStr "Date"); ("B5", VStr "HRS"); ("C5", VStr "Event")]
     (mk_section spanish "C" "A" "B" 6)).
Proof.
  apply (header_sections_satisfy_own_variant
           [("A5", VStr "Date"); ("B5", VStr "HRS"); ("C5", VStr "Event")]
           [mk_section spanish "C" "A" "B" 6]);
    [reflexivity | simpl; auto].
Defined.

(** C10: a Spanish section is only found from a "date" cell whose
    reference starts with the letter A, so a sheet without such a cell has
    English sections only; an English section is found for every "event"
    cell that shares its row with a "date" and a "time" cell, in whatever
    columns they are. *)
Theorem spanish_header_needs_date_in_column_A (data : sheet)
    (descs : list section) :
  find_timesheet_headers data = Ok descs ->
  (forall d, In d descs -> format d = spanish ->
     exists ref s,
       In (ref, VStr s) data /\ is_date s = true /\
       startswith ref "A" = true /\
       split_cell_reference ref = Ok (date_col d, start_row d - 1)) /\
  ((forall ref s, In (ref, VStr s) data -> is_date s = true ->
      startswith ref "A" = false) ->
   forall d, In d descs -> format d = english) /\
  (forall ref s col row,
     In (ref, VStr s) data -> is_event s = true ->
     split_cell_reference ref = Ok (col, row) ->
     (exists c, on_row data row is_date c) ->
     (exists c, on_row data row is_time c) ->
     exists d, In d descs /\ format d = english /\ event_col d = col /\
               start_row d = row + 1).
Proof.
  intros H. pose proof (find_timesheet_headers_origin data descs H) as Ho.
  rewrite List.Forall_forall in Ho.
  assert (Hsp : forall d, In d descs -> format d = spanish ->
            exists ref s,
              In (ref, VStr s) data /\ is_date s = true /\
              startswith ref "A" = true /\
              split_cell_reference ref = Ok (date_col d, start_row d - 1)).
  { intros d Hin Hf. specialize (Ho d Hin). unfold header_origin in Ho.
    rewrite Hf in Ho. apply Ho. }
  split; [exact Hsp|]. split.
  - intros Hno d Hin. destruct (format d) eqn:Hf; [reflexivity|].
    destruct (Hsp d Hin Hf) as (ref & s & Hc & Hd & Ha & _).
    rewrite (Hno ref s Hc Hd) in Ha. discriminate.
  - intros ref s col row. eapply find_headers_from_english. exact H.
Qed.

Lemma spanish_header_needs_date_in_column_A_witness :
  (forall d, In d [mk_section english "D" "B" "C" 6] -> format d = spanish ->
     exists ref s,
       In (ref, VStr s)
         [("B5", VStr "Date"); ("C5", VStr "Time"); ("D5", VStr "Event")] /\
       is_date s = true /\ startswith ref "A" = true /\
       split_cell_reference ref = Ok (date_col d, start_row d - 1)) /\
  ((forall ref s,
      In (ref, VStr s)
        [("B5", VStr "Date"); ("C5", VStr "Time"); ("D5", VStr "Event")] ->
      is_date s = true -> startswith ref "A" = false) ->
   forall d, In d [mk_section english "D" "B" "C" 6] -> format d = english) /\
  (forall ref s col row,
     In (ref, VStr s)
       [("B5", VStr "Date"); ("C5", VStr "Time"); ("D5", VStr "Event")] ->
     is_event s = true ->
     split_cell_reference ref = Ok (col, row) ->
     (exists c,
        on_row [("B5", VStr "Date"); ("C5", VStr "Time"); ("D5", VStr "Event")]
          row is_date c) ->
     (exists c,
        on_row [("B5", VStr "Date"); ("C5", VStr "Time"); ("D5", VStr "Event")]
          row is_time c) ->
     exists d, In d [mk_section english "D" "B" "C" 6] /\
               format d = english /\ event_col d = col /\
               start_row d = row + 1).
Proof.
  apply (spanish_header_needs_date_in_column_A
           [("B5", VStr "Date"); ("C5", VStr "Time"); ("D5", VStr "Event")]
           [mk_section english "D" "B" "C" 6]).
  reflexivity.
Defined.

(** The date label outside column A: the same three Spanish labels give a
    section with the date in A5 and none with the date in B5. *)
Example spanish_labels_by_date_column :
  find_timesheet_headers
    [("A5", VStr "DATE"); ("B5", VStr "HRS"); ("C5", VStr "EVENT")] =
  Ok [mk_section spanish "C" "A" "B" 6] /\
  find_timesheet_headers
    [("B5", VStr "DATE"); ("C5", VStr "HRS"); ("D5", VStr "EVENT")] = Ok [].
Proof. split; reflexivity. Qed.

(** ** The section row walk *)

Lemma rows_from_S (row : Z) (n : nat) :
  rows_from row (S n) = row :: rows_from (row + 1) n.
Proof.
  unfold rows_from. simpl. rewrite Z.add_0_r. f_equal.
  rewrite <- seq_shift, map_map. apply map_ext. intros k. lia.
Qed.

Lemma sheet_get_key (data : sheet) (key : string) (v : value) :
  sheet_get data key = Some v -> In key (map fst data).
Proof.
  induction data as [|[k w] rest IH]; simpl; [discriminate|].
  destruct (String.eqb k key) eqn:E; [|auto].
  apply String.eqb_eq in E. auto.
Qed.

Lemma append_inj_r (a b c : string) : a ++ b = a ++ c -> b = c.
Proof.
  induction a as [|x a IH]; simpl; intros H; [assumption|].
  injection H as H. auto.
Qed.

Lemma cell_name_inj (col : string) (r1 r2 : Z) :
  cell_name col r1 = cell_name col r2 -> r1 = r2.
Proof.
  unfold cell_name. intros H. apply append_inj_r in H. now apply str_int_inj.
Qed.

Section RowWalk.

Context (data : sheet) (sec : section).

Lemma walk_rows_step (fuel : nat) (row : Z) :
  walk_rows (S fuel) data sec row =
  match event_cell_at data sec row with
  | None => Some []
  | Some event_value =>
      if no_event event_value then Some []
      else
        match walk_rows fuel data sec (row + 1) with
        | Some evs =>
            Some (mk_event (strip (py_str event_value))
                    (format_date (sheet_get data (cell_name (date_col sec) row)))
                    (format_time (sheet_get data (cell_name (time_col sec) row)))
                    (format sec) row :: evs)
        | None => None
        end
  end.
Proof. reflexivity. Qed.

(** More fuel does not change a finished walk. *)
Lemma walk_rows_mono :
  forall fuel fuel' row evs,
    walk_rows fuel data sec row = Some evs -> (fuel <= fuel')%nat ->
    walk_rows fuel' data sec row = Some evs.
Proof.
  induction fuel as [|fuel IH]; intros fuel' row evs H Hle; [discriminate|].
  destruct fuel' as [|fuel']; [lia|].
  rewrite walk_rows_step in *.
  destruct (event_cell_at data sec row) as [v|]; [|assumption].
  destruct (no_event v); [assumption|].
  destruct (walk_rows fuel data sec (row + 1)) as [evs'|] eqn:E; [|discriminate].
  rewrite (IH fuel' (row + 1) evs' E) by lia. assumption.
Qed.

(** The rows of a finished walk are consecutive from the first one, and
    each of them has its event cell in the sheet. *)
Lemma walk_rows_rows :
  forall fuel row evs,
    walk_rows fuel data sec row = Some evs ->
    map Row evs = rows_from row (List.length evs) /\
    Forall (walk_continues data sec) (map Row evs) /\
    walk_stops data sec (row + Z.of_nat (List.length evs)).
Proof.
  induction fuel as [|fuel IH]; intros row evs H; [discriminate|].
  rewrite walk_rows_step in H.
  destruct (event_cell_at data sec row) as [v|] eqn:Ev.
  - destruct (no_event v) eqn:En.
    + injection H as <-. simpl. rewrite Z.add_0_r.
      repeat split; [constructor|]. right. eauto.
    + destruct (walk_rows fuel data sec (row + 1)) as [evs'|] eqn:E;
        [|discriminate].
      injection H as <-. destruct (IH _ _ E) as (Hr & Hc & Hs).
      simpl List.length. rewrite rows_from_S. simpl map.
      repeat split.
      * now rewrite Hr.
      * constructor; [exists v; auto | assumption].
      * replace (row + Z.of_nat (S (List.length evs')))
          with (row + 1 + Z.of_nat (List.length evs')) by lia.
        assumption.
  - injection H as <-. simpl. rewrite Z.add_0_r.
    repeat split; [constructor|]. now left.
Qed.

(** The event cells of distinct rows are distinct cells of the sheet, so
    there are no more rows with an event cell than cells. *)
Lemma continued_rows_bounded (row : Z) (n : nat) :
  Forall (walk_continues data sec) (rows_from row n) ->
  (n <= List.length data)%nat.
Proof.
  intros H.
  set (keys := map (cell_name (event_col sec)) (rows_from row n)).
  assert (Hnd : List.NoDup keys).
  { unfold keys, rows_from. rewrite map_map.
    apply Finite.Injective_map_NoDup; [|apply seq_NoDup].
    intros a b E. apply cell_name_inj in E. lia. }
  assert (Hincl : incl keys (map fst data)).
  { intros key Hk. unfold keys in Hk. apply in_map_iff in Hk as (r & <- & Hr).
    rewrite List.Forall_forall in H. destruct (H r Hr) as (v & Hv & _).
    eapply sheet_get_key, Hv. }
  pose proof (List.NoDup_incl_length Hnd Hincl) as Hlen.
  unfold keys, rows_from in Hlen.
  rewrite !length_map, length_seq in Hlen. exact Hlen.
Qed.

(** A walk that runs out of fuel has passed a row with an event cell at
    every step. *)
Lemma walk_rows_out_of_fuel :
  forall fuel row,
    walk_rows fuel data sec row = None ->
    Forall (walk_continues data sec) (rows_from row fuel).
Proof.
  induction fuel as [|fuel IH]; intros row H; [constructor|].
  rewrite walk_rows_step in H. rewrite rows_from_S.
  destruct (event_cell_at data sec row) as [v|] eqn:Ev; [|discriminate].
  destruct (no_event v) eqn:En; [discriminate|].
  destruct (walk_rows fuel data sec (row + 1)) eqn:E; [discriminate|].
  constructor; [exists v; auto | apply IH, E].
Qed.

Lemma walk_rows_enough_fuel (row : Z) :
  exists evs, walk_rows (S (List.length data)) data sec row = Some evs.
Proof.
  destruct (walk_rows (S (List.length data)) data sec row) as [evs|] eqn:E;
    [eauto|].
  apply walk_rows_out_of_fuel, continued_rows_bounded in E. lia.
Qed.


End RowWalk.




(** C9: the row walk of [extract_events_from_section] ends for every
    sheet and section: with one unit of fuel more than the sheet has cells
    it returns its events, and with any larger amount the same ones; the
    rows of the events go up by one from the start row, there are no more
    events than cells, and the walk ended on a row that stops it. The header
    search is a recursion over the cells of the sheet and adds at most one
    section per cell. *)
Theorem extraction_terminates (data : sheet) (sec : section) :
  (exists evs,
     extract_events_from_section data sec = Some evs /\
     (forall fuel, (List.length data < fuel)%nat ->
        walk_rows fuel data sec (start_row sec) = Some evs) /\
     map Row evs = rows_from (start_row sec) (List.length evs) /\
     (List.length evs <= List.length data)%nat /\
     walk_stops data sec (start_row sec + Z.of_nat (List.length evs))) /\
  (forall descs,
     find_timesheet_headers data = Ok descs ->
     (List.length descs <= List.length data)%nat).
Proof.
  split.
  - destruct (walk_rows_enough_fuel data sec (start_row sec)) as (evs & He).
    exists evs. split; [exact He|].
    destruct (walk_rows_rows data sec _ _ _ He) as (Hr & Hc & Hs).
    repeat split; auto.
    + intros fuel Hf. eapply walk_rows_mono; [exact He | lia].
    + rewrite Hr in Hc. now apply continued_rows_bounded in Hc.
  - intros descs H. apply find_headers_from_length in H. simpl in H. lia.
Qed.

(** ** Substrings *)

Lemma append_assoc (a b c : string) : (a ++ b) ++ c = a ++ b ++ c.
Proof. induction a as [|x a IH]; simpl; [reflexivity|]. now rewrite IH. Qed.

Lemma prefix_spec (k s : string) :
  String.prefix k s = true <-> exists post, s = k ++ post.
Proof.
  revert k. induction s as [|b s IH]; intros [|a k]; simpl.
  - split; [exists EmptyString; reflexivity | reflexivity].
  - split; [discriminate | intros (post & H); discriminate].
  - split; [eexists; reflexivity | reflexivity].
  - destruct (ascii_dec a b) as [->|Hne].
    + rewrite IH. split; intros (post & H); exists post; congruence.
    + split; [discriminate | intros (post & H); congruence].
Qed.

Lemma contains_eq (k s : string) :
  contains k s =
  String.prefix k s ||
  match s with
  | EmptyString => false
  | String _ r => contains k r
  end.
Proof. destruct s; reflexivity. Qed.

(** [k in s] holds exactly when [s] is some text, [k], some text. *)
Lemma contains_spec (k s : string) :
  contains k s = true <-> exists pre post, s = pre ++ k ++ post.
Proof.
  split.
  - induction s as [|c r IH]; rewrite contains_eq; intros H;
      apply orb_prop in H as [H|H]; try discriminate.
    + apply prefix_spec in H as (post & ->). exists EmptyString, post.
      reflexivity.
    + apply prefix_spec in H as (post & ->). exists EmptyString, post.
      reflexivity.
    + destruct (IH H) as (pre & post & ->). exists (String c pre), post.
      reflexivity.
  - intros (pre & post & ->). induction pre as [|c pre IH].
    + rewrite contains_eq. apply orb_true_iff. left. apply prefix_spec.
      eexists. reflexivity.
    + change (String c pre ++ k ++ post) with (String c (pre ++ k ++ post)).
      rewrite contains_eq, IH. apply orb_true_r.
Qed.

Lemma contains_part (a b c s : string) :
  contains (a ++ b ++ c) s = true -> contains b s = true.
Proof.
  rewrite !contains_spec. intros (pre & post & ->).
  exists (pre ++ a), (c ++ post). now rewrite !append_assoc.
Qed.

Lemma contains_within (k pre s post : string) :
  contains k s = true -> contains k (pre ++ s ++ post) = true.
Proof.
  rewrite !contains_spec. intros (p & q & ->).
  exists (pre ++ p), (q ++ post). now rewrite !append_assoc.
Qed.

(** ** The classifier *)



Lemma any_keyword_in (keywords : list string) (k event_text : string) :
  In k keywords -> contains k event_text = true ->
  any_keyword keywords event_text = true.
Proof. intros Hin Hc. apply existsb_exists. eauto. Qed.

Lemma first_match_in (pats : list (string * list string)) (t category : string) :
  first_match pats t = Some category -> In category (map fst pats).
Proof.
  induction pats as [|[c kws] rest IH]; simpl; [discriminate|].
  destruct (any_keyword kws t); [|auto].
  intros H. injection H as <-. auto.
Qed.



Lemma pattern_categories : incl (map fst patterns) categories.
Proof.
  intros c Hc. unfold patterns in Hc. simpl in Hc. unfold categories. simpl.
  tauto.
Qed.








(** The examples of the specification, and the order of the table at work:
    a text that names a barge and a tank, and one that names only a tank. *)
Example categorize_examples :
  categorize "Loading commenced" = "Carga" /\
  categorize "Sampling completed" = "Muestreo" /\
  categorize "Barge alongside, tank gauging" = "Alije/Transferencia" /\
  categorize "Tank gauging" = "Operaciones de Tanque" /\
  categorize "Lunch" = "Otros".
Proof. repeat split; vm_compute; reflexivity. Qed.

(** ** Labelled fields *)

(** The notes header rejects, for one field, a candidate value that is
    empty, one character long, or the field name itself. *)
Lemma set_inline_field_rejects (value_clean field_key field_name : string)
    (header_data : gmap string string) :
  usable (strip (after_colon value_clean)) field_name = false ->
  set_inline_field value_clean header_data (field_key, field_name) = header_data.
Proof.
  unfold set_inline_field, after_colon. intros H.
  destruct (unset header_data field_key && contains field_name value_clean &&
            has_char ":" value_clean); [|reflexivity].
  destruct (snd (split_once ":" value_clean)) as [rest|]; [|reflexivity].
  now rewrite H.
Qed.

Lemma usable_short (v field_name : string) :
  (String.length v <= 1)%nat -> usable v field_name = false.
Proof.
  intros H. unfold usable. apply andb_false_iff. right.
  apply Nat.ltb_ge. exact H.
Qed.

Lemma usable_label (field_name : string) : usable field_name field_name = false.
Proof.
  unfold usable. rewrite String.eqb_refl. simpl. now rewrite andb_false_r.
Qed.

(** The whole first loop of the notes header leaves the table as it was
    when the text after the first colon has at most one character. *)
Lemma inline_fields_reject_short (value_clean : string)
    (header_data : gmap string string) :
  (String.length (strip (after_colon value_clean)) <= 1)%nat ->
  fold_left (set_inline_field value_clean) header_fields header_data =
  header_data.
Proof.
  intros H. unfold header_fields. cbn [fold_left].
  now rewrite !set_inline_field_rejects by (apply usable_short, H).
Qed.

(** A cell with a colon is never a bare field name, so the second loop
    of the notes header leaves the table as it was. *)
Lemma set_adjacent_field_colon (sheet_data : sheet) (value_clean col : string)
    (row : Z) (header_data : gmap string string) (field_key field_name : string) :
  has_char ":" value_clean = true -> has_char ":" field_name = false ->
  set_adjacent_field sheet_data value_clean col row header_data
    (field_key, field_name) = Ok header_data.
Proof.
  intros Hv Hf. unfold set_adjacent_field.
  destruct (String.eqb_spec value_clean field_name) as [->|_].
  - congruence.
  - now rewrite andb_false_r.
Qed.

Lemma set_adjacent_fields_colon (sheet_data : sheet) (value_clean col : string)
    (row : Z) (header_data : gmap string string) :
  has_char ":" value_clean = true ->
  set_adjacent_fields sheet_data value_clean col row header_data header_fields =
  Ok header_data.
Proof.
  intros Hv.
  assert (Hnames : Forall (fun field => has_char ":" (snd field) = false)
                     header_fields)
    by (repeat constructor).
  induction Hnames as [|[field_key field_name] rest Hname _ IH];
    [reflexivity|].
  cbn [set_adjacent_fields].
  rewrite set_adjacent_field_colon by assumption. exact IH.
Qed.

(** In the notes header a cell "label: value" whose value has at most one
    character sets no field at all. *)
Lemma header_cell_rejects_short (sheet_data : sheet)
    (header_data : gmap string string) (cell_ref s : string) :
  has_char ":" (strip s) = true ->
  (String.length (strip (after_colon (strip s))) <= 1)%nat ->
  header_cell sheet_data header_data cell_ref (VStr s) = Ok header_data \/
  header_cell sheet_data header_data cell_ref (VStr s) = Raise ValueError.
Proof.
  intros Hc Hl. unfold header_cell.
  destruct (is_empty s); [now left|].
  rewrite split_cell_reference_eq.
  destruct (is_empty (str_filter isdigit cell_ref)); [now right|]. left.
  unfold mbind, result_bind. cbv beta iota.
  destruct (15 <? _); [reflexivity|].
  rewrite inline_fields_reject_short by assumption.
  now apply set_adjacent_fields_colon.
Qed.

(** The cover sheet stores whatever follows the colon. *)
Lemma set_operational_field_stores (value_clean field_key : string)
    (field_names : list string) (operational_data : gmap string string) :
  existsb (fun field_name => startswith value_clean (field_name ++ ":"))
    field_names = true ->
  set_operational_field value_clean operational_data (field_key, field_names)
    !! field_key = Some (strip (after_colon value_clean)).
Proof.
  intros H. unfold set_operational_field. rewrite H. apply lookup_insert_eq.
Qed.

(** C7 (the code departs from the claim): on the cover sheet a cell
    "Terminal:" sets the field to the empty text, "Terminal: X" to the
    one-character text, and "Terminal: Terminal" to the label itself, where
    the notes header, on the same cells, sets nothing. *)
Theorem operational_data_keeps_degenerate_values :
  extract_operational_data [("A1", VStr "Terminal:")] !! "terminal" =
    Some EmptyString /\
  extract_operational_data [("A1", VStr "Terminal: X")] !! "terminal" =
    Some "X" /\
  extract_operational_data [("A1", VStr "Terminal: Terminal")] !! "terminal" =
    Some "Terminal" /\
  extract_timesheet_header [("A1", VStr "Terminal:")] = Ok ∅ /\
  extract_timesheet_header [("A1", VStr "Terminal: X")] = Ok ∅ /\
  extract_timesheet_header [("A1", VStr "Terminal: Terminal")] = Ok ∅.
Proof. repeat split; vm_compute; reflexivity. Qed.

(** The first example of field extraction of the specification. *)
Example terminal_inline :
  extract_operational_data [("A1", VStr "Terminal: ACME Port")] !! "terminal" =
  Some "ACME Port".
Proof. vm_compute. reflexivity. Qed.

(** ** Pumping data *)

Lemma append_empty_r (s : string) : s ++ EmptyString = s.
Proof. induction s as [|c r IH]; simpl; [reflexivity|]. now rewrite IH. Qed.

Lemma span_digits_spec (s : string) :
  forall ds rest,
    span_digits s = (ds, rest) ->
    s = ds ++ rest /\ str_forall isdigit ds = true.
Proof.
  induction s as [|c r IH]; intros ds rest H; simpl in H.
  - injection H as <- <-. auto.
  - destruct (isdigit c) eqn:Ec.
    + destruct (span_digits r) as [ds' rest'] eqn:E. injection H as <- <-.
      destruct (IH _ _ eq_refl) as [-> Hd]. simpl. rewrite Ec. auto.
    + injection H as <- <-. auto.
Qed.

Lemma span_digits_all (ds : string) :
  str_forall isdigit ds = true -> span_digits ds = (ds, EmptyString).
Proof.
  induction ds as [|c r IH]; simpl; [reflexivity|].
  intros H. apply andb_prop in H as [Hc Hr]. now rewrite Hc, IH.
Qed.

Lemma span_digits_app (ds : string) (c : ascii) (rest : string) :
  str_forall isdigit ds = true -> isdigit c = false ->
  span_digits (ds ++ String c rest) = (ds, String c rest).
Proof.
  intros Hd Hc. induction ds as [|x r IH]; simpl.
  - now rewrite Hc.
  - simpl in Hd. apply andb_prop in Hd as [Hx Hr]. now rewrite Hx, IH.
Qed.

Lemma comma_to_point_digits (ds : string) :
  str_forall isdigit ds = true -> comma_to_point ds = ds.
Proof.
  induction ds as [|c r IH]; simpl; [reflexivity|].
  intros H. apply andb_prop in H as [Hc Hr].
  unfold comma_to_point in *. simpl. rewrite IH by assumption.
  each_digit c Hc; reflexivity.
Qed.

Lemma comma_to_point_app (a b : string) :
  comma_to_point (a ++ b) = comma_to_point a ++ comma_to_point b.
Proof.
  unfold comma_to_point. induction a as [|c r IH]; simpl; [reflexivity|].
  now rewrite IH.
Qed.

Lemma leading_minus_digits (ds rest : string) :
  str_forall isdigit ds = true -> is_empty ds = false ->
  leading_minus (ds ++ rest) = (false, ds ++ rest).
Proof.
  destruct ds as [|c r]; [discriminate|]. simpl. intros H _.
  apply andb_prop in H as [Hc _]. each_digit c Hc; reflexivity.
Qed.

(** [float()] accepts a minus sign (or none), digits, and an optional
    separator followed by digits, once the separator is a point. *)
Lemma py_float_numeral (neg : bool) (ds tail : string) :
  str_forall isdigit ds = true -> is_empty ds = false ->
  (tail = EmptyString \/
   exists c fs, tail = String c fs /\ is_sep c = true /\
                str_forall isdigit fs = true) ->
  exists d,
    py_float (comma_to_point ((if neg then "-" else EmptyString) ++ ds ++ tail)) =
    Ok d.
Proof.
  intros Hd Hne Htail.
  assert (Hbody : exists body,
            comma_to_point (ds ++ tail) = ds ++ body /\
            (body = EmptyString \/
             exists fs, body = String "." fs /\ str_forall isdigit fs = true)).
  { rewrite comma_to_point_app, comma_to_point_digits by assumption.
    destruct Htail as [->|(c & fs & -> & Hs & Hf)].
    - exists EmptyString. auto.
    - exists (String "." fs). split; [|right; eauto].
      unfold comma_to_point at 1. simpl.
      fold (comma_to_point fs). rewrite comma_to_point_digits by assumption.
      unfold is_sep in Hs. apply orb_prop in Hs as [Hs|Hs];
        apply Ascii.eqb_eq in Hs; subst c; reflexivity. }
  destruct Hbody as (body & Hb & Hshape).
  assert (Hparse : forall sign, exists d,
            (let '(ds', r2) := span_digits (ds ++ body) in
             if is_empty ds' then Raise ValueError
             else
               match r2 with
               | EmptyString => Ok (mk_dec (sign * digits_value ds' 0) 0)
               | String c r3 =>
                   let '(fs, r4) := span_digits r3 in
                   if Ascii.eqb c "." && is_empty r4
                   then Ok (mk_dec (sign * digits_value (ds' ++ fs) 0)
                              (String.length fs))
                   else Raise ValueError
               end) = Ok d).
  { intros sign. destruct Hshape as [->|(fs & -> & Hf)].
    - rewrite append_empty_r, span_digits_all, Hne by assumption. eauto.
    - rewrite span_digits_app, Hne by (assumption || reflexivity).
      rewrite span_digits_all by assumption. simpl. eauto. }
  unfold py_float. destruct neg.
  - rewrite comma_to_point_app.
    change (comma_to_point "-") with "-".
    change (leading_minus ("-" ++ comma_to_point (ds ++ tail)))
      with (true, comma_to_point (ds ++ tail)).
    cbv iota beta. rewrite Hb. apply Hparse.
  - change (EmptyString ++ ds ++ tail) with (ds ++ tail). rewrite Hb.
    rewrite leading_minus_digits by assumption. apply Hparse.
Qed.

(** The text matched by the pattern is such a numeral. *)
Lemma match_number_numeral (s m rest : string) :
  match_number s = Some (m, rest) ->
  exists d, py_float (comma_to_point m) = Ok d.
Proof.
  unfold match_number. destruct (leading_minus s) as [neg r].
  destruct (span_digits r) as [ds r2] eqn:Es.
  apply span_digits_spec in Es as [_ Hd].
  destruct (is_empty ds) eqn:Hne; [discriminate|].
  destruct r2 as [|c r3].
  - intros H. injection H as <- _.
    rewrite <- (append_empty_r ds).
    apply (py_float_numeral neg ds EmptyString); auto.
  - destruct (is_sep c) eqn:Hs.
    + destruct (span_digits r3) as [fs r4] eqn:Ef.
      apply span_digits_spec in Ef as [_ Hf].
      intros H. injection H as <- _.
      apply (py_float_numeral neg ds (String c fs)); auto.
      right. eauto.
    + intros H. injection H as <- _.
      rewrite <- (append_empty_r ds).
      apply (py_float_numeral neg ds EmptyString); auto.
Qed.

Lemma search_number_eq (s : string) :
  search_number s =
  match match_number s with
  | Some (m, _) => Some m
  | None =>
      match s with
      | EmptyString => None
      | String _ r => search_number r
      end
  end.
Proof. destruct s; reflexivity. Qed.

Lemma search_number_numeral (s m : string) :
  search_number s = Some m -> exists d, py_float (comma_to_point m) = Ok d.
Proof.
  induction s as [|c r IH]; rewrite search_number_eq;
    destruct (match_number _) as [[m' rest]|] eqn:E;
    try discriminate; try exact IH;
    intros H; injection H as <-; eapply match_number_numeral, E.
Qed.

(** What the [try] block does for a numeric field: with a number in the
    text the field is set to that number, and without one the table is left
    as it was; the raw text is never stored. *)
Lemma store_field_numeric (field_key text : string)
    (pumping_data : gmap string pval) :
  is_numeric_field field_key = true ->
  match search_number text with
  | Some num =>
      exists d, py_float (comma_to_point num) = Ok d /\
                store_field field_key text pumping_data =
                <[field_key := PNum d]> pumping_data
  | None => store_field field_key text pumping_data = pumping_data
  end.
Proof.
  intros Hk. unfold store_field. rewrite Hk.
  destruct (search_number text) as [num|] eqn:E; [|reflexivity].
  destruct (search_number_numeral _ _ E) as (d & Hd). rewrite Hd. eauto.
Qed.

(** C5 (the code departs from the claim): below the label "Pumping Time"
    the value cell holds the text "N/A", in which no number is found; the
    field is left out of the result, where the claim has it set to the raw
    text "N/A". With the text "-12,5 h" in the same cell the field is set to
    the number. *)
Theorem pumping_time_without_number_is_left_unset :
  find_notes_structure
    [("G1", VStr "General Notes"); ("G2", VStr "Pumping Time");
     ("G3", VStr "N/A")] =
  Ok (Some (mk_structure false true None (Some "G") (Some 1))) /\
  extract_pumping_data
    [("G1", VStr "General Notes"); ("G2", VStr "Pumping Time");
     ("G3", VStr "N/A")]
    (Some (mk_structure false true None (Some "G") (Some 1)))
    !! "pumping_time" = None /\
  extract_pumping_data
    [("G1", VStr "General Notes"); ("G2", VStr "Pumping Time");
     ("G3", VStr "-12,5 h")]
    (Some (mk_structure false true None (Some "G") (Some 1)))
    !! "pumping_time" = Some (PNum (mk_dec (-125) 1)).
Proof. repeat split; vm_compute; reflexivity. Qed.

(** ** The buckets of [_categorize_events] *)

Lemma bucket_append_spec (buckets : list (string * list event))
    (category : string) (ev : event) :
  List.NoDup (map fst buckets) ->
  bucket_append buckets category ev =
  map (fun '(c, evs) =>
         (c, if String.eqb c category then (evs ++ [ev])%list else evs))
    buckets.
Proof.
  induction buckets as [|[c evs] rest IH]; intros Hnd; simpl; [reflexivity|].
  inversion Hnd as [|? ? Hnotin Hnd']; subst.
  destruct (String.eqb c category) eqn:E.
  - apply String.eqb_eq in E. subst c. f_equal.
    clear IH Hnd Hnd'. induction rest as [|[c' evs'] rest IH]; [reflexivity|].
    simpl in *. destruct (String.eqb c' category) eqn:E'.
    + apply String.eqb_eq in E'. tauto.
    + f_equal. apply IH. tauto.
  - f_equal. now apply IH.
Qed.

Lemma bucket_append_keys (buckets : list (string * list event))
    (category : string) (ev : event) :
  map fst (bucket_append buckets category ev) = map fst buckets.
Proof.
  induction buckets as [|[c evs] rest IH]; simpl; [reflexivity|].
  destruct (String.eqb c category); simpl; [reflexivity|]. now rewrite IH.
Qed.

(** After the loop every bucket holds, after what it held before, the
    events of its category in the order of the input. *)
Lemma buckets_after_loop (events : list event) :
  forall buckets,
    List.NoDup (map fst buckets) ->
    fold_left (fun acc ev => bucket_append acc (categorize (Event ev)) ev)
      events buckets =
    map (fun '(c, evs) =>
           (c, (evs ++ List.filter (fun e => String.eqb c (categorize (Event e)))
                         events)%list))
      buckets.
Proof.
  induction events as [|ev rest IH]; intros buckets Hnd; simpl.
  - rewrite <- (map_id buckets) at 1. apply map_ext. intros [c evs].
    now rewrite app_nil_r.
  - rewrite IH by (now rewrite bucket_append_keys).
    rewrite bucket_append_spec by assumption. rewrite map_map.
    apply map_ext. intros [c evs].
    destruct (String.eqb c (categorize (Event ev))); [|reflexivity].
    now rewrite <- app_assoc.
Qed.

Lemma categories_NoDup : List.NoDup categories.
Proof.
  unfold categories.
  repeat (constructor; [simpl; intuition discriminate|]). constructor.
Qed.

(** [_categorize_events] returns, in the order of [categories], each label
    with the events whose text it classifies, the labels without events
    left out: every event is in exactly the bucket of its category. *)
Lemma _categorize_events_buckets (events : list event) :
  _categorize_events events =
  List.filter (fun '(_, evs) => negb (Nat.eqb (List.length evs) 0))
    (map (fun c =>
            (c, List.filter (fun e => String.eqb c (categorize (Event e))) events))
       categories).
Proof.
  unfold _categorize_events. rewrite buckets_after_loop.
  - now rewrite List.map_map.
  - rewrite List.map_map. exact categories_NoDup.
Qed.

(** ** The end-to-end scenario *)

(** One English section is found below row 5; its walk gives the events of
    rows 6 and 7 and stops at the empty cell of row 8; the first event is
    classified "Carga" and the second "Muestreo". *)
Example scenario_events :
  find_timesheet_headers scenario_sheet =
    Ok [mk_section english "A" "B" "C" 6] /\
  extract_events_from_section scenario_sheet
    (mk_section english "A" "B" "C" 6) =
    Some [mk_event "Loading commenced" (Some "2024-01-01") (Some "08:00")
            english 6;
          mk_event "Sampling completed" (Some "2024-01-01") (Some "09:00")
            english 7] /\
  categorize "Loading commenced" = "Carga" /\
  categorize "Sampling completed" = "Muestreo".
Proof. repeat split; vm_compute; reflexivity. Qed.

(** * Further properties of the extraction code *)

(** ** Coordinates, dates and times *)

Lemma str_filter_forall (p : ascii -> bool) (s : string) :
  str_forall p (str_filter p s) = true.
Proof.
  induction s as [|c r IH]; simpl; [reflexivity|].
  destruct (p c) eqn:E; simpl; [rewrite E|]; auto.
Qed.

Lemma digit_val_nonneg (c : ascii) : isdigit c = true -> 0 <= digit_val c.
Proof. intros H. each_digit c H; vm_compute; discriminate. Qed.

Lemma digits_value_nonneg (s : string) :
  forall acc, str_forall isdigit s = true -> 0 <= acc ->
              0 <= digits_value s acc.
Proof.
  induction s as [|c r IH]; intros acc H Hacc; simpl; [assumption|].
  simpl in H. apply andb_prop in H as [Hc Hr].
  apply IH; [assumption|]. pose proof (digit_val_nonneg c Hc). lia.
Qed.

Lemma split_cell_reference_shape (cell_ref col : string) (row : Z) :
  split_cell_reference cell_ref = Ok (col, row) ->
  str_forall isalpha col = true /\ 0 <= row.
Proof.
  rewrite split_cell_reference_eq.
  destruct (is_empty (str_filter isdigit cell_ref)); [discriminate|].
  intros H. injection H as <- <-. split; [apply str_filter_forall|].
  apply digits_value_nonneg; [apply str_filter_forall | lia].
Qed.

(** Whatever [split_cell_reference] returns is a column made of letters
    only and a row that is not negative, and the reference built from that
    pair splits into the same pair again. *)
Theorem split_cell_reference_canonical (cell_ref col : string) (row : Z) :
  split_cell_reference cell_ref = Ok (col, row) ->
  str_forall isalpha col = true /\ 0 <= row /\
  split_cell_reference (cell_name col row) = Ok (col, row).
Proof.
  rewrite split_cell_reference_eq.
  destruct (is_empty (str_filter isdigit cell_ref)); [discriminate|].
  intros H. injection H as <- <-.
  assert (Ha : str_forall isalpha (str_filter isalpha cell_ref) = true)
    by apply str_filter_forall.
  assert (Hr : 0 <= digits_value (str_filter isdigit cell_ref) 0)
    by (apply digits_value_nonneg; [apply str_filter_forall | lia]).
  auto using split_cell_name.
Qed.

Lemma split_cell_reference_canonical_witness :
  str_forall isalpha "AB" = true /\ 0 <= 7 /\
  split_cell_reference (cell_name "AB" 7) = Ok ("AB", 7).
Proof.
  apply (split_cell_reference_canonical "$A$B007" "AB" 7). reflexivity.
Defined.

(** [split(sep, 1)] cuts the text at its first separator. *)
Lemma split_once_cut (sep : ascii) (s : string) :
  has_char sep s = true ->
  exists rest,
    s = fst (split_once sep s) ++ String sep rest /\
    has_char sep (fst (split_once sep s)) = false.
Proof.
  induction s as [|c r IH]; simpl; [discriminate|].
  destruct (Ascii.eqb c sep) eqn:E.
  - intros _. apply Ascii.eqb_eq in E as ->. exists r. auto.
  - rewrite Ascii.eqb_sym, E. simpl. intros H.
    destruct (IH H) as (rest & Hr & Hn).
    destruct (split_once sep r) as [a b0]. simpl in *.
    exists rest. rewrite Ascii.eqb_sym, E. simpl.
    split; [congruence | assumption].
Qed.

(** [format_date] keeps the trimmed text of the cell up to its first
    space and cuts the rest off: the date returned holds no space, and the
    trimmed text is that date, alone or followed by a space and more
    text. *)
Theorem format_date_keeps_text_before_first_space (v : value) (r : string) :
  format_date (Some v) = Some r ->
  has_char " " r = false /\
  (strip (py_str v) = r \/ exists rest, strip (py_str v) = r ++ " " ++ rest).
Proof.
  assert (H : forall t r',
            (if has_char " " t then fst (split_once " " t) else t) = r' ->
            has_char " " r' = false /\
            (t = r' \/ exists rest, t = r' ++ " " ++ rest)).
  { intros t r' <-. destruct (has_char " " t) eqn:E.
    - destruct (split_once_cut " " t E) as (rest & Hr & Hn).
      split; [exact Hn|]. right. exists rest. exact Hr.
    - split; [exact E | now left]. }
  destruct v; simpl; intros E; try discriminate; injection E as E;
    exact (H _ _ E).
Qed.

Lemma format_date_keeps_text_before_first_space_witness :
  has_char " " "2024-01-01" = false /\
  (strip (py_str (VStr " 2024-01-01 08:30 x ")) = "2024-01-01" \/
   exists rest,
     strip (py_str (VStr " 2024-01-01 08:30 x ")) = "2024-01-01" ++ " " ++ rest).
Proof.
  apply (format_date_keeps_text_before_first_space
           (VStr " 2024-01-01 08:30 x ") "2024-01-01").
  reflexivity.
Defined.

Lemma lstrip_starts_clean (s : string) : starts_clean (lstrip s).
Proof.
  induction s as [|c r IH]; simpl; [exact I|].
  destruct (isspace c) eqn:E; [assumption | exact E].
Qed.

Lemma lstrip_fixed (s : string) : starts_clean s -> lstrip s = s.
Proof. destruct s as [|c r]; simpl; [reflexivity|]. now intros ->. Qed.

Lemma rstrip_starts_clean (s : string) : starts_clean s -> starts_clean (rstrip s).
Proof.
  destruct s as [|c r]; simpl; [auto|]. intros E. rewrite E, andb_false_r.
  exact E.
Qed.

Lemma rstrip_idem (s : string) : rstrip (rstrip s) = rstrip s.
Proof.
  induction s as [|c r IH]; simpl; [reflexivity|].
  destruct (is_empty (rstrip r) && isspace c) eqn:E; [reflexivity|].
  simpl. now rewrite IH, E.
Qed.

Lemma strip_idem (s : string) : strip (strip s) = strip s.
Proof.
  unfold strip.
  rewrite (lstrip_fixed (rstrip (lstrip s)))
    by apply rstrip_starts_clean, lstrip_starts_clean.
  apply rstrip_idem.
Qed.

Lemma rstrip_no_space (s : string) :
  str_forall (fun c => negb (isspace c)) s = true -> rstrip s = s.
Proof.
  induction s as [|c r IH]; simpl; [reflexivity|].
  intros H. apply andb_prop in H as [Hc Hr]. rewrite (IH Hr).
  apply negb_true_iff in Hc. now rewrite Hc, andb_false_r.
Qed.

Lemma strip_no_space (s : string) :
  str_forall (fun c => negb (isspace c)) s = true -> strip s = s.
Proof.
  intros H. unfold strip. rewrite lstrip_fixed; [now apply rstrip_no_space|].
  destruct s as [|c r]; simpl in *; [exact I|].
  apply andb_prop in H as [Hc _]. now apply negb_true_iff in Hc.
Qed.

Lemma digit_not_space (c : ascii) : isdigit c = true -> negb (isspace c) = true.
Proof. intros H. each_digit c H; reflexivity. Qed.

(** [format_time] is idempotent: a time that it returned is returned
    unchanged when it is normalised again. *)
Theorem format_time_idempotent (v : value) (r : string) :
  format_time (Some v) = Some r -> format_time (Some (VStr r)) = Some r.
Proof.
  intros H.
  assert (Hr : exists t, strip t = t /\ r = format_time_str t).
  { destruct v; simpl in H; try discriminate; injection H as <-;
      eexists; (split; [apply strip_idem | reflexivity]). }
  destruct Hr as (t & Ht & ->). simpl. f_equal.
  destruct (str_isdigit t) eqn:Hd.
  - pose proof (str_isdigit_forall t Hd) as Hall.
    rewrite (format_time_str_digits t Hd).
    destruct t as [|c [|d [|e [|f [|g rest]]]]]; try discriminate Hd;
      simpl in Hall; repeat (apply andb_prop in Hall as [? Hall]).
    1-4: simpl String.append; simpl take; simpl drop;
      rewrite strip_no_space
        by (simpl; rewrite ?digit_not_space by assumption; reflexivity);
      unfold format_time_str; simpl has_char; rewrite ?orb_true_r;
      reflexivity.
    rewrite Ht. rewrite (format_time_str_digits _ Hd). reflexivity.
  - assert (E : format_time_str t = t).
    { unfold format_time_str. rewrite Hd. now destruct (has_char ":" t). }
    now rewrite !E, Ht.
Qed.

Lemma format_time_idempotent_witness :
  format_time (Some (VStr "07:30")) = Some "07:30".
Proof. apply (format_time_idempotent (VInt 730) "07:30"). reflexivity. Defined.

(** ** Header search: shape of the sections and failure *)

(** Every section found by the header search starts at row 1 or below it,
    and its three columns are made of letters only. *)
Theorem header_sections_well_formed (data : sheet) (descs : list section)
    (d : section) :
  find_timesheet_headers data = Ok descs -> In d descs ->
  1 <= start_row d /\
  str_forall isalpha (event_col d) = true /\
  str_forall isalpha (date_col d) = true /\
  str_forall isalpha (time_col d) = true.
Proof.
  intros H Hin. apply find_timesheet_headers_origin in H.
  rewrite List.Forall_forall in H. specialize (H d Hin).
  assert (Hrow : forall p col,
            on_row data (start_row d - 1) p col ->
            str_forall isalpha col = true /\ 1 <= start_row d).
  { intros p col (ref & s & _ & _ & Hs).
    apply split_cell_reference_shape in Hs as (Ha & Hr).
    split; [assumption | lia]. }
  unfold header_origin in H. destruct (format d).
  - destruct H as (He & Hd & Ht).
    apply Hrow in He as [? ?], Hd as [? _], Ht as [? _]. auto.
  - destruct H as ((ref & s & _ & _ & _ & Hs) & Ht & He).
    apply split_cell_reference_shape in Hs as (Ha & Hr).
    apply Hrow in He as [? ?], Ht as [? _]. auto.
Qed.

Lemma header_sections_well_formed_witness :
  1 <= start_row (mk_section english "A" "B" "C" 6) /\
  str_forall isalpha (event_col (mk_section english "A" "B" "C" 6)) = true /\
  str_forall isalpha (date_col (mk_section english "A" "B" "C" 6)) = true /\
  str_forall isalpha (time_col (mk_section english "A" "B" "C" 6)) = true.
Proof.
  apply (header_sections_well_formed scenario_sheet
           [mk_section english "A" "B" "C" 6]);
    [reflexivity | simpl; auto].
Defined.

Lemma scan_row_raises (first second : string -> bool) (data : sheet) (row : Z) :
  forall cols,
    existsb digitless_string_cell data = true ->
    scan_row first second data row cols = Raise ValueError.
Proof.
  induction data as [|[other_cell other_value] rest IH]; intros cols H;
    [discriminate|].
  simpl in H. simpl scan_row.
  destruct other_value as [| | | |s]; simpl in H; auto.
  rewrite split_cell_reference_eq.
  destruct (is_empty (str_filter isdigit other_cell)); [reflexivity|].
  simpl in H. unfold mbind, result_bind. cbv beta iota. auto.
Qed.

Lemma scan_row_returns (first second : string -> bool) (data : sheet) (row : Z) :
  forall cols,
    existsb digitless_string_cell data = false ->
    exists r, scan_row first second data row cols = Ok r.
Proof.
  induction data as [|[other_cell other_value] rest IH]; intros cols H;
    [simpl; eauto|].
  simpl in H. apply orb_false_iff in H as [Hc Hr]. simpl scan_row.
  destruct other_value as [| | | |s]; auto.
  rewrite split_cell_reference_eq. simpl in Hc. rewrite Hc.
  unfold mbind, result_bind. cbv beta iota. auto.
Qed.

Section HeaderSearchFailure.

Context (data : sheet).

Lemma find_headers_from_no_trigger :
  forall cells acc,
    existsb header_trigger cells = false ->
    find_headers_from data cells acc = Ok acc.
Proof.
  induction cells as [|[cell_ref v] rest IH]; intros acc H; [reflexivity|].
  simpl in H. apply orb_false_iff in H as [Hc Hr]. simpl find_headers_from.
  destruct v as [| | | |s]; auto.
  simpl in Hc. apply orb_false_iff in Hc as [-> ->]. auto.
Qed.

Lemma find_headers_from_raises :
  forall cells acc,
    existsb header_trigger cells = true ->
    existsb digitless_string_cell data = true ->
    find_headers_from data cells acc = Raise ValueError.
Proof.
  induction cells as [|[cell_ref v] rest IH]; intros acc H Hbad;
    [discriminate|].
  simpl in H. simpl find_headers_from.
  destruct v as [| | | |s]; simpl in H; auto.
  destruct (is_event s).
  - rewrite split_cell_reference_eq.
    destruct (is_empty (str_filter isdigit cell_ref)); [reflexivity|].
    unfold mbind, result_bind. cbv beta iota.
    now rewrite scan_row_raises.
  - destruct (is_date s && startswith cell_ref "A"); [|simpl in H; auto].
    rewrite split_cell_reference_eq.
    destruct (is_empty (str_filter isdigit cell_ref)); [reflexivity|].
    unfold mbind, result_bind. cbv beta iota.
    now rewrite scan_row_raises.
Qed.

Lemma find_headers_from_returns :
  forall cells acc,
    incl cells data ->
    existsb digitless_string_cell data = false ->
    exists descs, find_headers_from data cells acc = Ok descs.
Proof.
  induction cells as [|[cell_ref v] rest IH]; intros acc Hincl Hbad;
    [simpl; eauto|].
  assert (Hrest : incl rest data) by (intros x Hx; apply Hincl; now right).
  assert (Hkey : digitless_string_cell (cell_ref, v) = false).
  { destruct (digitless_string_cell (cell_ref, v)) eqn:E; [|reflexivity].
    assert (existsb digitless_string_cell data = true)
      by (apply existsb_exists; exists (cell_ref, v); split;
          [apply Hincl; now left | assumption]).
    congruence. }
  simpl find_headers_from. destruct v as [| | | |s]; auto.
  simpl in Hkey. rewrite split_cell_reference_eq, Hkey.
  unfold mbind, result_bind. cbv beta iota.
  destruct (is_event s).
  - destruct (scan_row_returns is_date is_time data
                (digits_value (str_filter isdigit cell_ref) 0) (None, None) Hbad)
      as [[[dc|] [tc|]] ->]; auto.
  - destruct (is_date s && startswith cell_ref "A"); auto.
    destruct (scan_row_returns is_hrs_or_time is_event data
                (digits_value (str_filter isdigit cell_ref) 0) (None, None) Hbad)
      as [[[tc|] [ec|]] ->]; auto.
Qed.

End HeaderSearchFailure.

(** On a sheet of plain references and ASCII values, the header search
    fails exactly when the sheet holds both a cell that starts a pattern (the
    text "event", or the text "date" in a reference that starts with A) and
    a string cell whose reference has no digit, wherever the two are; the
    failure is a [ValueError] and no section is returned. *)
Theorem find_timesheet_headers_fails_iff (data : sheet) :
  plain_sheet data = true ->
  (find_timesheet_headers data = Raise ValueError <->
   existsb header_trigger data = true /\
   existsb digitless_string_cell data = true) /\
  find_timesheet_headers data <> Raise TypeError.
Proof.
  intros _. unfold find_timesheet_headers.
  destruct (existsb header_trigger data) eqn:Ht.
  - destruct (existsb digitless_string_cell data) eqn:Hb.
    + rewrite find_headers_from_raises by assumption.
      split; [tauto | discriminate].
    + destruct (find_headers_from_returns data data [] (incl_refl _) Hb)
        as [descs ->].
      split; [|discriminate]. split; [discriminate|]. intros [_ ?].
      discriminate.
  - rewrite find_headers_from_no_trigger by assumption.
    split; [|discriminate]. split; [discriminate|]. intros [? _].
    discriminate.
Qed.

Lemma find_timesheet_headers_fails_iff_witness :
  (find_timesheet_headers
     [("A5", VStr " Event "); ("B5", VStr "Date"); ("Total", VStr "12")] =
   Raise ValueError <->
   existsb header_trigger
     [("A5", VStr " Event "); ("B5", VStr "Date"); ("Total", VStr "12")] =
   true /\
   existsb digitless_string_cell
     [("A5", VStr " Event "); ("B5", VStr "Date"); ("Total", VStr "12")] =
   true) /\
  find_timesheet_headers
    [("A5", VStr " Event "); ("B5", VStr "Date"); ("Total", VStr "12")] <>
  Raise TypeError.
Proof.
  apply (find_timesheet_headers_fails_iff
           [("A5", VStr " Event "); ("B5", VStr "Date");
            ("Total", VStr "12")]).
  reflexivity.
Defined.

(** ** The events of a section and of a workbook *)

Lemma walk_rows_fields (data : sheet) (sec : section) :
  forall fuel row evs,
    walk_rows fuel data sec row = Some evs ->
    Forall
      (fun ev =>
         Section ev = format sec /\ row <= Row ev /\
         Date ev = format_date (sheet_get data (cell_name (date_col sec) (Row ev))) /\
         Time ev = format_time (sheet_get data (cell_name (time_col sec) (Row ev))) /\
         exists v, event_cell_at data sec (Row ev) = Some v /\
                   no_event v = false /\ Event ev = strip (py_str v))
      evs.
Proof.
  induction fuel as [|fuel IH]; intros row evs H; [discriminate|].
  rewrite walk_rows_step in H.
  destruct (event_cell_at data sec row) as [v|] eqn:Ev.
  - destruct (no_event v) eqn:En.
    + injection H as <-. constructor.
    + destruct (walk_rows fuel data sec (row + 1)) as [evs'|] eqn:E;
        [|discriminate].
      injection H as <-. constructor.
      * simpl. repeat split; try lia. exists v. auto.
      * apply IH in E. eapply List.Forall_impl; [|exact E].
        intros ev (? & ? & ? & ? & ?). repeat split; auto. lia.
  - injection H as <-. constructor.
Qed.

(** Every event of a section carries the format of the section, a row at
    or below the start row, the normalised date and time of the cells of
    that row in the date and time columns, and as its text the trimmed text
    of the event cell of that row, which is present and not empty. *)
Theorem section_events_come_from_their_row (data : sheet) (sec : section)
    (evs : list event) (ev : event) :
  extract_events_from_section data sec = Some evs -> In ev evs ->
  Section ev = format sec /\ start_row sec <= Row ev /\
  Date ev = format_date (sheet_get data (cell_name (date_col sec) (Row ev))) /\
  Time ev = format_time (sheet_get data (cell_name (time_col sec) (Row ev))) /\
  exists v, sheet_get data (cell_name (event_col sec) (Row ev)) = Some v /\
            no_event v = false /\ Event ev = strip (py_str v).
Proof.
  intros H Hin. apply walk_rows_fields in H.
  rewrite List.Forall_forall in H. exact (H ev Hin).
Qed.

Lemma section_events_come_from_their_row_witness :
  Section (mk_event "Sampling completed" (Some "2024-01-01") (Some "09:00")
             english 7) = format (mk_section english "A" "B" "C" 6) /\
  start_row (mk_section english "A" "B" "C" 6) <= 7 /\
  Some "2024-01-01" = format_date (sheet_get scenario_sheet (cell_name "B" 7)) /\
  Some "09:00" = format_time (sheet_get scenario_sheet (cell_name "C" 7)) /\
  exists v, sheet_get scenario_sheet (cell_name "A" 7) = Some v /\
            no_event v = false /\ "Sampling completed" = strip (py_str v).
Proof.
  apply (section_events_come_from_their_row scenario_sheet
           (mk_section english "A" "B" "C" 6)
           [mk_event "Loading commenced" (Some "2024-01-01") (Some "08:00")
              english 6;
            mk_event "Sampling completed" (Some "2024-01-01") (Some "09:00")
              english 7]);
    [reflexivity | simpl; auto].
Defined.

(** The outcome of the header search, by the two tests on the sheet. *)
Lemma find_timesheet_headers_outcome (data : sheet) :
  if existsb header_trigger data && existsb digitless_string_cell data
  then find_timesheet_headers data = Raise ValueError
  else exists descs, find_timesheet_headers data = Ok descs.
Proof.
  unfold find_timesheet_headers.
  destruct (existsb header_trigger data) eqn:Ht; simpl.
  - destruct (existsb digitless_string_cell data) eqn:Hb.
    + now apply find_headers_from_raises.
    + now apply find_headers_from_returns.
  - rewrite find_headers_from_no_trigger by assumption. eauto.
Qed.

Lemma find_timesheet_headers_only_ValueError (data : sheet) (e : exn) :
  find_timesheet_headers data = Raise e -> e = ValueError.
Proof.
  pose proof (find_timesheet_headers_outcome data) as H.
  destruct (existsb header_trigger data && existsb digitless_string_cell data).
  - rewrite H. intros E. now injection E.
  - destruct H as [descs ->]. discriminate.
Qed.

Lemma sections_events_origin (sheet_name : string) (sheet_data : sheet) :
  forall sections i se,
    In se (sections_events sheet_name sheet_data sections i) ->
    Sheet se = sheet_name /\
    exists k sec,
      nth_error sections k = Some sec /\
      Section_Number se = i + Z.of_nat k + 1 /\
      In (base se) (section_events sheet_data sec).
Proof.
  induction sections as [|sec rest IH]; intros i se H; [destruct H|].
  simpl in H. apply in_app_or in H as [H|H].
  - apply in_map_iff in H as (ev & <- & Hev). simpl. split; [reflexivity|].
    exists 0%nat, sec. simpl. repeat split; [lia | assumption].
  - apply IH in H as (Hs & k & sec' & Hk & Hn & Hin). split; [assumption|].
    exists (S k), sec'. simpl. repeat split; [assumption | lia | assumption].
Qed.

Lemma events_from_sheets_origin :
  forall (data : workbook) (acc evs : list sheet_event),
    events_from_sheets data acc = Ok evs ->
    forall se, In se evs ->
      In se acc \/
      exists sheet_data descs,
        In (Sheet se, sheet_data) data /\
        find_timesheet_headers sheet_data = Ok descs /\
        In se (sections_events (Sheet se) sheet_data descs 0).
Proof.
  induction data as [|[sheet_name sheet_data] rest IH]; intros acc evs H se Hin.
  - simpl in H. injection H as <-. now left.
  - simpl in H.
    destruct (find_timesheet_headers sheet_data) as [descs|e] eqn:E;
      [|discriminate].
    unfold mbind, result_bind in H. cbv beta iota in H.
    destruct (IH _ _ H se Hin) as [Hacc|(sd & ds & Hd & Hf & Hs)].
    + apply in_app_or in Hacc as [Hacc|Hnew]; [now left|]. right.
      pose proof (sections_events_origin _ _ _ _ _ Hnew) as [Hname _].
      exists sheet_data, descs. rewrite Hname. simpl. auto.
    + right. exists sd, ds. simpl. auto.
Qed.

(** Every event returned by [extract_timesheet_events_from_data] names a
    sheet of the workbook, and a section number that is the position,
    counted from 1, of a section found by the header search on that sheet;
    the event is one of the events of the walk of that section. *)
Theorem workbook_events_origin (data : workbook) (evs : list sheet_event)
    (se : sheet_event) :
  extract_timesheet_events_from_data data = Ok evs -> In se evs ->
  exists sheet_data descs sec section_evs,
    In (Sheet se, sheet_data) data /\
    find_timesheet_headers sheet_data = Ok descs /\
    1 <= Section_Number se <= Z.of_nat (List.length descs) /\
    nth_error descs (Z.to_nat (Section_Number se - 1)) = Some sec /\
    extract_events_from_section sheet_data sec = Some section_evs /\
    In (base se) section_evs.
Proof.
  intros H Hin.
  destruct (events_from_sheets_origin data [] evs H se Hin)
    as [[]|(sheet_data & descs & Hd & Hf & Hs)].
  apply sections_events_origin in Hs as (_ & k & sec & Hk & Hn & Hev).
  unfold section_events in Hev.
  destruct (extract_events_from_section sheet_data sec) as [section_evs|] eqn:E;
    [|destruct Hev].
  exists sheet_data, descs, sec, section_evs.
  assert (Hlt : (k < List.length descs)%nat)
    by (apply nth_error_Some; congruence).
  repeat split; auto; try lia.
  replace (Z.to_nat (Section_Number se - 1)) with k by lia. exact Hk.
Qed.

Lemma workbook_events_origin_witness :
  exists sheet_data descs sec section_evs,
    In ("TIMESHEET", sheet_data) [("TIMESHEET", scenario_sheet)] /\
    find_timesheet_headers sheet_data = Ok descs /\
    1 <= 1 <= Z.of_nat (List.length descs) /\
    nth_error descs (Z.to_nat (1 - 1)) = Some sec /\
    extract_events_from_section sheet_data sec = Some section_evs /\
    In (mk_event "Sampling completed" (Some "2024-01-01") (Some "09:00")
          english 7) section_evs.
Proof.
  apply (workbook_events_origin [("TIMESHEET", scenario_sheet)]
           [mk_sheet_event
              (mk_event "Loading commenced" (Some "2024-01-01") (Some "08:00")
                 english 6) "TIMESHEET" 1;
            mk_sheet_event
              (mk_event "Sampling completed" (Some "2024-01-01") (Some "09:00")
                 english 7) "TIMESHEET" 1]
           (mk_sheet_event
              (mk_event "Sampling completed" (Some "2024-01-01") (Some "09:00")
                 english 7) "TIMESHEET" 1));
    [reflexivity | simpl; auto].
Defined.

Lemma events_from_sheets_fails (data : workbook) :
  forall acc,
    events_from_sheets data acc = Raise ValueError <->
    exists sheet_name sheet_data,
      In (sheet_name, sheet_data) data /\
      find_timesheet_headers sheet_data = Raise ValueError.
Proof.
  induction data as [|[sheet_name sheet_data] rest IH]; intros acc.
  - simpl. split; [discriminate | intros (? & ? & [] & _)].
  - simpl events_from_sheets.
    destruct (find_timesheet_headers sheet_data) as [descs|e] eqn:E.
    + unfold mbind, result_bind. cbv beta iota. rewrite IH. split.
      * intros (n & sd & Hin & Hf). exists n, sd. simpl. auto.
      * intros (n & sd & [Heq|Hin] & Hf); [|eauto].
        injection Heq as -> ->. congruence.
    + apply find_timesheet_headers_only_ValueError in E as Hv. subst e.
      split; [|reflexivity]. intros _. exists sheet_name, sheet_data.
      simpl. auto.
Qed.

(** One sheet is enough to lose the events of all: over a workbook of
    plain references and ASCII values, the extraction fails, with
    [ValueError] and without any event, exactly when the header search
    fails on one of its sheets. *)
Theorem workbook_extraction_fails_iff (data : workbook) :
  plain_workbook data = true ->
  extract_timesheet_events_from_data data = Raise ValueError <->
  exists sheet_name sheet_data,
    In (sheet_name, sheet_data) data /\
    find_timesheet_headers sheet_data = Raise ValueError.
Proof. intros _. apply events_from_sheets_fails. Qed.

Lemma workbook_extraction_fails_iff_witness :
  extract_timesheet_events_from_data
    [("Time Sheet", scenario_sheet);
     ("Summary", [("A1", VStr "Event"); ("Total", VStr "12")])] =
  Raise ValueError <->
  exists sheet_name sheet_data,
    In (sheet_name, sheet_data)
      [("Time Sheet", scenario_sheet);
       ("Summary", [("A1", VStr "Event"); ("Total", VStr "12")])] /\
    find_timesheet_headers sheet_data = Raise ValueError.
Proof.
  apply (workbook_extraction_fails_iff
           [("Time Sheet", scenario_sheet);
            ("Summary", [("A1", VStr "Event"); ("Total", VStr "12")])]).
  reflexivity.
Defined.

(** ** The notes table: failure, presence and weather *)

Lemma notes_structure_from_raises (cells : sheet) :
  forall st,
    existsb nonempty_digitless_cell cells = true ->
    notes_structure_from cells st = Raise ValueError.
Proof.
  induction cells as [|[cell_ref v] rest IH]; intros st H; [discriminate|].
  simpl in H. simpl notes_structure_from.
  destruct v as [| | | |s]; simpl in H; auto.
  destruct (is_empty s); simpl in H; auto.
  rewrite split_cell_reference_eq.
  destruct (is_empty (str_filter isdigit cell_ref)); [reflexivity|].
  simpl in H. unfold mbind, result_bind. cbv beta iota.
  destruct (contains "Special Notes" (strip s)); auto.
  destruct (contains "General Notes" (strip s)); auto.
Qed.

(** What the loop of [find_notes_structure] does when no reference fails:
    the found flags record whether a heading was met, a structure with a
    flag set has a start row, and a start row that changed is the row of a
    heading cell. *)
Lemma notes_structure_from_returns (cells : sheet) :
  forall st,
    existsb nonempty_digitless_cell cells = false ->
    exists st',
      notes_structure_from cells st = Ok st' /\
      structure_found st' = structure_found st || existsb notes_marker cells /\
      ((structure_found st = true -> is_Some (notes_start_row st)) ->
       structure_found st' = true -> is_Some (notes_start_row st')) /\
      (notes_start_row st' = notes_start_row st \/
       exists cell_ref s col row,
         In (cell_ref, VStr s) cells /\
         notes_marker (cell_ref, VStr s) = true /\
         split_cell_reference cell_ref = Ok (col, row) /\
         notes_start_row st' = Some row).
Proof.
  induction cells as [|[cell_ref v] rest IH]; intros st H.
  - exists st. simpl. rewrite orb_false_r. auto.
  - simpl in H. apply orb_false_iff in H as [Hc Hr].
    assert (Hskip : notes_marker (cell_ref, v) = false ->
              notes_structure_from ((cell_ref, v) :: rest) st =
              notes_structure_from rest st ->
              exists st',
                notes_structure_from ((cell_ref, v) :: rest) st = Ok st' /\
                structure_found st' =
                  structure_found st ||
                  existsb notes_marker ((cell_ref, v) :: rest) /\
                ((structure_found st = true -> is_Some (notes_start_row st)) ->
                 structure_found st' = true -> is_Some (notes_start_row st')) /\
                (notes_start_row st' = notes_start_row st \/
                 exists cell_ref' s col row,
                   In (cell_ref', VStr s) ((cell_ref, v) :: rest) /\
                   notes_marker (cell_ref', VStr s) = true /\
                   split_cell_reference cell_ref' = Ok (col, row) /\
                   notes_start_row st' = Some row)).
    { intros Hm ->. destruct (IH st Hr) as (st' & E & Hf & Hs & Hrow).
      exists st'. cbn [existsb]. rewrite Hm. simpl orb.
      split; [exact E|]. split; [exact Hf|]. split; [exact Hs|].
      destruct Hrow as [?|(r & s & col & row & Hin & ?)]; [now left|].
      right. exists r, s, col, row. simpl. auto. }
    destruct v as [| | | |s]; try (apply Hskip; reflexivity).
    destruct (is_empty s) eqn:Hs.
    { apply Hskip; [unfold notes_marker; rewrite Hs; reflexivity|].
      simpl notes_structure_from. rewrite Hs. reflexivity. }
    simpl in Hc.
    assert (Hsplit : split_cell_reference cell_ref =
              Ok (str_filter isalpha cell_ref,
                  digits_value (str_filter isdigit cell_ref) 0))
      by (now rewrite split_cell_reference_eq, Hc).
    assert (Hstep : forall st1,
              notes_marker (cell_ref, VStr s) = true ->
              notes_structure_from ((cell_ref, VStr s) :: rest) st =
              notes_structure_from rest st1 ->
              structure_found st1 = true ->
              is_Some (notes_start_row st1) ->
              (notes_start_row st1 = notes_start_row st \/
               notes_start_row st1 =
               Some (digits_value (str_filter isdigit cell_ref) 0)) ->
              exists st',
                notes_structure_from ((cell_ref, VStr s) :: rest) st = Ok st' /\
                structure_found st' =
                  structure_found st ||
                  existsb notes_marker ((cell_ref, VStr s) :: rest) /\
                ((structure_found st = true -> is_Some (notes_start_row st)) ->
                 structure_found st' = true -> is_Some (notes_start_row st')) /\
                (notes_start_row st' = notes_start_row st \/
                 exists cell_ref' s' col row,
                   In (cell_ref', VStr s') ((cell_ref, VStr s) :: rest) /\
                   notes_marker (cell_ref', VStr s') = true /\
                   split_cell_reference cell_ref' = Ok (col, row) /\
                   notes_start_row st' = Some row)).
    { intros st1 Hm -> Hf1 Hs1 Hrow1.
      destruct (IH st1 Hr) as (st' & E & Hf & Hsome & Hrow).
      assert (Hst' : structure_found st' = true) by (now rewrite Hf, Hf1).
      exists st'. cbn [existsb]. rewrite Hm, Hst'. simpl orb.
      rewrite orb_true_r.
      split; [exact E|]. split; [reflexivity|]. split; [auto|].
      destruct Hrow as [Heq|(r & s' & col & row & Hin & ?)].
      - rewrite Heq. destruct Hrow1 as [?|Hnew]; [now left|]. right.
        exists cell_ref, s. do 2 eexists. simpl. eauto.
      - right. exists r, s', col, row. simpl. auto. }
    assert (Heq : notes_structure_from ((cell_ref, VStr s) :: rest) st =
              if contains "Special Notes" (strip s) then
                notes_structure_from rest
                  (mk_structure true (general_notes_found st)
                     (Some (str_filter isalpha cell_ref))
                     (general_notes_col st)
                     (Some (digits_value (str_filter isdigit cell_ref) 0)))
              else if contains "General Notes" (strip s) then
                notes_structure_from rest
                  (mk_structure (special_notes_found st) true
                     (special_notes_col st)
                     (Some (str_filter isalpha cell_ref))
                     (if no_start_row st
                      then Some (digits_value (str_filter isdigit cell_ref) 0)
                      else notes_start_row st))
              else notes_structure_from rest st).
    { simpl notes_structure_from. rewrite Hs, Hsplit.
      unfold mbind, result_bind. cbv beta iota. reflexivity. }
    destruct (contains "Special Notes" (strip s)) eqn:Hsp.
    + eapply Hstep; [unfold notes_marker; rewrite Hs, Hsp; reflexivity
                    | exact Heq | reflexivity | simpl; eauto
                    | right; reflexivity].
    + destruct (contains "General Notes" (strip s)) eqn:Hg.
      * eapply Hstep; [unfold notes_marker; rewrite Hs, Hsp, Hg; reflexivity
                      | exact Heq
                      | unfold structure_found; simpl; apply orb_true_r | |].
        -- simpl. unfold no_start_row.
           destruct (notes_start_row st) as [r|]; [|eauto].
           destruct (r =? 0); eauto.
        -- simpl. destruct (no_start_row st); auto.
      * apply Hskip; [unfold notes_marker; rewrite Hs, Hsp, Hg; reflexivity|].
        exact Heq.
Qed.

(** On a sheet of plain references, [find_notes_structure] fails, with
    [ValueError], exactly when some non-empty string cell of the sheet has
    a reference without a digit, whether or not the sheet has a notes
    table. *)
Theorem find_notes_structure_fails_iff (sheet_data : sheet) :
  plain_refs sheet_data = true ->
  (find_notes_structure sheet_data = Raise ValueError <->
   existsb nonempty_digitless_cell sheet_data = true) /\
  find_notes_structure sheet_data <> Raise TypeError.
Proof.
  intros _. unfold find_notes_structure.
  destruct (existsb nonempty_digitless_cell sheet_data) eqn:H.
  - rewrite notes_structure_from_raises by assumption.
    split; [tauto | discriminate].
  - destruct (notes_structure_from_returns sheet_data
                (mk_structure false false None None None) H)
      as (st & -> & _).
    split; [|discriminate]. split; discriminate.
Qed.

Lemma find_notes_structure_fails_iff_witness :
  (find_notes_structure
     [("G1", VStr "General Notes"); ("Total", VStr "12"); ("H", VStr "")] =
   Raise ValueError <->
   existsb nonempty_digitless_cell
     [("G1", VStr "General Notes"); ("Total", VStr "12"); ("H", VStr "")] =
   true) /\
  find_notes_structure
    [("G1", VStr "General Notes"); ("Total", VStr "12"); ("H", VStr "")] <>
  Raise TypeError.
Proof.
  apply (find_notes_structure_fails_iff
           [("G1", VStr "General Notes"); ("Total", VStr "12");
            ("H", VStr "")]).
  reflexivity.
Defined.

(** When [find_notes_structure] returns, it returns a structure exactly
    when some non-empty string cell names "Special Notes" or "General Notes"
    in its trimmed text; the structure then has a heading found and a start
    row, which is the row of such a cell. *)
Theorem find_notes_structure_found_iff (sheet_data : sheet)
    (r : option notes_structure) :
  find_notes_structure sheet_data = Ok r ->
  (r = None <-> existsb notes_marker sheet_data = false) /\
  (forall st, r = Some st ->
     structure_found st = true /\
     exists cell_ref s col row,
       In (cell_ref, VStr s) sheet_data /\
       notes_marker (cell_ref, VStr s) = true /\
       split_cell_reference cell_ref = Ok (col, row) /\
       notes_start_row st = Some row).
Proof.
  unfold find_notes_structure. intros H.
  destruct (existsb nonempty_digitless_cell sheet_data) eqn:Hb.
  { rewrite notes_structure_from_raises in H by assumption. discriminate. }
  destruct (notes_structure_from_returns sheet_data
              (mk_structure false false None None None) Hb)
    as (st & E & Hf & Hsome & Hrow).
  rewrite E in H. unfold mbind, result_bind in H. cbv beta iota in H.
  injection H as <-. fold (structure_found st).
  change (structure_found (mk_structure false false None None None))
    with false in *.
  simpl in Hf. rewrite <- Hf. destruct (structure_found st) eqn:Hst.
  - split; [split; discriminate|]. intros st0 E0. injection E0 as <-.
    split; [assumption|].
    destruct Hrow as [Hnone|?]; [|assumption].
    destruct (Hsome ltac:(discriminate) eq_refl) as [row Hrow].
    simpl in Hnone. congruence.
  - split; [tauto|]. discriminate.
Qed.

Lemma find_notes_structure_found_iff_witness :
  (Some (mk_structure false true None (Some "G") (Some 1)) = None <->
   existsb notes_marker
     [("G1", VStr "General Notes"); ("G2", VStr "Pumping Time")] = false) /\
  (forall st, Some (mk_structure false true None (Some "G") (Some 1)) = Some st ->
     structure_found st = true /\
     exists cell_ref s col row,
       In (cell_ref, VStr s)
         [("G1", VStr "General Notes"); ("G2", VStr "Pumping Time")] /\
       notes_marker (cell_ref, VStr s) = true /\
       split_cell_reference cell_ref = Ok (col, row) /\
       notes_start_row st = Some row).
Proof.
  apply (find_notes_structure_found_iff
           [("G1", VStr "General Notes"); ("G2", VStr "Pumping Time")]).
  reflexivity.
Defined.

Lemma fold_left_invariant {S X : Type} (P : S -> Prop) (f : S -> X -> S)
    (l : list X) :
  forall s,
    P s -> (forall s x, In x l -> P s -> P (f s x)) -> P (fold_left f l s).
Proof.
  induction l as [|x l IH]; intros s Hs Hstep; simpl; [assumption|].
  apply IH; [apply Hstep; simpl; auto|].
  intros s' x' Hin. apply Hstep. now right.
Qed.

Lemma fold_left_reaches {S X : Type} (Q : S -> Prop) (f : S -> X -> S)
    (l : list X) (x : X) :
  In x l ->
  (forall s, Q (f s x)) -> (forall s y, Q s -> Q (f s y)) ->
  forall s, Q (fold_left f l s).
Proof.
  intros Hin Hx Hkeep. induction l as [|y l IH]; [destruct Hin|].
  intros s. simpl. destruct Hin as [->|Hin]; [|now apply IH].
  apply fold_left_invariant; [apply Hx | auto].
Qed.

Lemma weather_offsets_range (row_offset : Z) :
  In row_offset weather_offsets <-> 1 <= row_offset <= 9.
Proof. unfold weather_offsets. simpl. lia. Qed.

Lemma marked_spec (keywords : list string) (value_clean c : string) :
  In c (marked keywords value_clean) <->
  exists keyword,
    In keyword keywords /\ contains keyword value_clean = true /\
    has_char "X" value_clean = true /\ c = lower keyword.
Proof.
  unfold marked. rewrite in_map_iff. split.
  - intros (k & <- & Hk). apply filter_In in Hk as (Hin & Hc).
    apply andb_prop in Hc as [? ?]. eauto.
  - intros (k & Hin & Hc & Hx & ->). exists k. split; [reflexivity|].
    apply filter_In. now rewrite Hc, Hx.
Qed.

(** [extract_weather_conditions] reports a weather condition (and, in the
    same way, a sea condition) exactly when the structure has a start row
    other than zero and some cell of the nine rows below it, in the columns
    A to J, holds a truthy value whose trimmed text names the condition and
    holds an uppercase X; the condition is reported in lowercase. *)
Theorem weather_conditions_iff_marked (sheet_data : sheet)
    (structure : option notes_structure) (c : string) :
  (In c (weather_conditions (extract_weather_conditions sheet_data structure)) <->
   exists st start,
     structure = Some st /\ notes_start_row st = Some start /\ start <> 0 /\
     marked_in_window weather_keywords sheet_data start c) /\
  (In c (sea_conditions (extract_weather_conditions sheet_data structure)) <->
   exists st start,
     structure = Some st /\ notes_start_row st = Some start /\ start <> 0 /\
     marked_in_window sea_keywords sheet_data start c).
Proof.
  unfold extract_weather_conditions.
  destruct structure as [st|];
    [|split; (split; [intros [] | intros (? & ? & ? & _); discriminate])].
  destruct (notes_start_row st) as [start|] eqn:Hst;
    [|split; (split; [intros [] | intros (? & ? & E & E' & _);
                      injection E as <-; congruence])].
  destruct (start =? 0) eqn:Hz;
    [apply Z.eqb_eq in Hz;
     split; (split; [intros [] | intros (? & ? & E & E' & Hne & _);
                     injection E as <-; congruence])|].
  apply Z.eqb_neq in Hz.
  set (cell_step := fun (current_row : Z) (info : weather_info) (col_offset : string) =>
         match sheet_get sheet_data (cell_name col_offset current_row) with
         | Some v =>
             if truthy v then
               mk_weather
                 (weather_conditions info ++
                  marked weather_keywords (strip (py_str v)))%list
                 (sea_conditions info ++
                  marked sea_keywords (strip (py_str v)))%list
             else info
         | None => info
         end).
  set (row_step := fun (info : weather_info) (row_offset : Z) =>
         fold_left (cell_step (start + row_offset)) weather_columns info).
  assert (Hsound :
            (forall x, In x (weather_conditions
                               (fold_left row_step weather_offsets (mk_weather [] []))) ->
                       marked_in_window weather_keywords sheet_data start x) /\
            (forall x, In x (sea_conditions
                               (fold_left row_step weather_offsets (mk_weather [] []))) ->
                       marked_in_window sea_keywords sheet_data start x)).
  { apply (fold_left_invariant
             (fun info =>
                (forall x, In x (weather_conditions info) ->
                           marked_in_window weather_keywords sheet_data start x) /\
                (forall x, In x (sea_conditions info) ->
                           marked_in_window sea_keywords sheet_data start x)));
      [split; intros x []|].
    intros info row_offset Hoff Hinfo. unfold row_step.
    apply fold_left_invariant; [exact Hinfo|].
    intros info' col Hcol [Hw Hs]. unfold cell_step.
    destruct (sheet_get sheet_data (cell_name col (start + row_offset)))
      as [v|] eqn:Hv; [|auto].
    destruct (truthy v) eqn:Htv; [|auto].
    apply weather_offsets_range in Hoff.
    split; intros x Hx; simpl in Hx; apply in_app_or in Hx as [Hx|Hx]; auto;
      apply marked_spec in Hx as (k & Hk & Hc & HX & ->);
      exists row_offset, col, v, k; auto 10. }
  assert (Hcomplete :
            (forall x, marked_in_window weather_keywords sheet_data start x ->
                       In x (weather_conditions
                               (fold_left row_step weather_offsets (mk_weather [] [])))) /\
            (forall x, marked_in_window sea_keywords sheet_data start x ->
                       In x (sea_conditions
                               (fold_left row_step weather_offsets (mk_weather [] []))))).
  { assert (Hcell_keep : forall row info col x,
              (In x (weather_conditions info) ->
               In x (weather_conditions (cell_step row info col))) /\
              (In x (sea_conditions info) ->
               In x (sea_conditions (cell_step row info col)))).
    { intros row info col x. unfold cell_step.
      destruct (sheet_get sheet_data (cell_name col row)) as [v|]; [|auto].
      destruct (truthy v); [|auto]. simpl.
      split; intros Hx; apply in_or_app; auto. }
    assert (Hrow_keep : forall info row_offset x,
              (In x (weather_conditions info) ->
               In x (weather_conditions (row_step info row_offset))) /\
              (In x (sea_conditions info) ->
               In x (sea_conditions (row_step info row_offset)))).
    { intros info row_offset x. unfold row_step. split; intros Hx.
      - apply (fold_left_invariant
                 (fun info' => In x (weather_conditions info'))); [exact Hx|].
        intros s col _. apply Hcell_keep.
      - apply (fold_left_invariant
                 (fun info' => In x (sea_conditions info'))); [exact Hx|].
        intros s col _. apply Hcell_keep. }
    split; intros x (row_offset & col & v & k & Hoff & Hcol & Hv & Htv & Hk
                     & Hc & HX & ->);
      apply weather_offsets_range in Hoff.
    - apply (fold_left_reaches
               (fun info => In (lower k) (weather_conditions info))
               row_step weather_offsets row_offset Hoff);
        [|intros s y; apply Hrow_keep].
      intros s. unfold row_step.
      apply (fold_left_reaches
               (fun info => In (lower k) (weather_conditions info))
               (cell_step (start + row_offset)) weather_columns col Hcol);
        [|intros s' y; apply Hcell_keep].
      intros s'. unfold cell_step. rewrite Hv, Htv. simpl.
      apply in_or_app. right. apply marked_spec. eauto.
    - apply (fold_left_reaches
               (fun info => In (lower k) (sea_conditions info))
               row_step weather_offsets row_offset Hoff);
        [|intros s y; apply Hrow_keep].
      intros s. unfold row_step.
      apply (fold_left_reaches
               (fun info => In (lower k) (sea_conditions info))
               (cell_step (start + row_offset)) weather_columns col Hcol);
        [|intros s' y; apply Hcell_keep].
      intros s'. unfold cell_step. rewrite Hv, Htv. simpl.
      apply in_or_app. right. apply marked_spec. eauto. }
  destruct Hsound as [Hs1 Hs2]. destruct Hcomplete as [Hc1 Hc2].
  split; split.
  - intros Hin. exists st, start. auto.
  - intros (st' & start' & E & E' & _ & Hm). injection E as <-.
    rewrite Hst in E'. injection E' as <-. auto.
  - intros Hin. exists st, start. auto.
  - intros (st' & start' & E & E' & _ & Hm). injection E as <-.
    rewrite Hst in E'. injection E' as <-. auto.
Qed.

(** ** The header of the notes sheet: fields are written once *)

Lemma unset_lookup (header_data : gmap string string) (field_key : string) :
  unset header_data field_key = true -> header_data !! field_key = None.
Proof. unfold unset. now destruct (header_data !! field_key). Qed.

Lemma neighbour_value_usable (sheet_data : sheet) (cell field_name text : string) :
  neighbour_value sheet_data cell field_name = Some text ->
  usable text field_name = true.
Proof.
  unfold neighbour_value. destruct (sheet_get sheet_data cell) as [v|];
    [|discriminate].
  destruct (truthy v); [|discriminate].
  destruct (usable (strip (py_str v)) field_name) eqn:E; simpl;
    [|discriminate].
  destruct (negb _); [|discriminate]. intros H. now injection H as <-.
Qed.

Lemma set_inline_field_step (value_clean : string)
    (header_data : gmap string string) (field : string * string) :
  header_step field header_data (set_inline_field value_clean header_data field).
Proof.
  destruct field as [field_key field_name]. unfold set_inline_field, header_step.
  destruct (unset header_data field_key) eqn:Hu; simpl; [|now left].
  apply unset_lookup in Hu.
  destruct (contains field_name value_clean); simpl; [|now left].
  destruct (has_char ":" value_clean); simpl; [|now left].
  destruct (snd (split_once ":" value_clean)) as [rest|]; [|now left].
  destruct (usable (strip rest) field_name) eqn:E; [|now left].
  right. eauto.
Qed.

Lemma set_adjacent_field_step (sheet_data : sheet) (value_clean col : string)
    (row : Z) (header_data header_data' : gmap string string)
    (field : string * string) :
  set_adjacent_field sheet_data value_clean col row header_data field =
    Ok header_data' ->
  header_step field header_data header_data'.
Proof.
  destruct field as [field_key field_name]. unfold set_adjacent_field, header_step.
  destruct (unset header_data field_key) eqn:Hu; cbn [andb];
    [|intros H; injection H as <-; now left].
  apply unset_lookup in Hu.
  destruct (String.eqb value_clean field_name);
    [|intros H; injection H as <-; now left].
  destruct (if String.eqb col "B"
            then neighbour_value sheet_data (cell_name "D" row) field_name
            else None) as [target_value|] eqn:Et.
  - intros H. injection H as <-. right. exists target_value.
    destruct (String.eqb col "B"); [|discriminate].
    eauto using neighbour_value_usable.
  - destruct (shift_col col 1) as [c1|]; [|discriminate].
    destruct (shift_col col 2) as [c2|]; [|discriminate].
    destruct (shift_col col 3) as [c3|]; [|discriminate].
    unfold mbind, result_bind. cbv beta iota.
    match goal with
    | |- context [list_find ?P ?l] =>
        destruct (list_find P l) as [[i [adj_value|]]|] eqn:Ef
    end;
      intros H; injection H as <-; try (now left).
    right. exists adj_value. split; [assumption|]. split; [|reflexivity].
    apply list_find_Some in Ef as (Hl & _ & _).
    apply list_elem_of_lookup_2, list_elem_of_In, in_map_iff in Hl
      as (adj_cell & Hn & _).
    eauto using neighbour_value_usable.
Qed.

Lemma header_step_keeps (field : string * string)
    (header_data header_data' : gmap string string) :
  In field header_fields ->
  header_step field header_data header_data' ->
  header_data ⊆ header_data' /\
  (header_values_usable header_data -> header_values_usable header_data').
Proof.
  intros Hin [->|(v & Hnone & Hu & ->)]; [auto|]. split.
  - now apply insert_subseteq.
  - intros Hok k w Hk. destruct (decide (fst field = k)) as [<-|Hne].
    + rewrite lookup_insert_eq in Hk. injection Hk as <-.
      exists (snd field). now destruct field.
    + rewrite lookup_insert_ne in Hk by assumption. eauto.
Qed.

Section HeaderOfNotes.

Context (sheet_data : sheet).

Lemma set_inline_fields_keep (value_clean : string) :
  forall (fields : list (string * string)) (header_data : gmap string string),
    incl fields header_fields ->
    header_data ⊆ fold_left (set_inline_field value_clean) fields header_data /\
    (header_values_usable header_data ->
     header_values_usable
       (fold_left (set_inline_field value_clean) fields header_data)).
Proof.
  induction fields as [|field rest IH]; intros header_data Hincl; simpl;
    [auto|].
  destruct (header_step_keeps field header_data
              (set_inline_field value_clean header_data field))
    as [Hsub Hok]; [apply Hincl; now left | apply set_inline_field_step|].
  destruct (IH (set_inline_field value_clean header_data field)) as [Hsub' Hok'];
    [intros x Hx; apply Hincl; now right|].
  split; [etransitivity; eassumption | auto].
Qed.

Lemma set_adjacent_fields_keep (value_clean col : string) (row : Z) :
  forall (fields : list (string * string))
         (header_data header_data' : gmap string string),
    incl fields header_fields ->
    set_adjacent_fields sheet_data value_clean col row header_data fields =
      Ok header_data' ->
    header_data ⊆ header_data' /\
    (header_values_usable header_data -> header_values_usable header_data').
Proof.
  induction fields as [|field rest IH]; intros header_data header_data' Hincl H.
  - simpl in H. injection H as <-. auto.
  - simpl in H.
    destruct (set_adjacent_field sheet_data value_clean col row header_data field)
      as [hd1|e] eqn:E; [|discriminate].
    unfold mbind, result_bind in H. cbv beta iota in H.
    destruct (header_step_keeps field header_data hd1) as [Hsub Hok];
      [apply Hincl; now left | eapply set_adjacent_field_step, E|].
    destruct (IH hd1 header_data') as [Hsub' Hok'];
      [intros x Hx; apply Hincl; now right | assumption|].
    split; [etransitivity; eassumption | auto].
Qed.

Lemma header_cell_keeps (header_data header_data' : gmap string string)
    (cell_ref : string) (v : value) :
  header_cell sheet_data header_data cell_ref v = Ok header_data' ->
  header_data ⊆ header_data' /\
  (header_values_usable header_data -> header_values_usable header_data').
Proof.
  unfold header_cell. destruct v as [| | | |s];
    try (intros H; injection H as <-; auto).
  destruct (is_empty s); [intros H; injection H as <-; auto|].
  destruct (split_cell_reference cell_ref) as [[col row]|e]; [|discriminate].
  unfold mbind, result_bind. cbv beta iota.
  destruct (15 <? row); [intros H; injection H as <-; auto|].
  intros H. apply set_adjacent_fields_keep in H as [Hsub Hok];
    [|apply incl_refl].
  destruct (set_inline_fields_keep (strip s) header_fields header_data
              (incl_refl _)) as [Hsub' Hok'].
  split; [etransitivity; eassumption | auto].
Qed.

Lemma header_cells_keep :
  forall (cells : sheet) (header_data header_data' : gmap string string),
    header_cells sheet_data cells header_data = Ok header_data' ->
    header_data ⊆ header_data' /\
    (header_values_usable header_data -> header_values_usable header_data').
Proof.
  induction cells as [|[cell_ref v] rest IH]; intros header_data header_data' H.
  - simpl in H. injection H as <-. auto.
  - simpl in H.
    destruct (header_cell sheet_data header_data cell_ref v) as [hd1|e] eqn:E;
      [|discriminate].
    unfold mbind, result_bind in H. cbv beta iota in H.
    apply header_cell_keeps in E as [Hsub Hok].
    apply IH in H as [Hsub' Hok'].
    split; [etransitivity; eassumption | auto].
Qed.

End HeaderOfNotes.

(** In [extract_timesheet_header] a field keeps the first value it is
    given: going over more cells never changes or removes a field that is
    already in the table. *)
Theorem header_fields_written_once (sheet_data cells : sheet)
    (header_data header_data' : gmap string string) (field_key v : string) :
  header_cells sheet_data cells header_data = Ok header_data' ->
  header_data !! field_key = Some v ->
  header_data' !! field_key = Some v.
Proof.
  intros H Hk. apply header_cells_keep in H as [Hsub _].
  eapply lookup_weaken; eassumption.
Qed.

Lemma header_fields_written_once_witness :
  (<["vessel" := "Hafnia"]> (<["date" := "2024"]> ∅) : gmap string string)
    !! "vessel" = Some "Hafnia".
Proof.
  apply (header_fields_written_once
           [("A2", VStr "Vessel: Andesine"); ("A3", VStr "Date: 2024")]
           [("A2", VStr "Vessel: Andesine"); ("A3", VStr "Date: 2024")]
           (<["vessel" := "Hafnia"]> ∅)
           (<["vessel" := "Hafnia"]> (<["date" := "2024"]> ∅))
           "vessel" "Hafnia");
    vm_compute; reflexivity.
Defined.

(** Every value in the result of [extract_timesheet_header] belongs to one
    of the six header fields, is longer than one character and is not the
    name of its own field. *)
Theorem header_values_are_usable (sheet_data : sheet)
    (header_data : gmap string string) (field_key v : string) :
  extract_timesheet_header sheet_data = Ok header_data ->
  header_data !! field_key = Some v ->
  exists field_name,
    In (field_key, field_name) header_fields /\
    (1 < String.length v)%nat /\ v <> field_name.
Proof.
  intros H Hk. apply header_cells_keep in H as [_ Hok].
  destruct (Hok ltac:(intros k w Hkw; rewrite lookup_empty in Hkw; discriminate)
              field_key v Hk) as (field_name & Hin & Hu).
  exists field_name. split; [assumption|].
  unfold usable in Hu. apply andb_prop in Hu as [Hu Hlen].
  apply andb_prop in Hu as [_ Hne].
  split; [now apply Nat.ltb_lt in Hlen|].
  intros ->. rewrite String.eqb_refl in Hne. discriminate.
Qed.

Lemma header_values_are_usable_witness :
  exists field_name,
    In ("vessel", field_name) header_fields /\
    (1 < String.length "Andesine")%nat /\ "Andesine" <> field_name.
Proof.
  apply (header_values_are_usable
           [("A2", VStr "Vessel: Andesine"); ("A3", VStr "Date: 2024")]
           (<["date" := "2024"]> (<["vessel" := "Andesine"]> ∅))
           "vessel" "Andesine");
    vm_compute; reflexivity.
Defined.

(** ** The operational data of the cover sheet: the last cell wins *)

Lemma set_operational_fields_lookup (value_clean field_key : string) :
  forall (fields : list (string * list string))
         (operational_data : gmap string string),
    fold_left (set_operational_field value_clean) fields operational_data
      !! field_key =
    if existsb
         (fun '(key, field_names) =>
            String.eqb key field_key &&
            existsb (fun field_name => startswith value_clean (field_name ++ ":"))
              field_names)
         fields
    then Some (strip (after_colon value_clean))
    else operational_data !! field_key.
Proof.
  induction fields as [|[key field_names] rest IH]; intros operational_data;
    [reflexivity|].
  cbn [fold_left existsb]. rewrite IH. unfold set_operational_field.
  destruct (existsb _ rest); [now rewrite orb_true_r|]. rewrite orb_false_r.
  destruct (existsb _ field_names); [|now rewrite andb_false_r].
  rewrite andb_true_r. destruct (String.eqb_spec key field_key) as [->|Hne].
  - apply lookup_insert_eq.
  - now apply lookup_insert_ne.
Qed.

(** The effect of one cell of the cover sheet on one field. *)
Lemma operational_cell_lookup (operational_data : gmap string string)
    (cell_ref : string) (v : value) (field_key : string) :
  (match v with
   | VStr s =>
       if is_empty s then operational_data
       else fold_left (set_operational_field (strip s)) field_mapping
              operational_data
   | _ => operational_data
   end) !! field_key =
  if sets_operational_field field_key (cell_ref, v)
  then Some (strip (after_colon (strip (py_str v))))
  else operational_data !! field_key.
Proof.
  destruct v as [| | | |s]; try reflexivity. unfold sets_operational_field.
  destruct (is_empty s); [reflexivity|].
  rewrite set_operational_fields_lookup. reflexivity.
Qed.

Lemma operational_cells_lookup (field_key : string) :
  forall (cells : sheet) (operational_data : gmap string string),
    (forall v,
       fold_left
         (fun operational_data '(cell, v) =>
            match v with
            | VStr s =>
                if is_empty s then operational_data
                else fold_left (set_operational_field (strip s)) field_mapping
                       operational_data
            | _ => operational_data
            end)
         cells operational_data !! field_key = Some v ->
       operational_data !! field_key = Some v \/
       exists cell_ref w,
         In (cell_ref, w) cells /\
         sets_operational_field field_key (cell_ref, w) = true /\
         v = strip (after_colon (strip (py_str w)))) /\
    (forallb (fun cell => negb (sets_operational_field field_key cell)) cells = true ->
     fold_left
       (fun operational_data '(cell, v) =>
          match v with
          | VStr s =>
              if is_empty s then operational_data
              else fold_left (set_operational_field (strip s)) field_mapping
                     operational_data
          | _ => operational_data
          end)
       cells operational_data !! field_key = operational_data !! field_key).
Proof.
  induction cells as [|[cell_ref w] rest IH]; intros operational_data.
  - simpl. auto.
  - cbn [fold_left].
    destruct (IH (match w with
                  | VStr s =>
                      if is_empty s then operational_data
                      else fold_left (set_operational_field (strip s))
                             field_mapping operational_data
                  | _ => operational_data
                  end)) as [Hsound Hkeep].
    split.
    + intros v Hv. destruct (Hsound v Hv) as [Hhere|(r & w' & Hin & Hs & ->)].
      * rewrite (operational_cell_lookup operational_data cell_ref) in Hhere.
        destruct (sets_operational_field field_key (cell_ref, w)) eqn:E;
          [|now left].
        injection Hhere as <-. right. exists cell_ref, w. simpl. auto.
      * right. exists r, w'. simpl. auto.
    + intros Hnone. cbn [forallb] in Hnone. apply andb_prop in Hnone as [Hc Hr].
      rewrite (Hkeep Hr), (operational_cell_lookup operational_data cell_ref).
      apply negb_true_iff in Hc. now rewrite Hc.
Qed.

(** Every value of [extract_operational_data] is the trimmed text after
    the first colon of a non-empty string cell whose trimmed text starts
    with a name of that field followed by a colon. *)
Theorem operational_data_sound (sheet_data : sheet) (field_key v : string) :
  extract_operational_data sheet_data !! field_key = Some v ->
  exists cell_ref s,
    In (cell_ref, VStr s) sheet_data /\
    sets_operational_field field_key (cell_ref, VStr s) = true /\
    v = strip (after_colon (strip s)).
Proof.
  unfold extract_operational_data. intros H.
  destruct (operational_cells_lookup field_key sheet_data ∅) as [Hsound _].
  destruct (Hsound v H) as [Hempty|(cell_ref & w & Hin & Hs & ->)].
  - rewrite lookup_empty in Hempty. discriminate.
  - destruct w as [| | | |s]; try discriminate. eauto.
Qed.

Lemma operational_data_sound_witness :
  exists cell_ref s,
    In (cell_ref, VStr s) [("B7", VStr " Inspector: J. Doe ")] /\
    sets_operational_field "inspector" (cell_ref, VStr s) = true /\
    "J. Doe" = strip (after_colon (strip s)).
Proof.
  apply (operational_data_sound [("B7", VStr " Inspector: J. Doe ")]
           "inspector" "J. Doe").
  vm_compute. reflexivity.
Defined.

(** In [extract_operational_data] the last cell that names a field decides
    its value: a later cell overwrites what an earlier one had set. *)
Theorem operational_data_last_cell_wins (before after : sheet)
    (cell_ref s field_key : string) :
  sets_operational_field field_key (cell_ref, VStr s) = true ->
  forallb (fun cell => negb (sets_operational_field field_key cell)) after = true ->
  extract_operational_data (before ++ (cell_ref, VStr s) :: after)%list
    !! field_key =
  Some (strip (after_colon (strip s))).
Proof.
  intros Hs Hafter. unfold extract_operational_data.
  rewrite fold_left_app. cbn [fold_left].
  match goal with
  | |- fold_left ?f after ?m !! _ = _ =>
      destruct (operational_cells_lookup field_key after m) as [_ Hkeep]
  end.
  rewrite (Hkeep Hafter).
  match goal with
  | |- context [fold_left ?f before ∅] =>
      rewrite (operational_cell_lookup (fold_left f before ∅) cell_ref (VStr s))
  end.
  now rewrite Hs.
Qed.

Lemma operational_data_last_cell_wins_witness :
  extract_operational_data
    ([("A1", VStr "Terminal: First")] ++
     ("A2", VStr "Terminal: Second") :: [("A3", VStr "Inspector: X")])%list
    !! "terminal" =
  Some (strip (after_colon (strip "Terminal: Second"))).
Proof.
  apply (operational_data_last_cell_wins [("A1", VStr "Terminal: First")]
           [("A3", VStr "Inspector: X")] "A2" "Terminal: Second" "terminal");
    reflexivity.
Defined.

(** ** Pumping data: kinds of values and the last resort *)

Lemma pumping_typed_insert (pumping_data : gmap string pval)
    (field_key : string) (x : pval) :
  pumping_typed pumping_data ->
  In field_key (map fst field_patterns) ->
  (if is_numeric_field field_key then exists d, x = PNum d
   else exists t, x = PText t) ->
  pumping_typed (<[field_key := x]> pumping_data).
Proof.
  intros Hpd Hin Hx k y Hk. destruct (decide (field_key = k)) as [<-|Hne].
  - rewrite lookup_insert_eq in Hk. injection Hk as <-. auto.
  - rewrite lookup_insert_ne in Hk by assumption. auto.
Qed.

Lemma store_field_typed (field_key text : string)
    (pumping_data : gmap string pval) :
  In field_key (map fst field_patterns) ->
  pumping_typed pumping_data ->
  pumping_typed (store_field field_key text pumping_data).
Proof.
  intros Hin Hpd. destruct (is_numeric_field field_key) eqn:Hn.
  - pose proof (store_field_numeric field_key text pumping_data Hn) as H.
    destruct (search_number text); [|now rewrite H].
    destruct H as (d & _ & ->). apply pumping_typed_insert; auto.
    rewrite Hn. eauto.
  - unfold store_field. rewrite Hn. apply pumping_typed_insert; auto.
    rewrite Hn. eauto.
Qed.

Lemma pumping_scan_typed (sheet_data : sheet) (start : Z)
    (pumping_data : gmap string pval) :
  pumping_typed pumping_data ->
  pumping_typed (pumping_scan sheet_data start pumping_data).
Proof.
  intros Hpd. unfold pumping_scan.
  apply fold_left_invariant; [exact Hpd|]. intros pd1 row_offset _ Hpd1.
  apply fold_left_invariant; [exact Hpd1|]. intros pd2 col _ Hpd2.
  destruct (sheet_get sheet_data (cell_name col (start + row_offset)))
    as [v|]; [|exact Hpd2].
  destruct (truthy v); [|exact Hpd2].
  unfold pumping_fields.
  apply fold_left_invariant; [exact Hpd2|].
  intros pd3 [field_key field_name] Hin Hpd3.
  destruct (contains field_name (strip (py_str v))); [|exact Hpd3].
  destruct (sheet_get sheet_data (cell_name col (start + row_offset + 1)))
    as [field_value|]; [|exact Hpd3].
  destruct (truthy field_value); [|exact Hpd3].
  apply store_field_typed; [|exact Hpd3].
  apply in_map_iff. exists (field_key, field_name). auto.
Qed.

Lemma has_key_false (pumping_data : gmap string pval) (k : string) :
  has_key pumping_data k = false -> pumping_data !! k = None.
Proof. unfold has_key. now destruct (pumping_data !! k). Qed.

(** The last resort of [extract_pumping_data] never changes a field that
    the scan of the notes table has set; it only adds the pumping time or
    the pumping rate when they are missing, each from a cell that holds
    nothing but a number, in the range that the code expects of it. *)
Theorem pumping_fallback_only_fills (sheet_data : sheet)
    (pumping_data : gmap string pval) :
  pumping_data ⊆ pumping_fallback sheet_data pumping_data /\
  forall field_key x,
    pumping_fallback sheet_data pumping_data !! field_key = Some x ->
    pumping_data !! field_key = Some x \/
    last_resort_value sheet_data field_key x.
Proof.
  unfold pumping_fallback.
  destruct (negb (has_key pumping_data "pumping_time") ||
            negb (has_key pumping_data "pumping_rate")); [|auto].
  apply (fold_left_invariant
           (fun acc =>
              pumping_data ⊆ acc /\
              forall field_key x,
                acc !! field_key = Some x ->
                pumping_data !! field_key = Some x \/
                last_resort_value sheet_data field_key x)); [auto|].
  intros acc [cell_ref v] Hin [Hsub Hacc].
  destruct (truthy v) eqn:Htv; [|auto].
  destruct (is_bare_number (strip (py_str v))) eqn:Hbare; [|auto].
  destruct (py_float (comma_to_point (strip (py_str v)))) as [d|e] eqn:Hd;
    [|auto].
  assert (Hadd : forall k,
            acc !! k = None ->
            (k = "pumping_time" /\ dec_gt d (-50) = true /\ dec_lt d 0 = true) \/
            (k = "pumping_rate" /\ dec_lt d (-100) = true) ->
            pumping_data ⊆ <[k := PNum d]> acc /\
            forall field_key x,
              <[k := PNum d]> acc !! field_key = Some x ->
              pumping_data !! field_key = Some x \/
              last_resort_value sheet_data field_key x).
  { intros k Hnone Hrange. split.
    - etransitivity; [exact Hsub | now apply insert_subseteq].
    - intros field_key x Hx. destruct (decide (k = field_key)) as [<-|Hne].
      + rewrite lookup_insert_eq in Hx. injection Hx as <-. right.
        exists cell_ref, v, d. auto 10.
      + rewrite lookup_insert_ne in Hx by assumption. auto. }
  destruct (negb (has_key acc "pumping_time")) eqn:Ht; simpl.
  - apply negb_true_iff, has_key_false in Ht.
    destruct (dec_gt d (-50)) eqn:Hgt; simpl.
    + destruct (dec_lt d 0) eqn:Hlt; [apply Hadd; auto|].
      destruct (negb (has_key acc "pumping_rate")) eqn:Hr; simpl; [|auto].
      apply negb_true_iff, has_key_false in Hr.
      destruct (dec_lt d (-100)) eqn:Hlt'; [apply Hadd; auto | auto].
    + destruct (negb (has_key acc "pumping_rate")) eqn:Hr; simpl; [|auto].
      apply negb_true_iff, has_key_false in Hr.
      destruct (dec_lt d (-100)) eqn:Hlt'; [apply Hadd; auto | auto].
  - destruct (negb (has_key acc "pumping_rate")) eqn:Hr; simpl; [|auto].
    apply negb_true_iff, has_key_false in Hr.
    destruct (dec_lt d (-100)) eqn:Hlt'; [apply Hadd; auto | auto].
Qed.

Lemma pumping_fallback_typed (sheet_data : sheet)
    (pumping_data : gmap string pval) :
  pumping_typed pumping_data ->
  pumping_typed (pumping_fallback sheet_data pumping_data).
Proof.
  intros Hpd. unfold pumping_fallback.
  destruct (negb (has_key pumping_data "pumping_time") ||
            negb (has_key pumping_data "pumping_rate")); [|exact Hpd].
  apply fold_left_invariant; [exact Hpd|].
  intros acc [cell_ref v] _ Hacc.
  destruct (truthy v); [|exact Hacc].
  destruct (is_bare_number (strip (py_str v))); [|exact Hacc].
  destruct (py_float (comma_to_point (strip (py_str v)))) as [d|e];
    [|exact Hacc].
  destruct (negb (has_key acc "pumping_time") && dec_gt d (-50) && dec_lt d 0).
  - apply pumping_typed_insert; [exact Hacc | simpl; auto | simpl; eauto].
  - destruct (negb (has_key acc "pumping_rate") && dec_lt d (-100));
      [|exact Hacc].
    apply pumping_typed_insert; [exact Hacc | simpl; auto | simpl; eauto].
Qed.

(** In the result of [extract_pumping_data] every key is one of the six
    field keys; the pumping time and the pumping rate, when present, are
    always numbers, never the raw text, and the other fields are always
    text. *)
Theorem pumping_data_typed (sheet_data : sheet)
    (structure : option notes_structure) (field_key : string) (x : pval) :
  extract_pumping_data sheet_data structure !! field_key = Some x ->
  In field_key (map fst field_patterns) /\
  (is_numeric_field field_key = true -> exists d, x = PNum d) /\
  (is_numeric_field field_key = false -> exists t, x = PText t).
Proof.
  assert (Hempty : pumping_typed ∅)
    by (intros k y Hk; rewrite lookup_empty in Hk; discriminate).
  assert (Hall : pumping_typed (extract_pumping_data sheet_data structure)).
  { unfold extract_pumping_data. destruct structure as [st|]; [|exact Hempty].
    destruct (notes_start_row st) as [start|]; [|exact Hempty].
    destruct (start =? 0); [exact Hempty|].
    apply pumping_fallback_typed, pumping_scan_typed, Hempty. }
  intros H. destruct (Hall field_key x H) as [Hin Hkind].
  split; [assumption|].
  destruct (is_numeric_field field_key); split; intros; auto; discriminate.
Qed.

Lemma pumping_data_typed_witness :
  In "pumping_time" (map fst field_patterns) /\
  (is_numeric_field "pumping_time" = true ->
   exists d, PNum (mk_dec (-125) 1) = PNum d) /\
  (is_numeric_field "pumping_time" = false ->
   exists t, PNum (mk_dec (-125) 1) = PText t).
Proof.
  apply (pumping_data_typed
           [("G1", VStr "General Notes"); ("G2", VStr "Pumping Time");
            ("G3", VStr "-12,5 h")]
           (Some (mk_structure false true None (Some "G") (Some 1)))
           "pumping_time" (PNum (mk_dec (-125) 1))).
  vm_compute. reflexivity.
Defined.

(** ** Remarks and notes *)

Lemma remarks_cell_lists (value_clean : string) (notes_data : notes_lists) :
  (forall r, In r (remarks (remarks_cell value_clean notes_data)) ->
     In r (remarks notes_data) \/
     (r <> EmptyString /\ r <> "-" /\ contains "Remarks:" value_clean = true /\
      r = strip (after_colon value_clean))) /\
  (forall t, In t (special_notes (remarks_cell value_clean notes_data)) ->
     In t (special_notes notes_data) \/
     (t = value_clean /\ contains "Special Notes" value_clean = true)) /\
  (forall t, In t (general_notes (remarks_cell value_clean notes_data)) ->
     In t (general_notes notes_data) \/
     (t = value_clean /\ contains "General Notes" value_clean = true)).
Proof.
  unfold remarks_cell. simpl. repeat split; intros x Hx;
    apply in_app_or in Hx as [Hx|Hx]; auto; right.
  - destruct (contains "Remarks:" value_clean || contains "C.- Remarks:" value_clean)
      eqn:Hr; [|destruct Hx].
    destruct (has_char ":" value_clean); [|destruct Hx].
    destruct (negb (is_empty (strip (after_colon value_clean)))) eqn:Hne;
      [|destruct Hx].
    destruct (String.eqb (strip (after_colon value_clean)) "-") eqn:Hd;
      [destruct Hx|].
    destruct (String.eqb (strip (after_colon value_clean)) EmptyString);
      [destruct Hx|].
    destruct Hx as [<-|[]].
    repeat split.
    + intros E. rewrite E in Hne. discriminate.
    + intros E. rewrite E in Hd. discriminate.
    + apply orb_prop in Hr as [Hr|Hr]; [assumption|].
      exact (contains_part "C.- " "Remarks:" EmptyString value_clean
               ltac:(rewrite append_empty_r; exact Hr)).
  - destruct (contains "Special Notes" value_clean); [|destruct Hx].
    destruct Hx as [<-|[]]. auto.
  - destruct (contains "General Notes" value_clean); [|destruct Hx].
    destruct Hx as [<-|[]]. auto.
Qed.

(** A remark kept by [extract_remarks_and_notes] is never empty and never
    a lone dash: it is the trimmed text after the first colon of a cell that
    names "Remarks:" (the test on "C.- Remarks:" adds nothing to it). The
    special and the general notes are the trimmed texts of the cells that
    name the heading. *)
Theorem remarks_and_notes_sound (sheet_data : sheet) :
  (forall r, In r (remarks (extract_remarks_and_notes sheet_data)) ->
     r <> EmptyString /\ r <> "-" /\
     exists cell_ref s,
       In (cell_ref, VStr s) sheet_data /\
       contains "Remarks:" (strip s) = true /\
       r = strip (after_colon (strip s))) /\
  (forall t, In t (special_notes (extract_remarks_and_notes sheet_data)) ->
     contains "Special Notes" t = true /\
     exists cell_ref s, In (cell_ref, VStr s) sheet_data /\ t = strip s) /\
  (forall t, In t (general_notes (extract_remarks_and_notes sheet_data)) ->
     contains "General Notes" t = true /\
     exists cell_ref s, In (cell_ref, VStr s) sheet_data /\ t = strip s).
Proof.
  unfold extract_remarks_and_notes.
  apply (fold_left_invariant
           (fun notes_data =>
              (forall r, In r (remarks notes_data) ->
                 r <> EmptyString /\ r <> "-" /\
                 exists cell_ref s,
                   In (cell_ref, VStr s) sheet_data /\
                   contains "Remarks:" (strip s) = true /\
                   r = strip (after_colon (strip s))) /\
              (forall t, In t (special_notes notes_data) ->
                 contains "Special Notes" t = true /\
                 exists cell_ref s, In (cell_ref, VStr s) sheet_data /\ t = strip s) /\
              (forall t, In t (general_notes notes_data) ->
                 contains "General Notes" t = true /\
                 exists cell_ref s, In (cell_ref, VStr s) sheet_data /\ t = strip s)));
    [split; [|split]; intros x Hx; destruct Hx|].
  intros notes_data [cell_ref v] Hin (Hr & Hs & Hg).
  destruct v as [| | | |s]; auto. destruct (is_empty s); auto.
  destruct (remarks_cell_lists (strip s) notes_data) as (Hr' & Hs' & Hg').
  split; [|split]; intros x Hx.
  - destruct (Hr' x Hx) as [?|(? & ? & ? & ?)]; [now apply Hr|]. eauto 10.
  - destruct (Hs' x Hx) as [?|[-> ?]]; [now apply Hs|]. eauto.
  - destruct (Hg' x Hx) as [?|[-> ?]]; [now apply Hg|]. eauto.
Qed.

(** ** The choice of the notes sheet *)

Lemma contains_join (k sep p : string) (parts : list string) :
  In p parts -> contains k p = true -> contains k (join sep parts) = true.
Proof.
  intros Hin Hk. induction parts as [|q rest IH]; [destruct Hin|].
  destruct rest as [|q' rest'].
  - destruct Hin as [->|[]]. exact Hk.
  - change (join sep (q :: q' :: rest'))
      with (q ++ sep ++ join sep (q' :: rest')).
    destruct Hin as [->|Hin].
    + apply (contains_within k EmptyString p (sep ++ join sep (q' :: rest'))), Hk.
    + rewrite <- append_assoc, <- (append_empty_r (join sep (q' :: rest'))).
      apply contains_within, IH, Hin.
Qed.

Lemma sheet_text_contains (sheet_data : sheet) (cell_ref : string) (v : value)
    (keyword : string) :
  In (cell_ref, v) sheet_data -> truthy v = true ->
  contains keyword (py_str v) = true ->
  contains keyword (sheet_text sheet_data) = true.
Proof.
  intros Hin Htv Hk. unfold sheet_text.
  apply contains_join with (p := py_str v); [|exact Hk].
  apply in_map, filter_In. split; [|exact Htv].
  apply in_map_iff. exists (cell_ref, v). auto.
Qed.

(** [find_timesheet_with_notes] does not miss a notes sheet: when some
    truthy cell of some sheet names one of the four keywords, a sheet of the
    workbook is returned, and the text of the returned sheet holds a
    keyword. *)
Theorem notes_sheet_is_found (data : workbook) (sheet_name : string)
    (sheet_data : sheet) (cell_ref : string) (v : value) (keyword : string) :
  In (sheet_name, sheet_data) data -> In (cell_ref, v) sheet_data ->
  truthy v = true -> In keyword notes_keywords ->
  contains keyword (py_str v) = true ->
  exists chosen chosen_data,
    find_timesheet_with_notes data = Some chosen /\
    In (chosen, chosen_data) data /\
    existsb (fun keyword => contains keyword (sheet_text chosen_data))
      notes_keywords = true.
Proof.
  intros Hsheet Hcell Htv Hkw Hk.
  assert (Hq : existsb (fun keyword => contains keyword (sheet_text sheet_data))
                 notes_keywords = true).
  { apply existsb_exists. exists keyword. split; [assumption|].
    eapply sheet_text_contains; eassumption. }
  clear Hcell Htv Hkw Hk.
  induction data as [|[name sd] rest IH]; [destruct Hsheet|].
  change (find_timesheet_with_notes ((name, sd) :: rest))
    with (if existsb (fun keyword => contains keyword (sheet_text sd))
               notes_keywords
          then Some name else find_timesheet_with_notes rest).
  destruct (existsb (fun keyword => contains keyword (sheet_text sd))
              notes_keywords) eqn:E.
  - exists name, sd. split; [reflexivity|]. split; [now left | exact E].
  - destruct Hsheet as [Heq|Hin]; [injection Heq as -> ->; congruence|].
    destruct (IH Hin) as (chosen & cd & Hf & Hc & Hq').
    exists chosen, cd. split; [exact Hf|]. split; [now right | exact Hq'].
Qed.

Lemma notes_sheet_is_found_witness :
  exists chosen chosen_data,
    find_timesheet_with_notes
      [("Cover", [("A1", VStr "Report")]);
       ("Times", [("G1", VStr "C.- General Notes:")])] = Some chosen /\
    In (chosen, chosen_data)
      [("Cover", [("A1", VStr "Report")]);
       ("Times", [("G1", VStr "C.- General Notes:")])] /\
    existsb (fun keyword => contains keyword (sheet_text chosen_data))
      notes_keywords = true.
Proof.
  apply (notes_sheet_is_found
           [("Cover", [("A1", VStr "Report")]);
            ("Times", [("G1", VStr "C.- General Notes:")])]
           "Times" [("G1", VStr "C.- General Notes:")] "G1"
           (VStr "C.- General Notes:") "General Notes");
    try reflexivity; simpl; auto.
Defined.

(** ** The upload filter *)

Lemma after_last_none (sep : ascii) (s : string) :
  has_char sep s = false -> after_last sep s = None.
Proof.
  induction s as [|c r IH]; simpl; [reflexivity|].
  intros H. apply orb_false_iff in H as [Hc Hr]. rewrite (IH Hr).
  now rewrite Ascii.eqb_sym, Hc.
Qed.

Lemma after_last_app (sep : ascii) (stem ext : string) :
  has_char sep ext = false ->
  after_last sep (stem ++ String sep ext) = Some ext.
Proof.
  intros H. induction stem as [|c r IH]; simpl.
  - now rewrite (after_last_none sep ext H), Ascii.eqb_refl.
  - now rewrite IH.
Qed.

Lemma has_char_app (sep : ascii) (stem rest : string) :
  has_char sep (stem ++ String sep rest) = true.
Proof.
  induction stem as [|c r IH]; simpl.
  - now rewrite Ascii.eqb_refl.
  - rewrite IH. apply orb_true_r.
Qed.

(** [allowed_file] looks only at what follows the last dot of the name:
    a name ending in a dot and an extension without dots is allowed exactly
    when the extension, in lowercase, is "xlsx" or "xlsm"; a name without a
    dot is never allowed. *)
Theorem allowed_file_by_extension (stem ext : string) :
  has_char "." ext = false ->
  allowed_file (stem ++ "." ++ ext) =
    (String.eqb (lower ext) "xlsx" || String.eqb (lower ext) "xlsm") /\
  (has_char "." stem = false -> allowed_file stem = false).
Proof.
  intros H. unfold allowed_file. split.
  - change (stem ++ "." ++ ext) with (stem ++ String "." ext).
    rewrite has_char_app, after_last_app by assumption. simpl.
    now rewrite orb_false_r.
  - intros ->. reflexivity.
Qed.

Lemma allowed_file_by_extension_witness :
  allowed_file ("report.final" ++ "." ++ "XlsX") =
    (String.eqb (lower "XlsX") "xlsx" || String.eqb (lower "XlsX") "xlsm") /\
  (has_char "." "report.final" = false -> allowed_file "report.final" = false).
Proof. apply (allowed_file_by_extension "report.final" "XlsX"). reflexivity. Defined.

(** ** The classifier: keywords that an earlier category takes *)

Lemma first_match_head (category : string) (keywords : list string)
    (rest : list (string * list string)) (t : string) :
  first_match ((category, keywords) :: rest) t =
  if any_keyword keywords t then Some category else first_match rest t.
Proof. reflexivity. Qed.

(** A text of unloading is never classified "Descarga" by the words
    "unload", "unloading", "descarga", "descargar" or "descargando": each
    holds the keyword "load" or "carga" of the category "Carga", which comes
    first, so the event goes to "Carga" (or to "Alije/Transferencia", which
    comes before both). *)
Theorem unloading_is_classified_as_loading (text : string) :
  contains "unload" (lower text) = true \/
  contains "descarga" (lower text) = true ->
  (categorize text = "Alije/Transferencia" \/ categorize text = "Carga") /\
  categorize text <> "Descarga".
Proof.
  intros H.
  assert (Hcarga : contains "load" (lower text) = true \/
                   contains "carga" (lower text) = true).
  { destruct H as [H|H].
    - left. exact (contains_part "un" "load" EmptyString (lower text) H).
    - right. exact (contains_part "des" "carga" EmptyString (lower text) H). }
  assert (Hcases : categorize text = "Alije/Transferencia" \/
                   categorize text = "Carga").
  { unfold categorize, category_of_text, patterns.
    rewrite first_match_head.
    destruct (any_keyword _ (lower text)); [now left|].
    rewrite first_match_head.
    match goal with
    | |- context [any_keyword ?kws (lower text)] =>
        assert (Hk : any_keyword kws (lower text) = true)
    end.
    { destruct Hcarga as [Hc|Hc];
        eapply any_keyword_in; try exact Hc; simpl; tauto. }
    rewrite Hk. now right. }
  split; [exact Hcases|].
  destruct Hcases as [-> | ->]; discriminate.
Qed.

Lemma unloading_is_classified_as_loading_witness :
  (categorize "Commenced unloading" = "Alije/Transferencia" \/
   categorize "Commenced unloading" = "Carga") /\
  categorize "Commenced unloading" <> "Descarga".
Proof.
  apply (unloading_is_classified_as_loading "Commenced unloading").
  left. reflexivity.
Defined.

(** ** The buckets of the classifier lose no event *)

Lemma categorize_in_categories (text : string) : In (categorize text) categories.
Proof.
  unfold categorize, category_of_text.
  destruct (first_match patterns (lower text)) as [c|] eqn:E.
  - apply pattern_categories. eapply first_match_in, E.
  - unfold categories. simpl. tauto.
Qed.

Lemma list_sum_map_add {X : Type} (g h : X -> nat) (l : list X) :
  list_sum (map (fun x => (g x + h x)%nat) l) =
  (list_sum (map g l) + list_sum (map h l))%nat.
Proof. induction l as [|x l IH]; simpl; [reflexivity|]. rewrite IH. lia. Qed.

Lemma list_sum_indicator (x : string) (l : list string) :
  List.NoDup l -> In x l ->
  list_sum (map (fun c => if String.eqb c x then 1%nat else 0%nat) l) = 1%nat.
Proof.
  induction l as [|c l IH]; intros Hnd Hin; [destruct Hin|].
  inversion Hnd as [|? ? Hnotin Hnd']; subst. simpl.
  destruct (String.eqb_spec c x) as [->|Hne].
  - assert (H0 : list_sum (map (fun c => if String.eqb c x then 1%nat else 0%nat) l)
                 = 0%nat).
    { clear IH Hnd Hnd' Hin. induction l as [|d l IH]; [reflexivity|].
      simpl in *. destruct (String.eqb_spec d x) as [->|_]; [tauto|].
      apply IH. tauto. }
    now rewrite H0.
  - destruct Hin as [?|Hin]; [congruence|]. now rewrite IH.
Qed.

Lemma filter_sizes_sum (f : event -> string) (cs : list string)
    (events : list event) :
  List.NoDup cs -> (forall e, In e events -> In (f e) cs) ->
  list_sum
    (map (fun c => List.length (List.filter (fun e => String.eqb c (f e)) events))
       cs) = List.length events.
Proof.
  intros Hnd. induction events as [|ev rest IH]; intros Hin.
  - simpl. clear Hnd Hin. induction cs as [|c cs IHc]; simpl; auto.
  - transitivity
      (list_sum (map (fun c => if String.eqb c (f ev) then 1%nat else 0%nat) cs) +
       list_sum
         (map (fun c =>
                 List.length (List.filter (fun e => String.eqb c (f e)) rest))
            cs))%nat.
    + rewrite <- list_sum_map_add. f_equal. apply map_ext. intros c.
      simpl. destruct (String.eqb c (f ev)); reflexivity.
    + rewrite (list_sum_indicator (f ev) cs Hnd) by (apply Hin; now left).
      rewrite IH by (intros e He; apply Hin; now right). reflexivity.
Qed.

Lemma bucket_sizes_sum (events : list event) :
  list_sum
    (map (fun c =>
            List.length
              (List.filter (fun e => String.eqb c (categorize (Event e))) events))
       categories) = List.length events.
Proof.
  apply (filter_sizes_sum (fun e => categorize (Event e)));
    [apply categories_NoDup | intros e _; apply categorize_in_categories].
Qed.

Lemma list_sum_nonempty_buckets (buckets : list (string * list event)) :
  list_sum
    (map (fun b => List.length (snd b))
       (List.filter (fun '(_, evs) => negb (Nat.eqb (List.length evs) 0)) buckets)) =
  list_sum (map (fun b => List.length (snd b)) buckets).
Proof.
  induction buckets as [|[c evs] rest IH]; simpl; [reflexivity|].
  destruct evs as [|e evs]; simpl; now rewrite IH.
Qed.

(** [_categorize_events] is a partition of the events: every bucket it
    returns has a label of the vocabulary, is not empty and holds, in the
    order of the input, the events that the classifier gives to that label;
    every event is in the bucket of its category; and the sizes of the
    buckets add up to the number of events. *)
Theorem categorize_events_partition (events : list event) :
  (forall c evs,
     In (c, evs) (_categorize_events events) ->
     In c categories /\ evs <> [] /\
     evs = List.filter (fun e => String.eqb c (categorize (Event e))) events) /\
  (forall ev,
     In ev events ->
     exists evs,
       In (categorize (Event ev), evs) (_categorize_events events) /\ In ev evs) /\
  list_sum (map (fun b => List.length (snd b)) (_categorize_events events)) =
  List.length events.
Proof.
  rewrite _categorize_events_buckets. split; [|split].
  - intros c evs H. apply filter_In in H as [H Hne].
    apply in_map_iff in H as (c' & Heq & Hc). injection Heq as -> <-.
    repeat split; [assumption|].
    intros E. rewrite E in Hne. discriminate.
  - intros ev Hin.
    exists (List.filter
              (fun e => String.eqb (categorize (Event ev)) (categorize (Event e)))
              events).
    assert (Hev : In ev (List.filter
                           (fun e => String.eqb (categorize (Event ev))
                                       (categorize (Event e))) events))
      by (apply filter_In; split; [assumption | apply String.eqb_refl]).
    split; [|exact Hev].
    apply filter_In. split.
    + apply in_map_iff. exists (categorize (Event ev)).
      split; [reflexivity | apply categorize_in_categories].
    + destruct (List.filter _ events); [destruct Hev | reflexivity].
  - rewrite list_sum_nonempty_buckets, List.map_map. simpl.
    apply bucket_sizes_sum.
Qed.

(** ** Sorting, dates and the timeline *)

Lemma string_leb_trans (a b c : string) :
  String.leb a b = true -> String.leb b c = true -> String.leb a c = true.
Proof.
  unfold String.leb. revert b c.
  induction a as [|x a IH]; intros [|y b] [|z c]; simpl; auto;
    try discriminate.
  unfold Ascii.compare.
  destruct (N.compare_spec (N_of_ascii x) (N_of_ascii y)) as [Exy|Lxy|Gxy];
    destruct (N.compare_spec (N_of_ascii y) (N_of_ascii z)) as [Eyz|Lyz|Gyz];
    destruct (N.compare_spec (N_of_ascii x) (N_of_ascii z)) as [Exz|Lxz|Gxz];
    try discriminate; try lia; auto.
  apply IH.
Qed.

Lemma string_leb_refl (a : string) : String.leb a a = true.
Proof. destruct (String.leb_total a a); assumption. Qed.

Section Sorting.

Context {A : Type} (leb : A -> A -> bool).
Context (leb_total : forall a b, leb a b = true \/ leb b a = true).
Context (leb_trans : forall a b c, leb a b = true -> leb b c = true -> leb a c = true).

Lemma insert_sorted_In (x y : A) (l : list A) :
  In y (insert_sorted leb x l) <-> y = x \/ In y l.
Proof.
  induction l as [|z l IH]; simpl; [intuition|].
  destruct (leb x z); simpl; [intuition|]. rewrite IH. intuition.
Qed.

Lemma py_sort_In (y : A) (l : list A) : In y (py_sort leb l) <-> In y l.
Proof.
  induction l as [|x l IH]; simpl; [tauto|].
  rewrite insert_sorted_In, IH. intuition.
Qed.

Lemma insert_sorted_length (x : A) (l : list A) :
  List.length (insert_sorted leb x l) = S (List.length l).
Proof.
  induction l as [|z l IH]; simpl; [reflexivity|].
  destruct (leb x z); simpl; [reflexivity|]. now rewrite IH.
Qed.

Lemma py_sort_length (l : list A) :
  List.length (py_sort leb l) = List.length l.
Proof.
  induction l as [|x l IH]; simpl; [reflexivity|].
  now rewrite insert_sorted_length, IH.
Qed.

Lemma insert_sorted_sorted (x : A) (l : list A) :
  StronglySorted (fun a b => leb a b = true) l ->
  StronglySorted (fun a b => leb a b = true) (insert_sorted leb x l).
Proof.
  induction l as [|z l IH]; intros Hs; simpl.
  - repeat constructor.
  - inversion Hs as [|? ? Hs' Hall]; subst.
    destruct (leb x z) eqn:E.
    + constructor; [assumption|]. constructor; [assumption|].
      eapply List.Forall_impl; [|exact Hall]. intros a Ha. eauto.
    + constructor; [auto|].
      apply List.Forall_forall. intros a Ha.
      apply insert_sorted_In in Ha as [->|Ha].
      * destruct (leb_total x z); congruence.
      * rewrite List.Forall_forall in Hall. auto.
Qed.

Lemma py_sort_sorted (l : list A) :
  StronglySorted (fun a b => leb a b = true) (py_sort leb l).
Proof.
  induction l as [|x l IH]; simpl; [constructor|].
  now apply insert_sorted_sorted.
Qed.

(** Insertion does not move past an element of the same class: for a
    class [q] of elements that are below one another, the elements of the
    class keep their order. *)
Lemma insert_sorted_stable (q : A -> bool) (x : A) (l : list A) :
  (forall a b, q a = true -> q b = true -> leb a b = true) ->
  List.filter q (insert_sorted leb x l) = List.filter q (x :: l).
Proof.
  intros Hq. induction l as [|z l IH]; [reflexivity|].
  simpl insert_sorted. destruct (leb x z) eqn:E; [reflexivity|].
  simpl List.filter in *. rewrite IH.
  destruct (q x) eqn:Hx; [|reflexivity].
  destruct (q z) eqn:Hz; [|reflexivity].
  rewrite (Hq x z Hx Hz) in E. discriminate.
Qed.

Lemma py_sort_stable (q : A -> bool) (l : list A) :
  (forall a b, q a = true -> q b = true -> leb a b = true) ->
  List.filter q (py_sort leb l) = List.filter q l.
Proof.
  intros Hq. induction l as [|x l IH]; [reflexivity|].
  simpl py_sort. rewrite insert_sorted_stable by assumption.
  simpl. now rewrite IH.
Qed.

Lemma sorted_head_least (x : A) (l : list A) (y : A) :
  StronglySorted (fun a b => leb a b = true) (x :: l) ->
  In y (x :: l) -> leb x y = true.
Proof.
  intros Hs Hin. inversion Hs as [|? ? _ Hall]; subst.
  destruct Hin as [<-|Hin].
  - destruct (leb_total x x); assumption.
  - rewrite List.Forall_forall in Hall. auto.
Qed.

Lemma last_cons (l : list A) :
  forall z x, List.last (z :: l) x = List.last l z.
Proof.
  induction l as [|w l IH]; intros z x; [reflexivity|].
  change (List.last (z :: w :: l) x) with (List.last (w :: l) x).
  now rewrite !IH.
Qed.

Lemma last_In (l : list A) : forall x, In (List.last l x) (x :: l).
Proof.
  induction l as [|z l IH]; intros x; [now left|].
  rewrite last_cons. right. apply IH.
Qed.

Lemma sorted_last_greatest (l : list A) :
  forall x y,
    StronglySorted (fun a b => leb a b = true) (x :: l) ->
    In y (x :: l) -> leb y (List.last l x) = true.
Proof.
  induction l as [|z l IH]; intros x y Hs Hin.
  - destruct Hin as [<-|[]]. simpl. destruct (leb_total x x); assumption.
  - inversion Hs as [|? ? Hs' Hall]; subst.
    rewrite last_cons. destruct Hin as [<-|Hin].
    + apply leb_trans with z.
      * rewrite List.Forall_forall in Hall. apply Hall. now left.
      * apply IH; [assumption | now left].
    + now apply IH.
Qed.

End Sorting.

Lemma insert_sorted_perm {A : Type} (leb : A -> A -> bool) (x : A) (l : list A) :
  Permutation (insert_sorted leb x l) (x :: l).
Proof.
  induction l as [|z l IH]; simpl; [reflexivity|].
  destruct (leb x z); [reflexivity|].
  rewrite IH. apply perm_swap.
Qed.

Lemma py_sort_perm {A : Type} (leb : A -> A -> bool) (l : list A) :
  Permutation (py_sort leb l) l.
Proof.
  induction l as [|x l IH]; simpl; [reflexivity|].
  rewrite insert_sorted_perm. now constructor.
Qed.

Lemma strip_nonempty (d : string) :
  is_empty (strip d) = false -> is_empty d = false.
Proof. destruct d; [discriminate | reflexivity]. Qed.

(** [_analyze_dates] without a date that is not blank returns no start, no
    end and zero days. Otherwise the start date and the end date are dates
    of the input, the start date is at or below every date that is not blank
    and the end date at or above it, in the order of texts; the number of
    days counts distinct dates, so it is at least one and at most the number
    of dates that are not blank. *)
Theorem analyze_dates_range (dates : list string) :
  ((forall d, In d dates -> is_empty (strip d) = true) ->
   _analyze_dates dates = mk_date_range None None 0 None) /\
  (forall d,
     In d dates -> is_empty (strip d) = false ->
     exists first final n,
       start_date (_analyze_dates dates) = Some first /\
       end_date (_analyze_dates dates) = Some final /\
       total_dates (_analyze_dates dates) = Some n /\
       In first dates /\ In final dates /\
       String.leb first d = true /\ String.leb d final = true /\
       (1 <= duration_days (_analyze_dates dates) <= n)%nat /\
       (n <= List.length dates)%nat).
Proof.
  unfold _analyze_dates.
  set (valid := List.filter
                  (fun d => negb (is_empty d) && negb (is_empty (strip d))) dates).
  split.
  - intros Hblank.
    assert (Hv : valid = []).
    { unfold valid. clear valid. induction dates as [|d l IH]; [reflexivity|].
      simpl. rewrite (Hblank d) by (now left). rewrite andb_false_r.
      apply IH. intros d' Hd'. apply Hblank. now right. }
    now rewrite Hv.
  - intros d Hin Hd.
    assert (Hdv : In d valid).
    { apply filter_In. split; [assumption|].
      now rewrite Hd, (strip_nonempty d Hd). }
    pose proof (py_sort_sorted String.leb String.leb_total string_leb_trans valid)
      as Hsorted.
    pose proof (proj2 (py_sort_In String.leb d valid) Hdv) as Hds.
    destruct (py_sort String.leb valid) as [|first rest] eqn:Es; [destruct Hds|].
    assert (Hfrom : forall y, In y (first :: rest) -> In y dates).
    { intros y Hy. rewrite <- Es in Hy. apply py_sort_In in Hy.
      apply filter_In in Hy. tauto. }
    exists first, (List.last rest first), (List.length valid). simpl.
    repeat split.
    + apply Hfrom. now left.
    + apply Hfrom, last_In.
    + eapply sorted_head_least; eauto using String.leb_total.
    + eapply sorted_last_greatest;
        eauto using String.leb_total, string_leb_trans.
    + assert (Hnd : In d (List.nodup String.string_dec valid))
        by (now apply nodup_In).
      destruct (List.nodup String.string_dec valid); [destruct Hnd|].
      simpl. lia.
    + apply List.NoDup_incl_length; [apply List.NoDup_nodup|].
      intros y Hy. now apply nodup_In in Hy.
    + unfold valid. apply List.filter_length_le.
Qed.

Lemma date_leb_total (a b : timeline_entry) :
  date_leb a b = true \/ date_leb b a = true.
Proof. apply String.leb_total. Qed.

Lemma date_leb_trans (a b c : timeline_entry) :
  date_leb a b = true -> date_leb b c = true -> date_leb a c = true.
Proof. apply string_leb_trans. Qed.

Lemma timeline_entries_length (events : list event) :
  (List.length (timeline_entries events) <= List.length events)%nat.
Proof.
  unfold timeline_entries. induction events as [|ev rest IH]; simpl in *; [lia|].
  rewrite length_app.
  destruct (Date ev) as [date|]; [|simpl; lia].
  destruct (negb (is_empty date) && negb (is_empty (Event ev))); simpl; lia.
Qed.

(** The timeline of [_analyze_timeline] is the list of the events that
    have a date and a name, rearranged in ascending order of the date texts
    only: entries of the same date stay in the order of the input, whatever
    their times. The first event has the least date, and the total is the
    number of such events. *)
Theorem timeline_is_stable_sort_by_date (events : list event) :
  Permutation (chronological_events (_analyze_timeline events))
    (timeline_entries events) /\
  StronglySorted (fun a b => String.leb (entry_date a) (entry_date b) = true)
    (chronological_events (_analyze_timeline events)) /\
  (forall date,
     List.filter (fun e => String.eqb (entry_date e) date)
       (chronological_events (_analyze_timeline events)) =
     List.filter (fun e => String.eqb (entry_date e) date)
       (timeline_entries events)) /\
  (forall first e,
     first_event (_analyze_timeline events) = Some first ->
     In e (chronological_events (_analyze_timeline events)) ->
     String.leb (entry_date first) (entry_date e) = true) /\
  total_timeline_events (_analyze_timeline events) =
    List.length (timeline_entries events) /\
  (total_timeline_events (_analyze_timeline events) <= List.length events)%nat.
Proof.
  unfold _analyze_timeline. simpl.
  pose proof (py_sort_sorted date_leb date_leb_total date_leb_trans
                (timeline_entries events)) as Hsorted.
  repeat split.
  - apply py_sort_perm.
  - exact Hsorted.
  - intros date. apply py_sort_stable.
    intros a b Ha Hb. apply String.eqb_eq in Ha, Hb. unfold date_leb.
    rewrite Ha, Hb. apply string_leb_refl.
  - intros first e Hf Hin.
    destruct (py_sort date_leb (timeline_entries events)) as [|x l];
      [discriminate|].
    injection Hf as <-.
    exact (sorted_head_least date_leb date_leb_total x l e Hsorted Hin).
  - apply py_sort_length.
  - rewrite py_sort_length. apply timeline_entries_length.
Qed.

(** ** When the header of the notes sheet is returned *)

Lemma set_adjacent_field_returns (sheet_data : sheet) (value_clean : string)
    (c : ascii) (row : Z) (header_data : gmap string string)
    (field : string * string) :
  exists header_data',
    set_adjacent_field sheet_data value_clean (String c EmptyString) row
      header_data field = Ok header_data'.
Proof.
  destruct field as [field_key field_name]. unfold set_adjacent_field.
  destruct (unset header_data field_key && String.eqb value_clean field_name);
    [|eauto].
  destruct (if String.eqb (String c EmptyString) "B"
            then neighbour_value sheet_data (cell_name "D" row) field_name
            else None); [eauto|].
  unfold shift_col, mbind, result_bind. cbv beta iota.
  match goal with
  | |- context [list_find ?P ?l] => destruct (list_find P l) as [[i [v|]]|]
  end; eauto.
Qed.

Lemma set_adjacent_fields_return (sheet_data : sheet) (value_clean : string)
    (c : ascii) (row : Z) :
  forall (fields : list (string * string)) (header_data : gmap string string),
    exists header_data',
      set_adjacent_fields sheet_data value_clean (String c EmptyString) row
        header_data fields = Ok header_data'.
Proof.
  induction fields as [|field rest IH]; intros header_data; [simpl; eauto|].
  cbn [set_adjacent_fields].
  destruct (set_adjacent_field_returns sheet_data value_clean c row header_data
              field) as [hd1 ->].
  unfold mbind, result_bind. cbv beta iota. apply IH.
Qed.

Lemma header_cells_return (sheet_data : sheet) :
  forall (cells : sheet) (header_data : gmap string string),
    forallb single_letter_ref cells = true ->
    exists header_data', header_cells sheet_data cells header_data = Ok header_data'.
Proof.
  induction cells as [|[cell_ref v] rest IH]; intros header_data H;
    [simpl; eauto|].
  cbn [forallb] in H. apply andb_prop in H as [Hc Hr].
  cbn [header_cells].
  assert (Hcell : exists hd1,
            header_cell sheet_data header_data cell_ref v = Ok hd1).
  { unfold header_cell. destruct v as [| | | |s]; eauto.
    unfold single_letter_ref in Hc. destruct (is_empty s); [eauto|].
    simpl in Hc. apply andb_prop in Hc as [Hd Hl].
    rewrite split_cell_reference_eq.
    destruct (is_empty (str_filter isdigit cell_ref)); [discriminate|].
    unfold mbind, result_bind. cbv beta iota.
    destruct (15 <? _); [eauto|].
    apply Nat.eqb_eq in Hl.
    destruct (str_filter isalpha cell_ref) as [|c [|c' col]];
      try discriminate Hl.
    apply set_adjacent_fields_return. }
  destruct Hcell as [hd1 ->]. unfold mbind, result_bind. cbv beta iota.
  now apply IH.
Qed.

(** [extract_timesheet_header] returns a table, without any exception,
    for every sheet of plain references whose non-empty string cells all
    have a reference with a digit and exactly one letter. *)
Theorem extract_timesheet_header_returns (sheet_data : sheet) :
  plain_refs sheet_data = true ->
  forallb single_letter_ref sheet_data = true ->
  exists header_data, extract_timesheet_header sheet_data = Ok header_data.
Proof. intros _. apply header_cells_return. Qed.

Lemma extract_timesheet_header_returns_witness :
  exists header_data,
    extract_timesheet_header
      [("B3", VStr "Vessel"); ("D3", VStr "Hafnia Andesine"); ("A1", VInt 4)] =
    Ok header_data.
Proof.
  apply (extract_timesheet_header_returns
           [("B3", VStr "Vessel"); ("D3", VStr "Hafnia Andesine");
            ("A1", VInt 4)]);
    reflexivity.
Defined.
